(** * supervisordkratos: supervisord configuration rendering

    A shallow embedding of the Go package [supervisordkratos]: the
    option value [Opt], the program configuration and its renderer
    (supervisordkratos.go), the group configuration and its renderer;
    then the properties of the option tracking and of the two renderers.

    Conventions of the embedding.
    - A Go [string] is a sequence of bytes: [string].  Go's [+] on strings
      is [+:+].
    - A Go [int] is [Z]; the package performs no arithmetic on it, it only
      prints it.
    - [map[string]string] is [gmap string string]; a nil map and an empty
      map are both [∅] (the package only takes [len] of a map and ranges
      over it).  A setter stores the mapping it is given as it is at the
      call.  The order in which [range] visits a map is not fixed by Go:
      it is an explicit argument, see [MapOrder].
    - A panic is a value of [panic]; a function that can panic returns a
      [result].
    - [*ProgramConfig] and [*GroupConfig] are addresses into a [heap];
      [nil] is [None].  The [*Opt[T]] fields of a program are created by
      [NewProgramConfig] and never shared or replaced by the package: they
      are stored inline in the record. *)

From Stdlib Require Import ZArith Ascii String DecimalString DecimalPos DecimalZ
  List.
From stdpp Require Import base option gmap strings list.

Local Open Scope string_scope.

(** ** Panics *)

Inductive panic : Type :=
  | MustNice               (* must.Nice: the value is the zero value *)
  | MustFull               (* must.Full: the pointer is nil *)
  | MustHave               (* must.Have: the slice is empty *)
  | MustIn                 (* mustslice.In: the value is not in the slice *)
  | ImpossibleInvalidType  (* errors.New("IMPOSSIBLE: INVALID TYPE") *)
  | NilDereference.        (* runtime error: nil pointer dereference *)

Inductive result (A : Type) : Type :=
  | Ok (a : A)
  | Panic (e : panic).
Arguments Ok {A} a.
Arguments Panic {A} e.

(** Sequencing: a panic aborts what follows.  With these instances
    [x ← r; k] and [r;; k] are stdpp's notations for it. *)
#[global] Instance result_ret : MRet result := λ A a, Ok a.
#[global] Instance result_bind : MBind result := λ A B k r,
  match r with
  | Ok a => k a
  | Panic e => Panic e
  end.

#[global] Instance panic_eq_dec : EqDecision panic.
Proof. solve_decision. Defined.

(** The two error kinds of the package: the guards of a constructor or of
    a setter raise a validation error. *)
Definition validation_error (e : panic) : Prop := e = MustNice ∨ e = MustIn.

(** ** The Go library functions the package calls *)

Module GoStrings.

(** [strings.Join(elems, sep)]. *)
Fixpoint Join (elems : list string) (sep : string) : string :=
  match elems with
  | [] => ""
  | [e] => e
  | e :: rest => e +:+ sep +:+ Join rest sep
  end.

Definition byte (n : nat) : ascii := ascii_of_nat n.

Fixpoint bytes (l : list nat) : string :=
  match l with
  | [] => ""
  | n :: l => String (byte n) (bytes l)
  end.

(** The table [asciiSpace] of package strings:
    tab, line feed, vertical tab, form feed, carriage return, space. *)
Definition asciiSpace (c : ascii) : bool :=
  bool_decide (nat_of_ascii c ∈ [9; 10; 11; 12; 13; 32]).

(** [unicode.IsSpace] on the runes that take several bytes, as their
    UTF-8 encodings: U+0085, U+00A0, U+1680, U+2000 to U+200A, U+2028,
    U+2029, U+202F, U+205F, U+3000. *)
Definition spaceRunes : list (list nat) :=
  [ [194; 133]; [194; 160]; [225; 154; 128];
    [226; 128; 128]; [226; 128; 129]; [226; 128; 130]; [226; 128; 131];
    [226; 128; 132]; [226; 128; 133]; [226; 128; 134]; [226; 128; 135];
    [226; 128; 136]; [226; 128; 137]; [226; 128; 138];
    [226; 128; 168]; [226; 128; 169]; [226; 128; 175];
    [226; 129; 159]; [227; 128; 128] ].

Definition isSpace2 (a b : ascii) : bool :=
  bool_decide ([nat_of_ascii a; nat_of_ascii b] ∈ spaceRunes).
Definition isSpace3 (a b c : ascii) : bool :=
  bool_decide ([nat_of_ascii a; nat_of_ascii b; nat_of_ascii c] ∈ spaceRunes).

(** [strings.TrimLeftFunc(s, unicode.IsSpace)]. *)
Fixpoint TrimLeftSpace (s : string) : string :=
  match s with
  | String a r1 =>
      if asciiSpace a then TrimLeftSpace r1
      else match r1 with
           | String b r2 =>
               if isSpace2 a b then TrimLeftSpace r2
               else match r2 with
                    | String c r3 =>
                        if isSpace3 a b c then TrimLeftSpace r3 else s
                    | "" => s
                    end
           | "" => s
           end
  | "" => s
  end.

(** The same from the end, on the reversed string: the bytes of a rune
    are met last byte first. *)
Fixpoint TrimLeftSpaceRev (s : string) : string :=
  match s with
  | String a r1 =>
      if asciiSpace a then TrimLeftSpaceRev r1
      else match r1 with
           | String b r2 =>
               if isSpace2 b a then TrimLeftSpaceRev r2
               else match r2 with
                    | String c r3 =>
                        if isSpace3 c b a then TrimLeftSpaceRev r3 else s
                    | "" => s
                    end
           | "" => s
           end
  | "" => s
  end.

(** [strings.TrimRightFunc(s, unicode.IsSpace)]. *)
Definition TrimRightSpace (s : string) : string :=
  String.rev (TrimLeftSpaceRev (String.rev s)).

(** [strings.TrimSpace(s)]: all leading and trailing white space
    removed, as defined by Unicode. *)
Definition TrimSpace (s : string) : string :=
  TrimRightSpace (TrimLeftSpace s).

End GoStrings.

Module GoStrconv.

(** [strconv.Itoa(i)]: decimal digits, a leading [-] when negative. *)
Definition Itoa (i : Z) : string := NilEmpty.string_of_int (Z.to_int i).

(** [strconv.FormatBool(b)]. *)
Definition FormatBool (b : bool) : string := if b then "true" else "false".

End GoStrconv.

Module GoFilepath.

(** The elements of a path between its separators. *)
Fixpoint split (s : string) : list string :=
  match s with
  | "" => [""]
  | String c r =>
      if bool_decide (c = "/"%char) then "" :: split r
      else match split r with
           | e :: es => String c e :: es
           | [] => [String c ""]
           end
  end.

(** The loop of [filepath.Clean] element by element; [out] holds the
    elements written so far, last one first.  Only an unrooted path
    keeps [..] elements, all at its front. *)
Fixpoint cleanElems (rooted : bool) (out : list string) (elems : list string)
    : list string :=
  match elems with
  | [] => reverse out
  | e :: rest =>
      if bool_decide (e = "") then cleanElems rooted out rest
      else if bool_decide (e = ".") then cleanElems rooted out rest
      else if bool_decide (e = "..") then
        match out with
        | top :: below =>
            if bool_decide (top = "..")
            then cleanElems rooted (".." :: out) rest
            else cleanElems rooted below rest
        | [] =>
            if rooted then cleanElems rooted out rest
            else cleanElems rooted [".."] rest
        end
      else cleanElems rooted (e :: out) rest
  end.

Definition isRooted (path : string) : bool :=
  match path with
  | String c _ => bool_decide (c = "/"%char)
  | "" => false
  end.

(** [filepath.Clean(path)] with separator [/]. *)
Definition Clean (path : string) : string :=
  if bool_decide (path = "") then "."
  else
    let rooted := isRooted path in
    let out := (if rooted then "/" else "")
               +:+ GoStrings.Join (cleanElems rooted [] (split path)) "/" in
    if bool_decide (out = "") then "." else out.

(** [filepath.Join(elem...)]: the elements from the first non-empty one
    on are joined with the separator and cleaned. *)
Fixpoint Join (elem : list string) : string :=
  match elem with
  | [] => ""
  | e :: rest =>
      if bool_decide (e = "") then Join rest
      else Clean (GoStrings.Join elem "/")
  end.

End GoFilepath.

Module Must.

(** [must.Nice(a)] on a string: panics on the zero value, the empty
    string; returns its argument. *)
Definition Nice (a : string) : result string :=
  if bool_decide (a = "") then Panic MustNice else Ok a.

(** [must.Full(p)]: panics on a nil pointer. *)
Definition Full {A : Type} (p : option A) : result (option A) :=
  match p with
  | Some _ => Ok p
  | None => Panic MustFull
  end.

(** [must.Have(a)]: panics on an empty slice. *)
Definition Have {A : Type} (a : list A) : result (list A) :=
  match a with
  | [] => Panic MustHave
  | _ :: _ => Ok a
  end.

(** [mustslice.In(v, slice)]: panics unless [v] is an element. *)
Definition In (v : string) (slice : list string) : result unit :=
  if bool_decide (v ∈ slice) then Ok tt else Panic MustIn.

End Must.

Module Printgo.

(** [printgo.PTX]: a byte buffer. *)
Definition PTX : Type := string.

Definition NewPTX : PTX := "".

(** The line terminator written by [fmt.Sprintln]. *)
Definition LF : string := String "010"%char "".

(** [ptx.Println(s)]: the argument and a line terminator. *)
Definition Println (ptx : PTX) (s : string) : PTX := ptx +:+ s +:+ LF.

(** [ptx.Println()]: a line terminator alone. *)
Definition Println0 (ptx : PTX) : PTX := ptx +:+ LF.

Definition String (ptx : PTX) : string := ptx.

End Printgo.

(** ** [Opt]: a value that tracks whether it has been set *)

Record Opt (T : Type) : Type := mkOpt {
  Value : T;     (* Stored value *)
  isSet : bool;  (* Track if value was set *)
}.
Arguments mkOpt {T} Value isSet.
Arguments Value {T} _.
Arguments isSet {T} _.

(** [NewOpt(v)]. *)
Definition NewOpt {T : Type} (v : T) : Opt T := {| Value := v; isSet := false |}.

(** [sv.Get()]. *)
Definition Get {T : Type} (sv : Opt T) : T := Value sv.

(** [sv.Set(v)]: the receiver after the call. *)
Definition Set_ {T : Type} (v : T) (sv : Opt T) : Opt T :=
  {| Value := v; isSet := true |}.

(** [sv.IsSet()]. *)
Definition IsSet {T : Type} (sv : Opt T) : bool := isSet sv.

(** The methods of [Opt], as calls on one receiver.  [Get] and [IsSet]
    leave the receiver as it is. *)
Inductive OptCall (T : Type) : Type :=
  | CallGet
  | CallSet (v : T)
  | CallIsSet.
Arguments CallGet {T}.
Arguments CallSet {T} v.
Arguments CallIsSet {T}.

Definition optCall {T : Type} (sv : Opt T) (c : OptCall T) : Opt T :=
  match c with
  | CallGet => sv
  | CallSet v => Set_ v sv
  | CallIsSet => sv
  end.

Definition optCalls {T : Type} (sv : Opt T) (cs : list (OptCall T)) : Opt T :=
  foldl optCall sv cs.

(** The argument of the last [Set] among the calls, if there is one. *)
Fixpoint lastSet {T : Type} (cs : list (OptCall T)) : option T :=
  match cs with
  | [] => None
  | c :: cs =>
      match lastSet cs with
      | Some v => Some v
      | None => match c with CallSet v => Some v | _ => None end
      end
  end.

(** ** supervisordkratos.go: the program configuration *)

(** The dynamic values of the [any] held by [AutoRestart], as the type
    switch of the renderer tells them apart: a [bool], a [string], or a
    value of another dynamic type (the nil interface included). *)
Inductive any : Type :=
  | AnyBool (v : bool)
  | AnyString (v : string)
  | AnyOther.

#[global] Instance any_eq_dec : EqDecision any.
Proof. solve_decision. Defined.

Record ProgramConfig : Type := mkProgramConfig {
  Name : string;
  UserName : string;
  Root : string;
  SlogRoot : string;
  Environment : Opt (gmap string string);
  AutoStart : Opt bool;
  AutoRestart : Opt any;
  StartRetries : Opt Z;
  StartSecs : Opt Z;
  LogMaxBytes : Opt string;
  LogBackups : Opt Z;
  RedirectStderr : Opt bool;
  StopAsGroup : Opt bool;
  StopWaitSecs : Opt Z;
  KillAsGroup : Opt bool;
  StopSignal : Opt string;
  Priority : Opt Z;
  ExitCodes : Opt (list Z);
  NumProcs : Opt Z;
  ProcessName : Opt string;
}.

(** ** The heap *)

Definition loc : Type := positive.

(** A pointer: [nil], which is [None], or an address. *)
Abbreviation ptr := (option loc).

(** The group configuration. *)
Record GroupConfig : Type := mkGroupConfig {
  GroupName : string;   (* field Name of GroupConfig *)
  Programs : list ptr;  (* []*ProgramConfig *)
}.

Record heap : Type := mkHeap {
  programObjects : gmap loc ProgramConfig;
  groupObjects : gmap loc GroupConfig;
}.

Definition emptyHeap : heap := {| programObjects := ∅; groupObjects := ∅ |}.

(** The heap after a store at an address. *)
Abbreviation storeProgram l c h :=
  ({| programObjects := <[l := c]> (programObjects h);
      groupObjects := groupObjects h |}).

Abbreviation storeGroup l g h :=
  ({| programObjects := programObjects h;
      groupObjects := <[l := g]> (groupObjects h) |}).

(** Code that runs on the heap and can panic.  A panic leaves the heap as
    it was at that point. *)
Definition Heap (A : Type) : Type := heap → result A * heap.

(** Reading through a pointer.  Addresses come from allocation only, so
    in a run of the package every address is mapped. *)
Definition derefProgram (h : heap) (p : ptr) : result ProgramConfig :=
  match p with
  | Some l =>
      match programObjects h !! l with
      | Some c => Ok c
      | None => Panic NilDereference
      end
  | None => Panic NilDereference
  end.

Definition derefGroup (h : heap) (g : ptr) : result GroupConfig :=
  match g with
  | Some l =>
      match groupObjects h !! l with
      | Some c => Ok c
      | None => Panic NilDereference
      end
  | None => Panic NilDereference
  end.

(** [&ProgramConfig{...}]: a new object at an address not in use. *)
Definition allocProgram (c : ProgramConfig) : Heap ptr := λ h,
  let l := fresh (dom (programObjects h)) in
  (Ok (Some l), storeProgram l c h).

Definition allocGroup (g : GroupConfig) : Heap ptr := λ h,
  let l := fresh (dom (groupObjects h)) in
  (Ok (Some l), storeGroup l g h).

(** A method with receiver [p] that assigns to a field of [*p] and
    returns [p]. *)
Definition updateProgram (f : ProgramConfig → ProgramConfig) (p : ptr)
    : Heap ptr := λ h,
  match derefProgram h p, p with
  | Ok c, Some l =>
      (Ok p, storeProgram l (f c) h)
  | Ok _, None => (Panic NilDereference, h)
  | Panic e, _ => (Panic e, h)
  end.

Definition updateGroup (f : GroupConfig → GroupConfig) (g : ptr)
    : Heap ptr := λ h,
  match derefGroup h g, g with
  | Ok c, Some l =>
      (Ok g, storeGroup l (f c) h)
  | Ok _, None => (Panic NilDereference, h)
  | Panic e, _ => (Panic e, h)
  end.

(** [NewProgramConfig]: the record its composite literal builds.  The
    four [must.Nice] calls run in the order of the literal's fields. *)
Definition newProgramConfig (name root userName slogRoot : string)
    : result ProgramConfig :=
  name' ← Must.Nice name;
  userName' ← Must.Nice userName;
  root' ← Must.Nice root;
  slogRoot' ← Must.Nice slogRoot;
  Ok {| Name := name';
        UserName := userName';
        Root := root';
        SlogRoot := slogRoot';
        Environment := NewOpt ∅;
        AutoStart := NewOpt true;
        AutoRestart := NewOpt (AnyString "unexpected");
        StartRetries := NewOpt 3%Z;
        StartSecs := NewOpt 1%Z;
        LogMaxBytes := NewOpt "50MB";
        LogBackups := NewOpt 10%Z;
        RedirectStderr := NewOpt false;
        StopAsGroup := NewOpt false;
        StopWaitSecs := NewOpt 10%Z;
        KillAsGroup := NewOpt false;
        StopSignal := NewOpt "TERM";
        Priority := NewOpt 999%Z;
        ExitCodes := NewOpt [0%Z];
        NumProcs := NewOpt 1%Z;
        ProcessName := NewOpt "%(program_name)s" |}.

Definition NewProgramConfig (name root userName slogRoot : string)
    : Heap ptr := λ h,
  match newProgramConfig name root userName slogRoot with
  | Ok c => allocProgram c h
  | Panic e => (Panic e, h)
  end.

(** The assignment [p.F.Set(v)] for each optional field [F]: the object
    after it.  Every other field is as before. *)
Definition setEnvironment (v : gmap string string) (c : ProgramConfig)
    : ProgramConfig :=
  {| Name := Name c; UserName := UserName c; Root := Root c;
     SlogRoot := SlogRoot c;
     Environment := Set_ v (Environment c);
     AutoStart := AutoStart c; AutoRestart := AutoRestart c;
     StartRetries := StartRetries c; StartSecs := StartSecs c;
     LogMaxBytes := LogMaxBytes c; LogBackups := LogBackups c;
     RedirectStderr := RedirectStderr c; StopAsGroup := StopAsGroup c;
     StopWaitSecs := StopWaitSecs c; KillAsGroup := KillAsGroup c;
     StopSignal := StopSignal c; Priority := Priority c;
     ExitCodes := ExitCodes c; NumProcs := NumProcs c;
     ProcessName := ProcessName c |}.

Definition setAutoStart (v : bool) (c : ProgramConfig) : ProgramConfig :=
  {| Name := Name c; UserName := UserName c; Root := Root c;
     SlogRoot := SlogRoot c; Environment := Environment c;
     AutoStart := Set_ v (AutoStart c);
     AutoRestart := AutoRestart c; StartRetries := StartRetries c;
     StartSecs := StartSecs c; LogMaxBytes := LogMaxBytes c;
     LogBackups := LogBackups c; RedirectStderr := RedirectStderr c;
     StopAsGroup := StopAsGroup c; StopWaitSecs := StopWaitSecs c;
     KillAsGroup := KillAsGroup c; StopSignal := StopSignal c;
     Priority := Priority c; ExitCodes := ExitCodes c;
     NumProcs := NumProcs c; ProcessName := ProcessName c |}.

Definition setAutoRestart (v : any) (c : ProgramConfig) : ProgramConfig :=
  {| Name := Name c; UserName := UserName c; Root := Root c;
     SlogRoot := SlogRoot c; Environment := Environment c;
     AutoStart := AutoStart c;
     AutoRestart := Set_ v (AutoRestart c);
     StartRetries := StartRetries c; StartSecs := StartSecs c;
     LogMaxBytes := LogMaxBytes c; LogBackups := LogBackups c;
     RedirectStderr := RedirectStderr c; StopAsGroup := StopAsGroup c;
     StopWaitSecs := StopWaitSecs c; KillAsGroup := KillAsGroup c;
     StopSignal := StopSignal c; Priority := Priority c;
     ExitCodes := ExitCodes c; NumProcs := NumProcs c;
     ProcessName := ProcessName c |}.

Definition setStartRetries (v : Z) (c : ProgramConfig) : ProgramConfig :=
  {| Name := Name c; UserName := UserName c; Root := Root c;
     SlogRoot := SlogRoot c; Environment := Environment c;
     AutoStart := AutoStart c; AutoRestart := AutoRestart c;
     StartRetries := Set_ v (StartRetries c);
     StartSecs := StartSecs c; LogMaxBytes := LogMaxBytes c;
     LogBackups := LogBackups c; RedirectStderr := RedirectStderr c;
     StopAsGroup := StopAsGroup c; StopWaitSecs := StopWaitSecs c;
     KillAsGroup := KillAsGroup c; StopSignal := StopSignal c;
     Priority := Priority c; ExitCodes := ExitCodes c;
     NumProcs := NumProcs c; ProcessName := ProcessName c |}.

Definition setStartSecs (v : Z) (c : ProgramConfig) : ProgramConfig :=
  {| Name := Name c; UserName := UserName c; Root := Root c;
     SlogRoot := SlogRoot c; Environment := Environment c;
     AutoStart := AutoStart c; AutoRestart := AutoRestart c;
     StartRetries := StartRetries c;
     StartSecs := Set_ v (StartSecs c);
     LogMaxBytes := LogMaxBytes c; LogBackups := LogBackups c;
     RedirectStderr := RedirectStderr c; StopAsGroup := StopAsGroup c;
     StopWaitSecs := StopWaitSecs c; KillAsGroup := KillAsGroup c;
     StopSignal := StopSignal c; Priority := Priority c;
     ExitCodes := ExitCodes c; NumProcs := NumProcs c;
     ProcessName := ProcessName c |}.

Definition setLogMaxBytes (v : string) (c : ProgramConfig) : ProgramConfig :=
  {| Name := Name c; UserName := UserName c; Root := Root c;
     SlogRoot := SlogRoot c; Environment := Environment c;
     AutoStart := AutoStart c; AutoRestart := AutoRestart c;
     StartRetries := StartRetries c; StartSecs := StartSecs c;
     LogMaxBytes := Set_ v (LogMaxBytes c);
     LogBackups := LogBackups c; RedirectStderr := RedirectStderr c;
     StopAsGroup := StopAsGroup c; StopWaitSecs := StopWaitSecs c;
     KillAsGroup := KillAsGroup c; StopSignal := StopSignal c;
     Priority := Priority c; ExitCodes := ExitCodes c;
     NumProcs := NumProcs c; ProcessName := ProcessName c |}.

Definition setLogBackups (v : Z) (c : ProgramConfig) : ProgramConfig :=
  {| Name := Name c; UserName := UserName c; Root := Root c;
     SlogRoot := SlogRoot c; Environment := Environment c;
     AutoStart := AutoStart c; AutoRestart := AutoRestart c;
     StartRetries := StartRetries c; StartSecs := StartSecs c;
     LogMaxBytes := LogMaxBytes c;
     LogBackups := Set_ v (LogBackups c);
     RedirectStderr := RedirectStderr c; StopAsGroup := StopAsGroup c;
     StopWaitSecs := StopWaitSecs c; KillAsGroup := KillAsGroup c;
     StopSignal := StopSignal c; Priority := Priority c;
     ExitCodes := ExitCodes c; NumProcs := NumProcs c;
     ProcessName := ProcessName c |}.

Definition setRedirectStderr (v : bool) (c : ProgramConfig) : ProgramConfig :=
  {| Name := Name c; UserName := UserName c; Root := Root c;
     SlogRoot := SlogRoot c; Environment := Environment c;
     AutoStart := AutoStart c; AutoRestart := AutoRestart c;
     StartRetries := StartRetries c; StartSecs := StartSecs c;
     LogMaxBytes := LogMaxBytes c; LogBackups := LogBackups c;
     RedirectStderr := Set_ v (RedirectStderr c);
     StopAsGroup := StopAsGroup c; StopWaitSecs := StopWaitSecs c;
     KillAsGroup := KillAsGroup c; StopSignal := StopSignal c;
     Priority := Priority c; ExitCodes := ExitCodes c;
     NumProcs := NumProcs c; ProcessName := ProcessName c |}.

Definition setStopAsGroup (v : bool) (c : ProgramConfig) : ProgramConfig :=
  {| Name := Name c; UserName := UserName c; Root := Root c;
     SlogRoot := SlogRoot c; Environment := Environment c;
     AutoStart := AutoStart c; AutoRestart := AutoRestart c;
     StartRetries := StartRetries c; StartSecs := StartSecs c;
     LogMaxBytes := LogMaxBytes c; LogBackups := LogBackups c;
     RedirectStderr := RedirectStderr c;
     StopAsGroup := Set_ v (StopAsGroup c);
     StopWaitSecs := StopWaitSecs c; KillAsGroup := KillAsGroup c;
     StopSignal := StopSignal c; Priority := Priority c;
     ExitCodes := ExitCodes c; NumProcs := NumProcs c;
     ProcessName := ProcessName c |}.

Definition setStopWaitSecs (v : Z) (c : ProgramConfig) : ProgramConfig :=
  {| Name := Name c; UserName := UserName c; Root := Root c;
     SlogRoot := SlogRoot c; Environment := Environment c;
     AutoStart := AutoStart c; AutoRestart := AutoRestart c;
     StartRetries := StartRetries c; StartSecs := StartSecs c;
     LogMaxBytes := LogMaxBytes c; LogBackups := LogBackups c;
     RedirectStderr := RedirectStderr c; StopAsGroup := StopAsGroup c;
     StopWaitSecs := Set_ v (StopWaitSecs c);
     KillAsGroup := KillAsGroup c; StopSignal := StopSignal c;
     Priority := Priority c; ExitCodes := ExitCodes c;
     NumProcs := NumProcs c; ProcessName := ProcessName c |}.

Definition setKillAsGroup (v : bool) (c : ProgramConfig) : ProgramConfig :=
  {| Name := Name c; UserName := UserName c; Root := Root c;
     SlogRoot := SlogRoot c; Environment := Environment c;
     AutoStart := AutoStart c; AutoRestart := AutoRestart c;
     StartRetries := StartRetries c; StartSecs := StartSecs c;
     LogMaxBytes := LogMaxBytes c; LogBackups := LogBackups c;
     RedirectStderr := RedirectStderr c; StopAsGroup := StopAsGroup c;
     StopWaitSecs := StopWaitSecs c;
     KillAsGroup := Set_ v (KillAsGroup c);
     StopSignal := StopSignal c; Priority := Priority c;
     ExitCodes := ExitCodes c; NumProcs := NumProcs c;
     ProcessName := ProcessName c |}.

Definition setStopSignal (v : string) (c : ProgramConfig) : ProgramConfig :=
  {| Name := Name c; UserName := UserName c; Root := Root c;
     SlogRoot := SlogRoot c; Environment := Environment c;
     AutoStart := AutoStart c; AutoRestart := AutoRestart c;
     StartRetries := StartRetries c; StartSecs := StartSecs c;
     LogMaxBytes := LogMaxBytes c; LogBackups := LogBackups c;
     RedirectStderr := RedirectStderr c; StopAsGroup := StopAsGroup c;
     StopWaitSecs := StopWaitSecs c; KillAsGroup := KillAsGroup c;
     StopSignal := Set_ v (StopSignal c);
     Priority := Priority c; ExitCodes := ExitCodes c;
     NumProcs := NumProcs c; ProcessName := ProcessName c |}.

Definition setPriority (v : Z) (c : ProgramConfig) : ProgramConfig :=
  {| Name := Name c; UserName := UserName c; Root := Root c;
     SlogRoot := SlogRoot c; Environment := Environment c;
     AutoStart := AutoStart c; AutoRestart := AutoRestart c;
     StartRetries := StartRetries c; StartSecs := StartSecs c;
     LogMaxBytes := LogMaxBytes c; LogBackups := LogBackups c;
     RedirectStderr := RedirectStderr c; StopAsGroup := StopAsGroup c;
     StopWaitSecs := StopWaitSecs c; KillAsGroup := KillAsGroup c;
     StopSignal := StopSignal c;
     Priority := Set_ v (Priority c);
     ExitCodes := ExitCodes c; NumProcs := NumProcs c;
     ProcessName := ProcessName c |}.

Definition setExitCodes (v : list Z) (c : ProgramConfig) : ProgramConfig :=
  {| Name := Name c; UserName := UserName c; Root := Root c;
     SlogRoot := SlogRoot c; Environment := Environment c;
     AutoStart := AutoStart c; AutoRestart := AutoRestart c;
     StartRetries := StartRetries c; StartSecs := StartSecs c;
     LogMaxBytes := LogMaxBytes c; LogBackups := LogBackups c;
     RedirectStderr := RedirectStderr c; StopAsGroup := StopAsGroup c;
     StopWaitSecs := StopWaitSecs c; KillAsGroup := KillAsGroup c;
     StopSignal := StopSignal c; Priority := Priority c;
     ExitCodes := Set_ v (ExitCodes c);
     NumProcs := NumProcs c; ProcessName := ProcessName c |}.

Definition setNumProcs (v : Z) (c : ProgramConfig) : ProgramConfig :=
  {| Name := Name c; UserName := UserName c; Root := Root c;
     SlogRoot := SlogRoot c; Environment := Environment c;
     AutoStart := AutoStart c; AutoRestart := AutoRestart c;
     StartRetries := StartRetries c; StartSecs := StartSecs c;
     LogMaxBytes := LogMaxBytes c; LogBackups := LogBackups c;
     RedirectStderr := RedirectStderr c; StopAsGroup := StopAsGroup c;
     StopWaitSecs := StopWaitSecs c; KillAsGroup := KillAsGroup c;
     StopSignal := StopSignal c; Priority := Priority c;
     ExitCodes := ExitCodes c;
     NumProcs := Set_ v (NumProcs c);
     ProcessName := ProcessName c |}.

Definition setProcessName (v : string) (c : ProgramConfig) : ProgramConfig :=
  {| Name := Name c; UserName := UserName c; Root := Root c;
     SlogRoot := SlogRoot c; Environment := Environment c;
     AutoStart := AutoStart c; AutoRestart := AutoRestart c;
     StartRetries := StartRetries c; StartSecs := StartSecs c;
     LogMaxBytes := LogMaxBytes c; LogBackups := LogBackups c;
     RedirectStderr := RedirectStderr c; StopAsGroup := StopAsGroup c;
     StopWaitSecs := StopWaitSecs c; KillAsGroup := KillAsGroup c;
     StopSignal := StopSignal c; Priority := Priority c;
     ExitCodes := ExitCodes c; NumProcs := NumProcs c;
     ProcessName := Set_ v (ProcessName c) |}.

(** The chain methods.  Each assigns through its receiver and returns the
    receiver. *)
Definition WithAutoStart (p : ptr) (autoStart : bool) : Heap ptr :=
  updateProgram (setAutoStart autoStart) p.

Definition WithAutoRestart (p : ptr) (autoRestart : bool) : Heap ptr :=
  updateProgram (setAutoRestart (AnyBool autoRestart)) p.

Definition WithAutoRestartMode (p : ptr) (mode : string) : Heap ptr := λ h,
  match Must.In mode ["false"; "true"; "unexpected"] with
  | Ok _ => updateProgram (setAutoRestart (AnyString mode)) p h
  | Panic e => (Panic e, h)
  end.

Definition WithStartRetries (p : ptr) (startRetries : Z) : Heap ptr :=
  updateProgram (setStartRetries startRetries) p.

Definition WithStartSecs (p : ptr) (startSecs : Z) : Heap ptr :=
  updateProgram (setStartSecs startSecs) p.

Definition WithLogMaxBytes (p : ptr) (logMaxBytes : string) : Heap ptr :=
  updateProgram (setLogMaxBytes logMaxBytes) p.

Definition WithLogBackups (p : ptr) (logBackups : Z) : Heap ptr :=
  updateProgram (setLogBackups logBackups) p.

Definition WithRedirectStderr (p : ptr) (redirectStderr : bool) : Heap ptr :=
  updateProgram (setRedirectStderr redirectStderr) p.

Definition WithStopAsGroup (p : ptr) (stopAsGroup : bool) : Heap ptr :=
  updateProgram (setStopAsGroup stopAsGroup) p.

Definition WithKillAsGroup (p : ptr) (killAsGroup : bool) : Heap ptr :=
  updateProgram (setKillAsGroup killAsGroup) p.

Definition WithStopWaitSecs (p : ptr) (stopWaitSecs : Z) : Heap ptr :=
  updateProgram (setStopWaitSecs stopWaitSecs) p.

Definition WithStopSignal (p : ptr) (stopSignal : string) : Heap ptr :=
  updateProgram (setStopSignal stopSignal) p.

Definition WithPriority (p : ptr) (priority : Z) : Heap ptr :=
  updateProgram (setPriority priority) p.

Definition WithEnvironment (p : ptr) (environment : gmap string string)
    : Heap ptr :=
  updateProgram (setEnvironment environment) p.

Definition WithExitCodes (p : ptr) (exitCodes : list Z) : Heap ptr :=
  updateProgram (setExitCodes exitCodes) p.

Definition WithNumProcs (p : ptr) (numProcs : Z) : Heap ptr :=
  updateProgram (setNumProcs numProcs) p.

Definition WithProcessName (p : ptr) (processName : string) : Heap ptr :=
  updateProgram (setProcessName processName) p.

(** A call of a chain method, as data. *)
Inductive Setter : Type :=
  | CallAutoStart (autoStart : bool)
  | CallAutoRestart (autoRestart : bool)
  | CallAutoRestartMode (mode : string)
  | CallStartRetries (startRetries : Z)
  | CallStartSecs (startSecs : Z)
  | CallLogMaxBytes (logMaxBytes : string)
  | CallLogBackups (logBackups : Z)
  | CallRedirectStderr (redirectStderr : bool)
  | CallStopAsGroup (stopAsGroup : bool)
  | CallKillAsGroup (killAsGroup : bool)
  | CallStopWaitSecs (stopWaitSecs : Z)
  | CallStopSignal (stopSignal : string)
  | CallPriority (priority : Z)
  | CallEnvironment (environment : gmap string string)
  | CallExitCodes (exitCodes : list Z)
  | CallNumProcs (numProcs : Z)
  | CallProcessName (processName : string).

Definition callSetter (p : ptr) (s : Setter) : Heap ptr :=
  match s with
  | CallAutoStart v => WithAutoStart p v
  | CallAutoRestart v => WithAutoRestart p v
  | CallAutoRestartMode v => WithAutoRestartMode p v
  | CallStartRetries v => WithStartRetries p v
  | CallStartSecs v => WithStartSecs p v
  | CallLogMaxBytes v => WithLogMaxBytes p v
  | CallLogBackups v => WithLogBackups p v
  | CallRedirectStderr v => WithRedirectStderr p v
  | CallStopAsGroup v => WithStopAsGroup p v
  | CallKillAsGroup v => WithKillAsGroup p v
  | CallStopWaitSecs v => WithStopWaitSecs p v
  | CallStopSignal v => WithStopSignal p v
  | CallPriority v => WithPriority p v
  | CallEnvironment v => WithEnvironment p v
  | CallExitCodes v => WithExitCodes p v
  | CallNumProcs v => WithNumProcs p v
  | CallProcessName v => WithProcessName p v
  end.

(** [NewProgramConfig(...).With...(...).With...(...)]: every method is
    called on what the one before it returned. *)
Fixpoint chain (p : ptr) (ss : list Setter) : Heap ptr := λ h,
  match ss with
  | [] => (Ok p, h)
  | s :: ss =>
      match callSetter p s h with
      | (Ok p', h') => chain p' ss h'
      | (Panic e, h') => (Panic e, h')
      end
  end.

Definition build (name root userName slogRoot : string) (ss : list Setter)
    : Heap ptr := λ h,
  match NewProgramConfig name root userName slogRoot h with
  | (Ok p, h') => chain p ss h'
  | (Panic e, h') => (Panic e, h')
  end.

(** ** Ranging over a map

    Go does not fix the order in which [range] visits the entries of a
    map, and the runtime varies it from one loop to the next.  A
    [MapOrder] is one choice of the runtime: for each map, its entries in
    the order visited. *)
Record MapOrder : Type := mkMapOrder {
  rangeOver : gmap string string → list (string * string);
  rangeOver_entries : ∀ m, rangeOver m ≡ₚ map_to_list m;
}.

(** Two of the orders: that of [map_to_list], and its reverse. *)
Program Definition listed : MapOrder :=
  {| rangeOver := λ m, map_to_list m |}.
Next Obligation. reflexivity. Qed.

Program Definition reversed : MapOrder :=
  {| rangeOver := λ m, reverse (map_to_list m) |}.
Next Obligation. intros m. apply reverse_Permutation. Qed.

(** ** The renderer of one program *)

(** [combineInts(items, sep)]. *)
Definition combineInts (items : list Z) (sep : string) : string :=
  if bool_decide (length items = 0) then ""
  else GoStrings.Join (map GoStrconv.Itoa items) sep.

(** [combineSsMap(items, sep)]. *)
Definition combineSsMap (ord : MapOrder) (items : gmap string string)
    (sep : string) : string :=
  if bool_decide (size items = 0) then ""
  else GoStrings.Join
         (map (λ '(key, value), key +:+ "=" +:+ value) (rangeOver ord items))
         sep.

(** [GenerateProgramConfig(program)] on heap [h]; [ord] is the order in
    which the range over the environment visits it. *)
Definition GenerateProgramConfig (ord : MapOrder) (h : heap) (program : ptr)
    : result string :=
  Must.Full program;;
  program ← derefProgram h program;
  Must.Nice (Name program);;
  Must.Nice (Root program);;
  Must.Nice (UserName program);;
  Must.Nice (SlogRoot program);;
  let ptx := Printgo.NewPTX in
  let ptx := Printgo.Println ptx ("[program:" +:+ Name program +:+ "]") in
  let ptx := Printgo.Println ptx ("user            = " +:+ UserName program) in
  let ptx := Printgo.Println ptx ("directory       = " +:+ Root program) in
  let ptx := Printgo.Println ptx ("command         = "
               +:+ GoFilepath.Join [Root program; "bin"; Name program]) in
  let ptx :=
    if IsSet (Environment program) then
      let env := combineSsMap ord (Get (Environment program)) "," in
      if bool_decide (env ≠ "") then Printgo.Println ptx ("environment     = " +:+ env)
      else ptx
    else ptx in
  let ptx :=
    if IsSet (AutoStart program)
    then Printgo.Println ptx ("autostart       = "
           +:+ GoStrconv.FormatBool (Get (AutoStart program)))
    else ptx in
  ptx ←
    (if IsSet (AutoRestart program) then
       match Get (AutoRestart program) with
       | AnyBool v =>
           Ok (Printgo.Println ptx ("autorestart     = " +:+ GoStrconv.FormatBool v))
       | AnyString v =>
           Ok (Printgo.Println ptx ("autorestart     = " +:+ v))
       | AnyOther => Panic ImpossibleInvalidType
       end
     else Ok ptx);
  let ptx :=
    if IsSet (StartRetries program)
    then Printgo.Println ptx ("startretries    = "
           +:+ GoStrconv.Itoa (Get (StartRetries program)))
    else ptx in
  let ptx :=
    if IsSet (StartSecs program)
    then Printgo.Println ptx ("startsecs       = "
           +:+ GoStrconv.Itoa (Get (StartSecs program)))
    else ptx in
  let ptx := Printgo.Println ptx ("stdout_logfile  = "
               +:+ GoFilepath.Join [SlogRoot program; Name program +:+ ".log"]) in
  let ptx :=
    if IsSet (LogMaxBytes program)
    then Printgo.Println ptx ("stdout_logfile_maxbytes = " +:+ Get (LogMaxBytes program))
    else ptx in
  let ptx :=
    if IsSet (LogBackups program)
    then Printgo.Println ptx ("stdout_logfile_backups = "
           +:+ GoStrconv.Itoa (Get (LogBackups program)))
    else ptx in
  let ptx := Printgo.Println ptx ("stderr_logfile  = "
               +:+ GoFilepath.Join [SlogRoot program; Name program +:+ ".err"]) in
  let ptx :=
    if IsSet (LogMaxBytes program)
    then Printgo.Println ptx ("stderr_logfile_maxbytes = " +:+ Get (LogMaxBytes program))
    else ptx in
  let ptx :=
    if IsSet (LogBackups program)
    then Printgo.Println ptx ("stderr_logfile_backups = "
           +:+ GoStrconv.Itoa (Get (LogBackups program)))
    else ptx in
  let ptx :=
    if IsSet (RedirectStderr program)
    then Printgo.Println ptx ("redirect_stderr = "
           +:+ GoStrconv.FormatBool (Get (RedirectStderr program)))
    else ptx in
  let ptx :=
    if IsSet (StopAsGroup program)
    then Printgo.Println ptx ("stopasgroup     = "
           +:+ GoStrconv.FormatBool (Get (StopAsGroup program)))
    else ptx in
  let ptx :=
    if IsSet (StopWaitSecs program)
    then Printgo.Println ptx ("stopwaitsecs    = "
           +:+ GoStrconv.Itoa (Get (StopWaitSecs program)))
    else ptx in
  let ptx :=
    if IsSet (KillAsGroup program)
    then Printgo.Println ptx ("killasgroup     = "
           +:+ GoStrconv.FormatBool (Get (KillAsGroup program)))
    else ptx in
  let ptx :=
    if IsSet (StopSignal program)
    then Printgo.Println ptx ("stopsignal      = " +:+ Get (StopSignal program))
    else ptx in
  let ptx :=
    if IsSet (Priority program)
    then Printgo.Println ptx ("priority        = "
           +:+ GoStrconv.Itoa (Get (Priority program)))
    else ptx in
  let ptx :=
    if IsSet (ExitCodes program)
    then Printgo.Println ptx ("exitcodes       = "
           +:+ combineInts (Get (ExitCodes program)) ",")
    else ptx in
  let ptx :=
    if IsSet (NumProcs program)
    then Printgo.Println ptx ("numprocs        = "
           +:+ GoStrconv.Itoa (Get (NumProcs program)))
    else ptx in
  let ptx :=
    if IsSet (ProcessName program)
    then Printgo.Println ptx ("process_name    = " +:+ Get (ProcessName program))
    else ptx in
  Ok (Printgo.String ptx).

(** ** The group and its renderer *)

(** [NewGroupConfig(name)]. *)
Definition NewGroupConfig (name : string) : Heap ptr := λ h,
  match Must.Nice name with
  | Ok name' => allocGroup {| GroupName := name'; Programs := [] |} h
  | Panic e => (Panic e, h)
  end.

(** [g.AddProgram(program)]. *)
Definition AddProgram (g : ptr) (program : ptr) : Heap ptr :=
  updateGroup
    (λ c, {| GroupName := GroupName c; Programs := Programs c ++ [program] |})
    g.

(** The first loop of [GenerateGroupConfig]: [p.Name] for every member. *)
Fixpoint programNames (h : heap) (ps : list ptr) : result (list string) :=
  match ps with
  | [] => Ok []
  | p :: ps =>
      c ← derefProgram h p;
      names ← programNames h ps;
      Ok (Name c :: names)
  end.

(** Its second loop, from the member of index [i] on. *)
Fixpoint programBlocks (ords : nat → MapOrder) (h : heap) (i : nat)
    (ps : list ptr) (ptx : Printgo.PTX) : result Printgo.PTX :=
  match ps with
  | [] => Ok ptx
  | program :: ps =>
      let ptx := Printgo.Println0 ptx in
      cfs ← GenerateProgramConfig (ords i) h program;
      let ptx := Printgo.Println ptx (GoStrings.TrimSpace cfs) in
      programBlocks ords h (S i) ps ptx
  end.

(** [GenerateGroupConfig(group)] on heap [h]; [ords i] is the order in
    which the environment of the member of index [i] is visited. *)
Definition GenerateGroupConfig (ords : nat → MapOrder) (h : heap) (group : ptr)
    : result string :=
  Must.Full group;;
  group ← derefGroup h group;
  Must.Nice (GroupName group);;
  Must.Have (Programs group);;
  let ptx := Printgo.NewPTX in
  let ptx := Printgo.Println ptx ("[group:" +:+ GroupName group +:+ "]") in
  programs ← programNames h (Programs group);
  let ptx := Printgo.Println ptx ("programs=" +:+ GoStrings.Join programs ",") in
  let ptx := Printgo.Println0 ptx in
  ptx ← programBlocks ords h 0 (Programs group) ptx;
  Ok (Printgo.String ptx).

(** ** The effect of the chain methods on the object

    What a chain of calls does to the object behind the receiver, without
    the heap: [chain] on an allocated receiver stores [applySetters]. *)

Definition applySetter (s : Setter) (c : ProgramConfig) : result ProgramConfig :=
  match s with
  | CallAutoStart v => Ok (setAutoStart v c)
  | CallAutoRestart v => Ok (setAutoRestart (AnyBool v) c)
  | CallAutoRestartMode v =>
      Must.In v ["false"; "true"; "unexpected"];;
      Ok (setAutoRestart (AnyString v) c)
  | CallStartRetries v => Ok (setStartRetries v c)
  | CallStartSecs v => Ok (setStartSecs v c)
  | CallLogMaxBytes v => Ok (setLogMaxBytes v c)
  | CallLogBackups v => Ok (setLogBackups v c)
  | CallRedirectStderr v => Ok (setRedirectStderr v c)
  | CallStopAsGroup v => Ok (setStopAsGroup v c)
  | CallKillAsGroup v => Ok (setKillAsGroup v c)
  | CallStopWaitSecs v => Ok (setStopWaitSecs v c)
  | CallStopSignal v => Ok (setStopSignal v c)
  | CallPriority v => Ok (setPriority v c)
  | CallEnvironment v => Ok (setEnvironment v c)
  | CallExitCodes v => Ok (setExitCodes v c)
  | CallNumProcs v => Ok (setNumProcs v c)
  | CallProcessName v => Ok (setProcessName v c)
  end.

Fixpoint applySetters (ss : list Setter) (c : ProgramConfig)
    : result ProgramConfig :=
  match ss with
  | [] => Ok c
  | s :: ss => c' ← applySetter s c; applySetters ss c'
  end.

(** ** The lines of section 4.3 *)

(** The sixteen optional fields. *)
Inductive Field : Type :=
  | FEnvironment | FAutoStart | FAutoRestart | FStartRetries | FStartSecs
  | FLogMaxBytes | FLogBackups | FRedirectStderr | FStopAsGroup
  | FStopWaitSecs | FKillAsGroup | FStopSignal | FPriority | FExitCodes
  | FNumProcs | FProcessName.

#[global] Instance Field_eq_dec : EqDecision Field.
Proof. solve_decision. Defined.

(** The twenty-four lines of the list of section 4.3. *)
Inductive Line : Type :=
  | LHeader | LUser | LDirectory | LCommand | LEnvironment | LAutoStart
  | LAutoRestart | LStartRetries | LStartSecs | LStdoutLogfile
  | LStdoutMaxBytes | LStdoutBackups | LStderrLogfile | LStderrMaxBytes
  | LStderrBackups | LRedirectStderr | LStopAsGroup | LStopWaitSecs
  | LKillAsGroup | LStopSignal | LPriority | LExitCodes | LNumProcs
  | LProcessName.

#[global] Instance Line_eq_dec : EqDecision Line.
Proof. solve_decision. Defined.

(** The fixed order of that list. *)
Definition section43 : list Line :=
  [ LHeader; LUser; LDirectory; LCommand; LEnvironment; LAutoStart;
    LAutoRestart; LStartRetries; LStartSecs; LStdoutLogfile;
    LStdoutMaxBytes; LStdoutBackups; LStderrLogfile; LStderrMaxBytes;
    LStderrBackups; LRedirectStderr; LStopAsGroup; LStopWaitSecs;
    LKillAsGroup; LStopSignal; LPriority; LExitCodes; LNumProcs;
    LProcessName ].

(** The optional field a line belongs to; [None] for a line that is
    always written. *)
Definition lineField (l : Line) : option Field :=
  match l with
  | LHeader | LUser | LDirectory | LCommand | LStdoutLogfile
  | LStderrLogfile => None
  | LEnvironment => Some FEnvironment
  | LAutoStart => Some FAutoStart
  | LAutoRestart => Some FAutoRestart
  | LStartRetries => Some FStartRetries
  | LStartSecs => Some FStartSecs
  | LStdoutMaxBytes | LStderrMaxBytes => Some FLogMaxBytes
  | LStdoutBackups | LStderrBackups => Some FLogBackups
  | LRedirectStderr => Some FRedirectStderr
  | LStopAsGroup => Some FStopAsGroup
  | LStopWaitSecs => Some FStopWaitSecs
  | LKillAsGroup => Some FKillAsGroup
  | LStopSignal => Some FStopSignal
  | LPriority => Some FPriority
  | LExitCodes => Some FExitCodes
  | LNumProcs => Some FNumProcs
  | LProcessName => Some FProcessName
  end.

(** The text of the auto-restart value: the literal of a boolean, a mode
    string as it is. *)
Definition autoRestartText (v : any) : string :=
  match v with
  | AnyBool b => GoStrconv.FormatBool b
  | AnyString m => m
  | AnyOther => ""
  end.

(** The text of each line for the object [c], label and value. *)
Definition lineText (ord : MapOrder) (c : ProgramConfig) (l : Line) : string :=
  match l with
  | LHeader => "[program:" +:+ Name c +:+ "]"
  | LUser => "user            = " +:+ UserName c
  | LDirectory => "directory       = " +:+ Root c
  | LCommand => "command         = " +:+ GoFilepath.Join [Root c; "bin"; Name c]
  | LEnvironment =>
      "environment     = " +:+ combineSsMap ord (Get (Environment c)) ","
  | LAutoStart => "autostart       = " +:+ GoStrconv.FormatBool (Get (AutoStart c))
  | LAutoRestart => "autorestart     = " +:+ autoRestartText (Get (AutoRestart c))
  | LStartRetries => "startretries    = " +:+ GoStrconv.Itoa (Get (StartRetries c))
  | LStartSecs => "startsecs       = " +:+ GoStrconv.Itoa (Get (StartSecs c))
  | LStdoutLogfile =>
      "stdout_logfile  = " +:+ GoFilepath.Join [SlogRoot c; Name c +:+ ".log"]
  | LStdoutMaxBytes => "stdout_logfile_maxbytes = " +:+ Get (LogMaxBytes c)
  | LStdoutBackups => "stdout_logfile_backups = " +:+ GoStrconv.Itoa (Get (LogBackups c))
  | LStderrLogfile =>
      "stderr_logfile  = " +:+ GoFilepath.Join [SlogRoot c; Name c +:+ ".err"]
  | LStderrMaxBytes => "stderr_logfile_maxbytes = " +:+ Get (LogMaxBytes c)
  | LStderrBackups => "stderr_logfile_backups = " +:+ GoStrconv.Itoa (Get (LogBackups c))
  | LRedirectStderr =>
      "redirect_stderr = " +:+ GoStrconv.FormatBool (Get (RedirectStderr c))
  | LStopAsGroup => "stopasgroup     = " +:+ GoStrconv.FormatBool (Get (StopAsGroup c))
  | LStopWaitSecs => "stopwaitsecs    = " +:+ GoStrconv.Itoa (Get (StopWaitSecs c))
  | LKillAsGroup => "killasgroup     = " +:+ GoStrconv.FormatBool (Get (KillAsGroup c))
  | LStopSignal => "stopsignal      = " +:+ Get (StopSignal c)
  | LPriority => "priority        = " +:+ GoStrconv.Itoa (Get (Priority c))
  | LExitCodes => "exitcodes       = " +:+ combineInts (Get (ExitCodes c)) ","
  | LNumProcs => "numprocs        = " +:+ GoStrconv.Itoa (Get (NumProcs c))
  | LProcessName => "process_name    = " +:+ Get (ProcessName c)
  end.

(** The set flag of each optional field. *)
Definition fieldIsSet (c : ProgramConfig) (f : Field) : bool :=
  match f with
  | FEnvironment => IsSet (Environment c)
  | FAutoStart => IsSet (AutoStart c)
  | FAutoRestart => IsSet (AutoRestart c)
  | FStartRetries => IsSet (StartRetries c)
  | FStartSecs => IsSet (StartSecs c)
  | FLogMaxBytes => IsSet (LogMaxBytes c)
  | FLogBackups => IsSet (LogBackups c)
  | FRedirectStderr => IsSet (RedirectStderr c)
  | FStopAsGroup => IsSet (StopAsGroup c)
  | FStopWaitSecs => IsSet (StopWaitSecs c)
  | FKillAsGroup => IsSet (KillAsGroup c)
  | FStopSignal => IsSet (StopSignal c)
  | FPriority => IsSet (Priority c)
  | FExitCodes => IsSet (ExitCodes c)
  | FNumProcs => IsSet (NumProcs c)
  | FProcessName => IsSet (ProcessName c)
  end.

(** The field a chain method assigns. *)
Definition setterField (s : Setter) : Field :=
  match s with
  | CallAutoStart _ => FAutoStart
  | CallAutoRestart _ | CallAutoRestartMode _ => FAutoRestart
  | CallStartRetries _ => FStartRetries
  | CallStartSecs _ => FStartSecs
  | CallLogMaxBytes _ => FLogMaxBytes
  | CallLogBackups _ => FLogBackups
  | CallRedirectStderr _ => FRedirectStderr
  | CallStopAsGroup _ => FStopAsGroup
  | CallKillAsGroup _ => FKillAsGroup
  | CallStopWaitSecs _ => FStopWaitSecs
  | CallStopSignal _ => FStopSignal
  | CallPriority _ => FPriority
  | CallEnvironment _ => FEnvironment
  | CallExitCodes _ => FExitCodes
  | CallNumProcs _ => FNumProcs
  | CallProcessName _ => FProcessName
  end.

(** Whether a setter of field [f] is among the calls. *)
Definition called (ss : list Setter) (f : Field) : bool :=
  existsb (λ s, bool_decide (setterField s = f)) ss.

(** The last value of a kind among the calls: [pick] tells the calls of
    that kind and their value. *)
Fixpoint lastCall {A : Type} (pick : Setter → option A) (ss : list Setter)
    : option A :=
  match ss with
  | [] => None
  | s :: ss =>
      match lastCall pick ss with
      | Some v => Some v
      | None => pick s
      end
  end.

Definition pickAutoRestart (s : Setter) : option any :=
  match s with
  | CallAutoRestart b => Some (AnyBool b)
  | CallAutoRestartMode m => Some (AnyString m)
  | _ => None
  end.

Definition pickEnvironment (s : Setter) : option (gmap string string) :=
  match s with CallEnvironment m => Some m | _ => None end.

Definition pickExitCodes (s : Setter) : option (list Z) :=
  match s with CallExitCodes l => Some l | _ => None end.

(** A text given line by line, each line with its terminator. *)
Definition unlines (ls : list string) : string :=
  foldr (λ l text, l +:+ Printgo.LF +:+ text) "" ls.

(** The lines of [section43] that pass [shown], in the order of
    [section43]. *)
Definition linesShown (shown : Line → bool) (text : Line → string)
    : list string :=
  flat_map (λ l, if shown l then [text l] else []) section43.

(** What the renderer writes for the object [c]: an optional line when
    the flag of its field is set; the environment line when, besides, the
    mapping has an entry. *)
Definition lineEmitted (c : ProgramConfig) (l : Line) : bool :=
  match lineField l with
  | None => true
  | Some FEnvironment =>
      IsSet (Environment c) && bool_decide (Get (Environment c) ≠ ∅)
  | Some f => fieldIsSet c f
  end.

Definition programLines (ord : MapOrder) (c : ProgramConfig) : list string :=
  linesShown (lineEmitted c) (lineText ord c).

(** The same rule in terms of the calls made: an optional line after a
    call of its setter; the environment line after a call whose last
    mapping has an entry. *)
Definition lineAfterCalls (ss : list Setter) (l : Line) : bool :=
  match lineField l with
  | None => true
  | Some FEnvironment =>
      match lastCall pickEnvironment ss with
      | Some m => bool_decide (m ≠ ∅)
      | None => false
      end
  | Some f => called ss f
  end.

(** The objects the renderer accepts: required strings not blank, the
    auto-restart value a [bool] or a [string] when set. *)
Definition renders (c : ProgramConfig) : Prop :=
  Name c ≠ "" ∧ Root c ≠ "" ∧ UserName c ≠ "" ∧ SlogRoot c ≠ "" ∧
  (IsSet (AutoRestart c) = true → Get (AutoRestart c) ≠ AnyOther).

(** The renderer on every input: its guards in their order, the fatal
    branch of the type switch, or the emitted lines. *)
Definition outcome (ord : MapOrder) (h : heap) (p : ptr) : result string :=
  Must.Full p;;
  c ← derefProgram h p;
  Must.Nice (Name c);;
  Must.Nice (Root c);;
  Must.Nice (UserName c);;
  Must.Nice (SlogRoot c);;
  if IsSet (AutoRestart c) && bool_decide (Get (AutoRestart c) = AnyOther)
  then Panic ImpossibleInvalidType
  else Ok (unlines (programLines ord c)).

(** What the constructor and a chain of calls leave in the object: the
    required strings, a flag for every field whose setter was called,
    the last value given for the environment, the auto-restart value and
    the exit codes. *)
Record built (name root userName slogRoot : string) (ss : list Setter)
    (c : ProgramConfig) : Prop := {
  built_Name : Name c = name;
  built_Root : Root c = root;
  built_UserName : UserName c = userName;
  built_SlogRoot : SlogRoot c = slogRoot;
  built_required : name ≠ "" ∧ root ≠ "" ∧ userName ≠ "" ∧ slogRoot ≠ "";
  built_isSet : ∀ f, fieldIsSet c f = called ss f;
  built_Environment :
    Get (Environment c) = default ∅ (lastCall pickEnvironment ss);
  built_AutoRestart :
    Get (AutoRestart c)
    = default (AnyString "unexpected") (lastCall pickAutoRestart ss);
  built_ExitCodes :
    Get (ExitCodes c) = default [0%Z] (lastCall pickExitCodes ss);
}.

(** ** The text of a group *)

(** The renderings of the members from index [i] on. *)
Fixpoint renderings (ords : nat → MapOrder) (h : heap) (i : nat)
    (ps : list ptr) : result (list string) :=
  match ps with
  | [] => Ok []
  | p :: ps =>
      cfs ← GenerateProgramConfig (ords i) h p;
      rest ← renderings ords h (S i) ps;
      Ok (cfs :: rest)
  end.

(** One member's block: a blank line, then its rendering trimmed and a
    line terminator. *)
Definition programBlock (cfs : string) : string :=
  Printgo.LF +:+ GoStrings.TrimSpace cfs +:+ Printgo.LF.

Fixpoint concatBlocks (blocks : list string) : string :=
  match blocks with
  | [] => ""
  | b :: blocks => b +:+ concatBlocks blocks
  end.

(** The names of the members of a group, [p.Name] for each. *)
Definition memberNames (h : heap) (ps : list ptr) : list string :=
  map (λ p, match derefProgram h p with Ok c => Name c | Panic _ => "" end) ps.

(** What the group renderer returns: the group line, the programs line,
    one blank line, then the blocks of the members. *)
Definition groupText (name : string) (names : list string) (cfss : list string)
    : string :=
  unlines ["[group:" +:+ name +:+ "]";
           "programs=" +:+ GoStrings.Join names ",";
           ""]
  +:+ concatBlocks (map programBlock cfss).

(** ** Runs of the package used as concrete inputs *)

(** The pointer a run returned and the heap it left. *)
Definition ptrOf (r : result ptr * heap) : ptr :=
  match r.1 with
  | Ok p => p
  | Panic _ => None
  end.

Definition heapOf (r : result ptr * heap) : heap := r.2.

(** [GenerateProgramConfig(NewProgramConfig(...).With...(...))] from an
    empty heap. *)
Definition renderBuilt (ord : MapOrder) (name root userName slogRoot : string)
    (ss : list Setter) : result string :=
  match build name root userName slogRoot ss emptyHeap with
  | (Ok p, h) => GenerateProgramConfig ord h p
  | (Panic e, _) => Panic e
  end.

(** [TestNewGroupConfig] of group_test.go. *)
Definition testGroup : result ptr * heap :=
  match build "api-server" "/opt/api-server" "deploy" "/var/log/services"
          [CallStartRetries 3] emptyHeap with
  | (Ok program1, h) =>
      match build "worker" "/opt/worker" "deploy" "/var/log/services"
              [CallAutoStart false] h with
      | (Ok program2, h) =>
          match NewGroupConfig "microservices" h with
          | (Ok group, h) =>
              match AddProgram group program1 h with
              | (Ok group, h) => AddProgram group program2 h
              | r => r
              end
          | r => r
          end
      | r => r
      end
  | r => r
  end.

(** A group made as the tests make theirs: every member by the
    constructor and a chain of setters, then [NewGroupConfig] and one
    [AddProgram] for each member. *)
Fixpoint buildAll
    (members : list (string * string * string * string * list Setter))
    : Heap (list ptr) := λ h,
  match members with
  | [] => (Ok [], h)
  | (name, root, userName, slogRoot, ss) :: members =>
      match build name root userName slogRoot ss h with
      | (Ok p, h) =>
          match buildAll members h with
          | (Ok ps, h) => (Ok (p :: ps), h)
          | (Panic e, h) => (Panic e, h)
          end
      | (Panic e, h) => (Panic e, h)
      end
  end.

Fixpoint addAll (group : ptr) (ps : list ptr) : Heap ptr := λ h,
  match ps with
  | [] => (Ok group, h)
  | p :: ps =>
      match AddProgram group p h with
      | (Ok group, h) => addAll group ps h
      | (Panic e, h) => (Panic e, h)
      end
  end.

Definition renderGroupOf (ords : nat → MapOrder) (name : string)
    (members : list (string * string * string * string * list Setter))
    : result string :=
  match buildAll members emptyHeap with
  | (Ok ps, h) =>
      match NewGroupConfig name h with
      | (Ok group, h) =>
          match addAll group ps h with
          | (Ok group, h) => GenerateGroupConfig ords h group
          | (Panic e, _) => Panic e
          end
      | (Panic e, _) => Panic e
      end
  | (Panic e, _) => Panic e
  end.

(** [NewProgramConfig("basic-service", ...).
      WithEnvironment(map[string]string{})]. *)
Definition emptyEnvironmentCalls : list Setter := [CallEnvironment ∅].

Definition emptyEnvironmentRun : result ptr * heap :=
  build "basic-service" "/opt/basic-service" "deploy" "/var/log/basic"
    emptyEnvironmentCalls emptyHeap.

(** [NewProgramConfig("myapp", ...).WithEnvironment(
      map[string]string{"APP_ENV": "production", "PORT": "8080"})]. *)
Definition twoKeysRun : result ptr * heap :=
  build "myapp" "/opt/myapp" "deploy" "/var/log/myapp"
    [CallEnvironment {[ "APP_ENV" := "production"; "PORT" := "8080" ]}]
    emptyHeap.

(** [NewGroupConfig("microservices").AddProgram(nil)]. *)
Definition nilMemberRun : result ptr * heap :=
  match NewGroupConfig "microservices" emptyHeap with
  | (Ok group, h) => AddProgram group None h
  | r => r
  end.

(** [NewProgramConfig("exit-service", ...).WithExitCodes([]int{}).
      WithEnvironment(map[string]string{})]. *)
Definition emptyValuesCalls : list Setter :=
  [CallExitCodes []; CallEnvironment ∅].

(** ** The wording of the specification where the code departs from it *)

(** The rule as the specification words it: an optional line appears
    exactly when the setter of its field has been called. *)
Definition lineWhenCalled (ss : list Setter) (l : Line) : bool :=
  match lineField l with
  | None => true
  | Some f => called ss f
  end.

(** The lines of a program under that rule. *)
Definition linesWhenCalled (ord : MapOrder) (ss : list Setter)
    (c : ProgramConfig) : list string :=
  linesShown (lineWhenCalled ss) (lineText ord c).

(** Two renderings of one program agree, whatever the order of the two
    ranges. *)
Definition rendersTheSame (h : heap) (p : ptr) : Prop :=
  ∀ ord1 ord2 : MapOrder,
    GenerateProgramConfig ord1 h p = GenerateProgramConfig ord2 h p.

(** The group renderer fails exactly on a blank name or an empty
    sequence of programs. *)
Definition failsOnlyOnGuards (ords : nat → MapOrder) (h : heap) (group : ptr)
    (g : GroupConfig) : Prop :=
  (∃ e, GenerateGroupConfig ords h group = Panic e) ↔
  GroupName g = "" ∨ Programs g = [].

(** The structure as section 4.4 enumerates it: the group line, the
    programs line, one blank line, one additional blank line, then for
    each member one blank line and its trimmed rendering. *)
Definition groupText_section44 (name : string) (names : list string)
    (cfss : list string) : string :=
  unlines ["[group:" +:+ name +:+ "]";
           "programs=" +:+ GoStrings.Join names ",";
           "";
           ""]
  +:+ concatBlocks (map programBlock cfss).

(** ** Notions used by the further properties *)

(** The arguments of one [build]: the four required strings and the
    calls of the chain. *)
Definition nameGiven (m : string * string * string * string * list Setter)
    : string := m.1.1.1.1.


(** A string without a comma. *)
Fixpoint noComma (s : string) : bool :=
  match s with
  | "" => true
  | String a s => negb (Ascii.eqb a ",") && noComma s
  end.

(** * Properties

    ** The library models on examples *)

Example TrimSpace_ex :
  GoStrings.TrimSpace
    (GoStrings.bytes [32; 9] +:+ "a b"
     +:+ GoStrings.bytes [194; 160; 10; 226; 128; 137; 32])
  = "a b".
Proof. vm_compute. reflexivity. Qed.

Example TrimSpace_blank : GoStrings.TrimSpace (GoStrings.bytes [32; 10; 9]) = "".
Proof. vm_compute. reflexivity. Qed.

Example Join_ex1 :
  GoFilepath.Join ["/opt/myapp"; "bin"; "myapp"] = "/opt/myapp/bin/myapp".
Proof. vm_compute. reflexivity. Qed.

Example Join_ex2 :
  GoFilepath.Join ["/var/log//x/"; "../a/./b.log"] = "/var/log/a/b.log".
Proof. vm_compute. reflexivity. Qed.

Example Join_ex3 :
  GoFilepath.Join [""; "../.."; "a"; ".."; ".."; "b"] = "../../../b".
Proof. vm_compute. reflexivity. Qed.

Example Clean_ex :
  map GoFilepath.Clean ["/.."; "a/.."; "a/../.."; "/a/b/../../.."; "a//b/"; ""]
  = ["/"; "."; ".."; "/"; "a/b"; "."].
Proof. vm_compute. reflexivity. Qed.

Example Itoa_ex : map GoStrconv.Itoa [0; 130; -7]%Z = ["0"; "130"; "-7"].
Proof. vm_compute. reflexivity. Qed.

(** ** The tests of the package *)

Example TestSingleProgramConfig :
  renderBuilt listed "myapp" "/opt/myapp" "deploy" "/var/log/myapp"
    [CallStartRetries 10; CallEnvironment {[ "APP_ENV" := "production" ]}]
  = Ok (unlines
      [ "[program:myapp]";
        "user            = deploy";
        "directory       = /opt/myapp";
        "command         = /opt/myapp/bin/myapp";
        "environment     = APP_ENV=production";
        "startretries    = 10";
        "stdout_logfile  = /var/log/myapp/myapp.log";
        "stderr_logfile  = /var/log/myapp/myapp.err" ]).
Proof. vm_compute. reflexivity. Qed.

Example TestAdvancedProgramConfig :
  renderBuilt listed "advanced-service" "/opt/advanced" "performance"
    "/var/log/advanced"
    [CallStopWaitSecs 60; CallStopSignal "INT"; CallPriority 100;
     CallKillAsGroup true; CallExitCodes [0; 1; 2]%Z]
  = Ok (unlines
      [ "[program:advanced-service]";
        "user            = performance";
        "directory       = /opt/advanced";
        "command         = /opt/advanced/bin/advanced-service";
        "stdout_logfile  = /var/log/advanced/advanced-service.log";
        "stderr_logfile  = /var/log/advanced/advanced-service.err";
        "stopwaitsecs    = 60";
        "killasgroup     = true";
        "stopsignal      = INT";
        "priority        = 100";
        "exitcodes       = 0,1,2" ]).
Proof. vm_compute. reflexivity. Qed.

Example TestWithCustomization :
  renderBuilt listed "service1" "/opt/service1" "deploy" "/var/log/services"
    [CallStartRetries 50; CallLogMaxBytes "100MB"; CallRedirectStderr true]
  = Ok (unlines
      [ "[program:service1]";
        "user            = deploy";
        "directory       = /opt/service1";
        "command         = /opt/service1/bin/service1";
        "startretries    = 50";
        "stdout_logfile  = /var/log/services/service1.log";
        "stdout_logfile_maxbytes = 100MB";
        "stderr_logfile  = /var/log/services/service1.err";
        "stderr_logfile_maxbytes = 100MB";
        "redirect_stderr = true" ]).
Proof. vm_compute. reflexivity. Qed.

Example TestMultiInstanceConfig :
  renderBuilt reversed "web-server" "/opt/web-server" "deploy" "/var/log/cluster"
    [CallNumProcs 3; CallProcessName "%(program_name)s_%(process_num)02d";
     CallEnvironment {[ "PORT_BASE" := "8080" ]}]
  = Ok (unlines
      [ "[program:web-server]";
        "user            = deploy";
        "directory       = /opt/web-server";
        "command         = /opt/web-server/bin/web-server";
        "environment     = PORT_BASE=8080";
        "stdout_logfile  = /var/log/cluster/web-server.log";
        "stderr_logfile  = /var/log/cluster/web-server.err";
        "numprocs        = 3";
        "process_name    = %(program_name)s_%(process_num)02d" ]).
Proof. vm_compute. reflexivity. Qed.

Example TestDefaultValues :
  renderBuilt listed "basic-service" "/opt/basic-service" "deploy" "/var/log/basic" []
  = Ok (unlines
      [ "[program:basic-service]";
        "user            = deploy";
        "directory       = /opt/basic-service";
        "command         = /opt/basic-service/bin/basic-service";
        "stdout_logfile  = /var/log/basic/basic-service.log";
        "stderr_logfile  = /var/log/basic/basic-service.err" ]).
Proof. vm_compute. reflexivity. Qed.

Example TestHighPerformanceConfig :
  renderBuilt reversed "high-perf" "/opt/high-perf" "performance" "/var/log/perf"
    [CallStartRetries 100; CallStopWaitSecs 60; CallLogMaxBytes "500MB";
     CallLogBackups 50; CallPriority 1]
  = Ok (unlines
      [ "[program:high-perf]";
        "user            = performance";
        "directory       = /opt/high-perf";
        "command         = /opt/high-perf/bin/high-perf";
        "startretries    = 100";
        "stdout_logfile  = /var/log/perf/high-perf.log";
        "stdout_logfile_maxbytes = 500MB";
        "stdout_logfile_backups = 50";
        "stderr_logfile  = /var/log/perf/high-perf.err";
        "stderr_logfile_maxbytes = 500MB";
        "stderr_logfile_backups = 50";
        "stopwaitsecs    = 60";
        "priority        = 1" ]).
Proof. vm_compute. reflexivity. Qed.

Example TestDevelopmentConfig :
  renderBuilt listed "dev-service" "/home/dev/service" "developer" "/tmp/dev-logs"
    [CallAutoStart false; CallAutoRestart false; CallStartRetries 1;
     CallLogMaxBytes "10MB"; CallLogBackups 3; CallRedirectStderr true;
     CallStopAsGroup false;
     CallEnvironment {[ "NODE_ENV" := "development" ]}]
  = Ok (unlines
      [ "[program:dev-service]";
        "user            = developer";
        "directory       = /home/dev/service";
        "command         = /home/dev/service/bin/dev-service";
        "environment     = NODE_ENV=development";
        "autostart       = false";
        "autorestart     = false";
        "startretries    = 1";
        "stdout_logfile  = /tmp/dev-logs/dev-service.log";
        "stdout_logfile_maxbytes = 10MB";
        "stdout_logfile_backups = 3";
        "stderr_logfile  = /tmp/dev-logs/dev-service.err";
        "stderr_logfile_maxbytes = 10MB";
        "stderr_logfile_backups = 3";
        "redirect_stderr = true";
        "stopasgroup     = false" ]).
Proof. vm_compute. reflexivity. Qed.

Example TestCustomExitCodesConfig :
  renderBuilt listed "exit-service" "/opt/exit-service" "exit-user" "/var/log/exit"
    [CallExitCodes [0; 1; 2; 130]%Z; CallStopSignal "QUIT"; CallKillAsGroup false]
  = Ok (unlines
      [ "[program:exit-service]";
        "user            = exit-user";
        "directory       = /opt/exit-service";
        "command         = /opt/exit-service/bin/exit-service";
        "stdout_logfile  = /var/log/exit/exit-service.log";
        "stderr_logfile  = /var/log/exit/exit-service.err";
        "killasgroup     = false";
        "stopsignal      = QUIT";
        "exitcodes       = 0,1,2,130" ]).
Proof. vm_compute. reflexivity. Qed.

Example TestLargeScaleGroupConfig :
  renderGroupOf (λ _, listed) "mega-cluster"
    (map (λ name,
            (name, "/opt/" +:+ name, "cluster-user", "/var/log/cluster",
             [CallPriority 50; CallNumProcs 2;
              CallProcessName "%(program_name)s-%(process_num)02d";
              CallEnvironment {[ "CLUSTER_MODE" := "production" ]}]))
       ["service1"; "service2"; "service3"])
  = Ok (unlines
      [ "[group:mega-cluster]";
        "programs=service1,service2,service3";
        "";
        "";
        "[program:service1]";
        "user            = cluster-user";
        "directory       = /opt/service1";
        "command         = /opt/service1/bin/service1";
        "environment     = CLUSTER_MODE=production";
        "stdout_logfile  = /var/log/cluster/service1.log";
        "stderr_logfile  = /var/log/cluster/service1.err";
        "priority        = 50";
        "numprocs        = 2";
        "process_name    = %(program_name)s-%(process_num)02d";
        "";
        "[program:service2]";
        "user            = cluster-user";
        "directory       = /opt/service2";
        "command         = /opt/service2/bin/service2";
        "environment     = CLUSTER_MODE=production";
        "stdout_logfile  = /var/log/cluster/service2.log";
        "stderr_logfile  = /var/log/cluster/service2.err";
        "priority        = 50";
        "numprocs        = 2";
        "process_name    = %(program_name)s-%(process_num)02d";
        "";
        "[program:service3]";
        "user            = cluster-user";
        "directory       = /opt/service3";
        "command         = /opt/service3/bin/service3";
        "environment     = CLUSTER_MODE=production";
        "stdout_logfile  = /var/log/cluster/service3.log";
        "stderr_logfile  = /var/log/cluster/service3.err";
        "priority        = 50";
        "numprocs        = 2";
        "process_name    = %(program_name)s-%(process_num)02d" ]).
Proof. vm_compute. reflexivity. Qed.

Example TestMicroserviceGroupConfig :
  renderGroupOf (λ _, listed) "microservice-cluster"
    [ ("api-gateway", "/opt/gateway", "deploy", "/var/log/cluster",
       [CallPriority 1; CallNumProcs 2;
        CallProcessName "%(program_name)s-%(process_num)02d";
        CallEnvironment {[ "SERVICE_TYPE" := "gateway" ]}]);
      ("user-service", "/opt/user-service", "deploy", "/var/log/cluster",
       [CallStartRetries 5; CallStopWaitSecs 30]);
      ("order-service", "/opt/order-service", "deploy", "/var/log/cluster",
       [CallAutoRestart false; CallLogMaxBytes "200MB"]) ]
  = Ok (unlines
      [ "[group:microservice-cluster]";
        "programs=api-gateway,user-service,order-service";
        "";
        "";
        "[program:api-gateway]";
        "user            = deploy";
        "directory       = /opt/gateway";
        "command         = /opt/gateway/bin/api-gateway";
        "environment     = SERVICE_TYPE=gateway";
        "stdout_logfile  = /var/log/cluster/api-gateway.log";
        "stderr_logfile  = /var/log/cluster/api-gateway.err";
        "priority        = 1";
        "numprocs        = 2";
        "process_name    = %(program_name)s-%(process_num)02d";
        "";
        "[program:user-service]";
        "user            = deploy";
        "directory       = /opt/user-service";
        "command         = /opt/user-service/bin/user-service";
        "startretries    = 5";
        "stdout_logfile  = /var/log/cluster/user-service.log";
        "stderr_logfile  = /var/log/cluster/user-service.err";
        "stopwaitsecs    = 30";
        "";
        "[program:order-service]";
        "user            = deploy";
        "directory       = /opt/order-service";
        "command         = /opt/order-service/bin/order-service";
        "autorestart     = false";
        "stdout_logfile  = /var/log/cluster/order-service.log";
        "stdout_logfile_maxbytes = 200MB";
        "stderr_logfile  = /var/log/cluster/order-service.err";
        "stderr_logfile_maxbytes = 200MB" ]).
Proof. vm_compute. reflexivity. Qed.

Example TestNewGroupConfig :
  match testGroup with
  | (Ok group, h) => GenerateGroupConfig (λ _, listed) h group
  | (Panic e, _) => Panic e
  end
  = Ok (unlines
      [ "[group:microservices]";
        "programs=api-server,worker";
        "";
        "";
        "[program:api-server]";
        "user            = deploy";
        "directory       = /opt/api-server";
        "command         = /opt/api-server/bin/api-server";
        "startretries    = 3";
        "stdout_logfile  = /var/log/services/api-server.log";
        "stderr_logfile  = /var/log/services/api-server.err";
        "";
        "[program:worker]";
        "user            = deploy";
        "directory       = /opt/worker";
        "command         = /opt/worker/bin/worker";
        "autostart       = false";
        "stdout_logfile  = /var/log/services/worker.log";
        "stderr_logfile  = /var/log/services/worker.err" ]).
Proof. vm_compute. reflexivity. Qed.

(** ** Strings and texts *)

Lemma app_cons (a : ascii) (s t : string) :
  String a s +:+ t = String a (s +:+ t).
Proof. reflexivity. Qed.

Lemma app_empty_l (s : string) : "" +:+ s = s.
Proof. reflexivity. Qed.

Lemma app_empty_r (s : string) : s +:+ "" = s.
Proof. induction s as [|a s IH]; [reflexivity|]. by rewrite app_cons, IH. Qed.

Lemma app_assoc_s (s t u : string) : (s +:+ t) +:+ u = s +:+ (t +:+ u).
Proof. induction s as [|a s IH]; [reflexivity|]. by rewrite !app_cons, IH. Qed.

Lemma app_eq_empty (s t : string) : s +:+ t = "" → s = "".
Proof. destruct s; [reflexivity|]. rewrite app_cons. discriminate. Qed.

Lemma unlines_nil : unlines [] = "".
Proof. reflexivity. Qed.

Lemma unlines_cons (l : string) (ls : list string) :
  unlines (l :: ls) = l +:+ Printgo.LF +:+ unlines ls.
Proof. reflexivity. Qed.

Lemma unlines_app (ls1 ls2 : list string) :
  unlines (ls1 ++ ls2) = unlines ls1 +:+ unlines ls2.
Proof.
  induction ls1 as [|l ls1 IH]; [reflexivity|].
  rewrite <- app_comm_cons, !unlines_cons, IH.
  by rewrite !app_assoc_s.
Qed.

(** A conditional [Println] adds one line or none to the buffer. *)
Lemma Println_unlines (ls : list string) (s : string) :
  Printgo.Println (unlines ls) s = unlines (ls ++ [s]).
Proof.
  unfold Printgo.Println. rewrite unlines_app, unlines_cons, unlines_nil.
  by rewrite app_empty_r.
Qed.

Lemma Println_if (b : bool) (ls : list string) (s : string) :
  (if b then Printgo.Println (unlines ls) s else unlines ls)
  = unlines (ls ++ (if b then [s] else [])).
Proof. destruct b; [apply Println_unlines|]. by rewrite app_nil_r. Qed.

(** ** Panics and [must] *)

Lemma bind_Ok {A B : Type} (a : A) (k : A → result B) : (Ok a ≫= k) = k a.
Proof. reflexivity. Qed.

Lemma bind_Panic {A B : Type} (e : panic) (k : A → result B) :
  (Panic e ≫= k) = Panic e.
Proof. reflexivity. Qed.

Lemma Nice_ok (a : string) : a ≠ "" → Must.Nice a = Ok a.
Proof. intros H. unfold Must.Nice. by rewrite bool_decide_eq_false_2. Qed.

Lemma Nice_blank (a : string) : a = "" → Must.Nice a = Panic MustNice.
Proof. intros ->. reflexivity. Qed.

Lemma Nice_case (a : string) :
  (a = "" ∧ Must.Nice a = Panic MustNice) ∨ (a ≠ "" ∧ Must.Nice a = Ok a).
Proof.
  destruct (decide (a = "")) as [H|H];
    [left; by rewrite (Nice_blank _ H)|right; by rewrite (Nice_ok _ H)].
Qed.

(** ** The joined strings *)

Lemma Join_cons_ne (e sep : string) (es : list string) :
  e ≠ "" → GoStrings.Join (e :: es) sep ≠ "".
Proof.
  intros He. destruct es as [|e' es]; simpl; [done|].
  intros H. by apply app_eq_empty in H.
Qed.

(** The joined environment is empty exactly for an empty mapping: every
    pair holds at least its equals sign. *)
Lemma combineSsMap_empty (ord : MapOrder) (m : gmap string string)
    (sep : string) :
  combineSsMap ord m sep = "" ↔ m = ∅.
Proof.
  unfold combineSsMap. case_bool_decide as Hsize.
  - apply map_size_empty_iff in Hsize. done.
  - split; [|intros ->; by rewrite map_size_empty in Hsize].
    intros Hjoin. exfalso.
    pose proof (rangeOver_entries ord m) as Hperm.
    destruct (rangeOver ord m) as [|[k v] kvs].
    + apply Permutation_nil_l in Hperm. symmetry in Hperm.
      apply map_to_list_empty_iff in Hperm. subst m.
      by rewrite map_size_empty in Hsize.
    + revert Hjoin. apply Join_cons_ne.
      intros H. destruct k; discriminate H.
Qed.

(** ** The renderer of one program, line by line *)

(** The step for the environment: one line, or none. *)
Lemma environment_step (ord : MapOrder) (c : ProgramConfig) (ls : list string) :
  (if IsSet (Environment c) then
     let env := combineSsMap ord (Get (Environment c)) "," in
     if bool_decide (env ≠ "")
     then Printgo.Println (unlines ls) ("environment     = " +:+ env)
     else unlines ls
   else unlines ls)
  = unlines (ls ++ (if lineEmitted c LEnvironment
                    then [lineText ord c LEnvironment] else [])).
Proof.
  unfold lineEmitted; simpl.
  destruct (IsSet (Environment c)); simpl; [|by rewrite app_nil_r].
  pose proof (combineSsMap_empty ord (Get (Environment c)) ",") as Hempty.
  do 2 case_bool_decide; try tauto.
  - apply Println_unlines.
  - by rewrite app_nil_r.
Qed.

(** The step for the auto-restart value, when it is a [bool] or a
    [string]. *)
Lemma autoRestart_step (ord : MapOrder) (c : ProgramConfig) (ls : list string) :
  (IsSet (AutoRestart c) = true → Get (AutoRestart c) ≠ AnyOther) →
  (if IsSet (AutoRestart c) then
     match Get (AutoRestart c) with
     | AnyBool v =>
         Ok (Printgo.Println (unlines ls)
               ("autorestart     = " +:+ GoStrconv.FormatBool v))
     | AnyString v =>
         Ok (Printgo.Println (unlines ls) ("autorestart     = " +:+ v))
     | AnyOther => Panic ImpossibleInvalidType
     end
   else Ok (unlines ls))
  = Ok (unlines (ls ++ (if lineEmitted c LAutoRestart
                        then [lineText ord c LAutoRestart] else []))).
Proof.
  unfold lineEmitted; simpl. intros Htyped.
  destruct (IsSet (AutoRestart c)); simpl; [|by rewrite app_nil_r].
  destruct (Get (AutoRestart c)); simpl.
  - by rewrite Println_unlines.
  - by rewrite Println_unlines.
  - by destruct Htyped.
Qed.

(** One statement of the renderer at a time: the definition is opened
    without replacing its local definitions, and each [let] is entered
    once its value has been rewritten to a text of lines. *)
Ltac let_step :=
  lazymatch goal with
  | |- (let x := ?A in @?F x) = ?R => change (F A = R); cbv beta
  | |- (Ok ?a ≫= ?k) = ?R => change (k a = R); cbv beta
  end.

(** The guards that passed, on both sides of an equation. *)
Ltac ok_steps := repeat (rewrite bind_Ok; cbv beta).

Ltac open_renderer :=
  cbv delta [GenerateProgramConfig]; cbv beta.

(** On an object it accepts, the renderer returns the lines of
    section 4.3 that are emitted, in that order. *)
Lemma GenerateProgramConfig_lines (ord : MapOrder) (h : heap) (p : ptr)
    (c : ProgramConfig) :
  derefProgram h p = Ok c → renders c →
  GenerateProgramConfig ord h p = Ok (unlines (programLines ord c)).
Proof.
  intros Hc (Hname & Hroot & Huser & Hslog & Htyped).
  destruct p as [l|]; [|discriminate Hc].
  open_renderer. rewrite Hc.
  change (Must.Full (Some l)) with (Ok (Some l)).
  let_step. let_step.
  rewrite (Nice_ok _ Hname); let_step.
  rewrite (Nice_ok _ Hroot); let_step.
  rewrite (Nice_ok _ Huser); let_step.
  rewrite (Nice_ok _ Hslog); let_step.
  change Printgo.NewPTX with (unlines []).
  let_step.
  repeat (first [ rewrite environment_step
                | rewrite (autoRestart_step ord c _ Htyped)
                | rewrite Println_if
                | rewrite Println_unlines ];
          let_step).
  unfold Printgo.String. do 2 f_equal.
  unfold programLines, linesShown, section43. cbn [flat_map].
  rewrite <- !app_assoc, app_nil_r. reflexivity.
Qed.

(** The renderer computes [outcome]. *)
Lemma GenerateProgramConfig_outcome (ord : MapOrder) (h : heap) (p : ptr) :
  GenerateProgramConfig ord h p = outcome ord h p.
Proof.
  unfold outcome.
  destruct p as [l|]; [|reflexivity].
  destruct (derefProgram h (Some l)) as [c|e] eqn:Hc.
  2:{ open_renderer. rewrite Hc. reflexivity. }
  destruct (decide (IsSet (AutoRestart c) = true
                    ∧ Get (AutoRestart c) = AnyOther))
    as [[Hset Hother]|Htyped];
    [|destruct (decide (Name c ≠ "" ∧ Root c ≠ "" ∧ UserName c ≠ ""
                        ∧ SlogRoot c ≠ ""))
        as [(Hname & Hroot & Huser & Hslog)|Hblank]].
  2:{ rewrite (GenerateProgramConfig_lines ord h (Some l) c Hc).
      2:{ repeat split; try assumption. intros Hset Hother. by apply Htyped. }
      change (Must.Full (Some l)) with (@Ok ptr (Some l)). ok_steps.
      rewrite (Nice_ok _ Hname); ok_steps.
      rewrite (Nice_ok _ Hroot); ok_steps.
      rewrite (Nice_ok _ Huser); ok_steps.
      rewrite (Nice_ok _ Hslog); ok_steps.
      destruct (IsSet (AutoRestart c)); [|reflexivity].
      case_bool_decide; [|reflexivity]. by destruct Htyped. }
  all: open_renderer; rewrite Hc;
    change (Must.Full (Some l)) with (@Ok ptr (Some l)); ok_steps.
  all: destruct (decide (Name c = "")) as [Hname|Hname];
    [ rewrite (Nice_blank _ Hname); reflexivity
    | rewrite (Nice_ok _ Hname); ok_steps ].
  all: destruct (decide (Root c = "")) as [Hroot|Hroot];
    [ rewrite (Nice_blank _ Hroot); reflexivity
    | rewrite (Nice_ok _ Hroot); ok_steps ].
  all: destruct (decide (UserName c = "")) as [Huser|Huser];
    [ rewrite (Nice_blank _ Huser); reflexivity
    | rewrite (Nice_ok _ Huser); ok_steps ].
  all: destruct (decide (SlogRoot c = "")) as [Hslog|Hslog];
    [ rewrite (Nice_blank _ Hslog); reflexivity
    | rewrite (Nice_ok _ Hslog); ok_steps ].
  - rewrite Hset, Hother.
    change Printgo.NewPTX with (unlines []).
    let_step.
    do 4 (rewrite Println_unlines; let_step).
    rewrite environment_step; let_step.
    rewrite Println_if; let_step.
    reflexivity.
  - by destruct Hblank.
Qed.

(** What a successful rendering was made from. *)
Lemma GenerateProgramConfig_Ok_inv (ord : MapOrder) (h : heap) (p : ptr)
    (text : string) :
  GenerateProgramConfig ord h p = Ok text →
  ∃ c, derefProgram h p = Ok c ∧ renders c ∧
       text = unlines (programLines ord c).
Proof.
  rewrite GenerateProgramConfig_outcome. unfold outcome.
  destruct p as [l|]; [|by intros [=]].
  change (Must.Full (Some l)) with (@Ok ptr (Some l)); ok_steps.
  destruct (derefProgram h (Some l)) as [c|e]; [ok_steps|by rewrite bind_Panic].
  destruct (Nice_case (Name c)) as [[? ->]|[? ->]]; [by rewrite bind_Panic|ok_steps].
  destruct (Nice_case (Root c)) as [[? ->]|[? ->]]; [by rewrite bind_Panic|ok_steps].
  destruct (Nice_case (UserName c)) as [[? ->]|[? ->]]; [by rewrite bind_Panic|ok_steps].
  destruct (Nice_case (SlogRoot c)) as [[? ->]|[? ->]]; [by rewrite bind_Panic|ok_steps].
  destruct (IsSet (AutoRestart c)) eqn:Hset; cbn [andb].
  - case_bool_decide as Hother; [intros [=]|].
    intros [= <-]. exists c. unfold renders. auto 10.
  - intros [= <-]. exists c. unfold renders. rewrite Hset. auto 10.
Qed.

(** The fatal branch of the type switch is taken only on an auto-restart
    value that is set and neither a [bool] nor a [string]. *)
Lemma GenerateProgramConfig_fatal (ord : MapOrder) (h : heap) (p : ptr) :
  GenerateProgramConfig ord h p = Panic ImpossibleInvalidType →
  ∃ c, derefProgram h p = Ok c ∧
       IsSet (AutoRestart c) = true ∧ Get (AutoRestart c) = AnyOther.
Proof.
  rewrite GenerateProgramConfig_outcome. unfold outcome.
  destruct p as [l|]; [|by intros [=]].
  change (Must.Full (Some l)) with (@Ok ptr (Some l)); ok_steps.
  destruct (derefProgram h (Some l)) as [c|e] eqn:Hc; [ok_steps|].
  2:{ rewrite bind_Panic. intros [= ->]. unfold derefProgram in Hc.
      destruct (programObjects h !! l); discriminate Hc. }
  destruct (Nice_case (Name c)) as [[? ->]|[? ->]]; [by rewrite bind_Panic|ok_steps].
  destruct (Nice_case (Root c)) as [[? ->]|[? ->]]; [by rewrite bind_Panic|ok_steps].
  destruct (Nice_case (UserName c)) as [[? ->]|[? ->]]; [by rewrite bind_Panic|ok_steps].
  destruct (Nice_case (SlogRoot c)) as [[? ->]|[? ->]]; [by rewrite bind_Panic|ok_steps].
  destruct (IsSet (AutoRestart c)) eqn:Hset; cbn [andb]; [|intros [=]].
  case_bool_decide as Hother; [|intros [=]].
  intros _. exists c. auto.
Qed.

(** The renderer depends on the order of the range only through the
    joined environment, and only when the environment is set. *)
Lemma programLines_ext (ord1 ord2 : MapOrder) (c : ProgramConfig) :
  (IsSet (Environment c) = true →
   combineSsMap ord1 (Get (Environment c)) "," =
   combineSsMap ord2 (Get (Environment c)) ",") →
  programLines ord1 c = programLines ord2 c.
Proof.
  intros Henv. unfold programLines, linesShown, section43. cbn [flat_map].
  repeat (f_equal; []).
  f_equal.
  unfold lineEmitted; simpl.
  destruct (IsSet (Environment c)); [|reflexivity]. simpl.
  by rewrite Henv.
Qed.

Lemma GenerateProgramConfig_ext (ord1 ord2 : MapOrder) (h : heap) (p : ptr) :
  (∀ c, derefProgram h p = Ok c → IsSet (Environment c) = true →
        combineSsMap ord1 (Get (Environment c)) "," =
        combineSsMap ord2 (Get (Environment c)) ",") →
  GenerateProgramConfig ord1 h p = GenerateProgramConfig ord2 h p.
Proof.
  intros Henv. rewrite !GenerateProgramConfig_outcome. unfold outcome.
  destruct p as [l|]; [|reflexivity].
  change (Must.Full (Some l)) with (@Ok ptr (Some l)); ok_steps.
  destruct (derefProgram h (Some l)) as [c|e] eqn:Hc; [ok_steps|reflexivity].
  by rewrite (programLines_ext ord1 ord2 c (Henv c eq_refl)).
Qed.

(** ** The chain methods on the heap *)

Lemma heap_eq (h1 h2 : heap) :
  programObjects h1 = programObjects h2 → groupObjects h1 = groupObjects h2 → h1 = h2.
Proof. destruct h1, h2; simpl; by intros -> ->. Qed.

Lemma updateProgram_allocated (f : ProgramConfig → ProgramConfig) (l : loc)
    (c : ProgramConfig) (h : heap) :
  programObjects h !! l = Some c →
  updateProgram f (Some l) h
  = (Ok (Some l), storeProgram l (f c) h).
Proof. intros Hl. unfold updateProgram, derefProgram. by rewrite Hl. Qed.

(** A chain method called on an allocated receiver stores what
    [applySetter] computes and returns the receiver; when it panics the
    heap is as before. *)
Lemma callSetter_allocated (s : Setter) (l : loc) (c : ProgramConfig) (h : heap) :
  programObjects h !! l = Some c →
  callSetter (Some l) s h =
    match applySetter s c with
    | Ok c' =>
        (Ok (Some l), storeProgram l c' h)
    | Panic e => (Panic e, h)
    end.
Proof.
  intros Hl.
  destruct s; simpl;
    try (unfold WithAutoStart, WithAutoRestart, WithStartRetries, WithStartSecs,
           WithLogMaxBytes, WithLogBackups, WithRedirectStderr, WithStopAsGroup,
           WithKillAsGroup, WithStopWaitSecs, WithStopSignal, WithPriority,
           WithEnvironment, WithExitCodes, WithNumProcs, WithProcessName;
         by apply updateProgram_allocated).
  unfold WithAutoRestartMode.
  destruct (Must.In mode _); simpl; [|reflexivity].
  by apply updateProgram_allocated.
Qed.

Lemma chain_allocated (ss : list Setter) (l : loc) (c : ProgramConfig) (h : heap) :
  programObjects h !! l = Some c →
  match applySetters ss c with
  | Ok c' =>
      chain (Some l) ss h =
        (Ok (Some l), storeProgram l c' h)
  | Panic e => ∃ h', chain (Some l) ss h = (Panic e, h')
  end.
Proof.
  revert c h. induction ss as [|s ss IH]; intros c h Hl; simpl.
  - f_equal. apply heap_eq; simpl; [|reflexivity]. by rewrite insert_id.
  - rewrite (callSetter_allocated s l c h Hl).
    destruct (applySetter s c) as [c1|e]; simpl; [|by eexists].
    specialize (IH c1 (storeProgram l c1 h)).
    simpl in IH. rewrite lookup_insert_eq in IH. specialize (IH eq_refl).
    destruct (applySetters ss c1) as [c'|e]; [|exact IH].
    rewrite IH. by rewrite insert_insert_eq.
Qed.

(** What a successful [build] leaves on the heap. *)
Lemma build_Ok_inv (name root userName slogRoot : string) (ss : list Setter)
    (h0 h : heap) (p : ptr) :
  build name root userName slogRoot ss h0 = (Ok p, h) →
  ∃ l c0 c,
    newProgramConfig name root userName slogRoot = Ok c0 ∧
    applySetters ss c0 = Ok c ∧
    (l ∉ dom (programObjects h0)) ∧
    p = Some l ∧
    h = storeProgram l c h0.
Proof.
  unfold build, NewProgramConfig.
  destruct (newProgramConfig name root userName slogRoot) as [c0|e];
    [|discriminate].
  unfold allocProgram.
  set (l := fresh (dom (programObjects h0))).
  set (h1 := storeProgram l c0 h0).
  assert (Hl : programObjects h1 !! l = Some c0) by apply lookup_insert_eq.
  pose proof (chain_allocated ss l c0 h1 Hl) as Hchain.
  destruct (applySetters ss c0) as [c|e] eqn:Hss.
  - rewrite Hchain. intros [= <- <-].
    exists l, c0, c. split_and!; try done.
    + apply is_fresh.
    + simpl. by rewrite insert_insert_eq.
  - destruct Hchain as [h' ->]. discriminate.
Qed.

Lemma derefProgram_insert (l : loc) (c : ProgramConfig)
    (m : gmap loc ProgramConfig) (g : gmap loc GroupConfig) :
  derefProgram {| programObjects := <[l := c]> m; groupObjects := g |} (Some l)
  = Ok c.
Proof. unfold derefProgram; simpl. by rewrite lookup_insert_eq. Qed.

(** ** The constructor *)

Lemma newProgramConfig_Ok (name root userName slogRoot : string) :
  name ≠ "" → root ≠ "" → userName ≠ "" → slogRoot ≠ "" →
  ∃ c0, newProgramConfig name root userName slogRoot = Ok c0 ∧
        Name c0 = name ∧ Root c0 = root ∧ UserName c0 = userName ∧
        SlogRoot c0 = slogRoot ∧ (∀ f, fieldIsSet c0 f = false) ∧
        Get (Environment c0) = ∅ ∧
        Get (AutoRestart c0) = AnyString "unexpected" ∧
        Get (ExitCodes c0) = [0%Z].
Proof.
  intros Hname Hroot Huser Hslog. unfold newProgramConfig.
  rewrite (Nice_ok _ Hname), (Nice_ok _ Huser), (Nice_ok _ Hroot),
    (Nice_ok _ Hslog).
  eexists. split; [reflexivity|]. simpl.
  repeat split. by intros [].
Qed.

Lemma newProgramConfig_Ok_inv (name root userName slogRoot : string)
    (c0 : ProgramConfig) :
  newProgramConfig name root userName slogRoot = Ok c0 →
  name ≠ "" ∧ root ≠ "" ∧ userName ≠ "" ∧ slogRoot ≠ "".
Proof.
  unfold newProgramConfig.
  destruct (Nice_case name) as [[? ->]|[? ->]]; [discriminate|].
  destruct (Nice_case userName) as [[? ->]|[? ->]]; [discriminate|].
  destruct (Nice_case root) as [[? ->]|[? ->]]; [discriminate|].
  destruct (Nice_case slogRoot) as [[? ->]|[? ->]]; [discriminate|].
  done.
Qed.

Lemma newProgramConfig_blank (name root userName slogRoot : string) :
  name = "" ∨ root = "" ∨ userName = "" ∨ slogRoot = "" →
  newProgramConfig name root userName slogRoot = Panic MustNice.
Proof.
  intros Hblank. unfold newProgramConfig.
  destruct (Nice_case name) as [[? ->]|[? ->]]; [reflexivity|].
  destruct (Nice_case userName) as [[? ->]|[? ->]]; [reflexivity|].
  destruct (Nice_case root) as [[? ->]|[? ->]]; [reflexivity|].
  destruct (Nice_case slogRoot) as [[? ->]|[? ->]]; [reflexivity|].
  tauto.
Qed.

(** ** What the chain methods leave in the object *)

(** One call: the required strings stay, the flag of the assigned field
    is raised and no other flag changes, the value is the argument. *)
Lemma applySetter_Ok_inv (s : Setter) (c c' : ProgramConfig) :
  applySetter s c = Ok c' →
  Name c' = Name c ∧ Root c' = Root c ∧ UserName c' = UserName c ∧
  SlogRoot c' = SlogRoot c ∧
  (∀ f, fieldIsSet c' f = fieldIsSet c f || bool_decide (setterField s = f)) ∧
  Get (Environment c') = default (Get (Environment c)) (pickEnvironment s) ∧
  Get (AutoRestart c') = default (Get (AutoRestart c)) (pickAutoRestart s) ∧
  Get (ExitCodes c') = default (Get (ExitCodes c)) (pickExitCodes s).
Proof.
  destruct c.
  destruct s; simpl;
    try (destruct (Must.In mode _); [rewrite bind_Ok|by rewrite bind_Panic]);
    intros [= <-]; simpl; split_and!; try reflexivity;
    intros []; simpl; try case_bool_decide; try done;
    by rewrite ?orb_false_r, ?orb_true_r.
Qed.

Lemma lastCall_cons {A : Type} (pick : Setter → option A) (s : Setter)
    (ss : list Setter) (d : A) :
  default d (lastCall pick (s :: ss))
  = default (default d (pick s)) (lastCall pick ss).
Proof. simpl. by destruct (lastCall pick ss). Qed.

Lemma applySetters_Ok_inv (ss : list Setter) (c c' : ProgramConfig) :
  applySetters ss c = Ok c' →
  Name c' = Name c ∧ Root c' = Root c ∧ UserName c' = UserName c ∧
  SlogRoot c' = SlogRoot c ∧
  (∀ f, fieldIsSet c' f = fieldIsSet c f || called ss f) ∧
  Get (Environment c') = default (Get (Environment c)) (lastCall pickEnvironment ss) ∧
  Get (AutoRestart c') = default (Get (AutoRestart c)) (lastCall pickAutoRestart ss) ∧
  Get (ExitCodes c') = default (Get (ExitCodes c)) (lastCall pickExitCodes ss).
Proof.
  revert c. induction ss as [|s ss IH]; intros c.
  - intros [= <-]. split_and!; try reflexivity.
    intros f. by rewrite orb_false_r.
  - cbn [applySetters].
    destruct (applySetter s c) as [c1|e] eqn:Hs; [|by rewrite bind_Panic].
    rewrite bind_Ok. intros Hss.
    apply applySetter_Ok_inv in Hs
      as (Hn1 & Hr1 & Hu1 & Hl1 & Hf1 & He1 & Ha1 & Hx1).
    apply IH in Hss as (Hn & Hr & Hu & Hl & Hf & He & Ha & Hx).
    rewrite !lastCall_cons, <- He1, <- Ha1, <- Hx1.
    split_and!; try congruence.
    intros f. rewrite Hf, Hf1. unfold called; simpl. by rewrite orb_assoc.
Qed.

(** A kind of call is among the calls exactly when it has a last value. *)
Lemma called_lastCall {A : Type} (pick : Setter → option A) (f : Field)
    (ss : list Setter) :
  (∀ s, is_Some (pick s) ↔ setterField s = f) →
  called ss f = bool_decide (is_Some (lastCall pick ss)).
Proof.
  intros Hpick. induction ss as [|s ss IH]; [done|].
  cbn [lastCall]. unfold called in *. cbn [existsb]. rewrite IH.
  destruct (lastCall pick ss) as [v|].
  - rewrite (bool_decide_eq_true_2 (is_Some (Some v))) by eauto.
    apply orb_true_r.
  - rewrite (bool_decide_eq_false_2 (is_Some None)) by (by intros [? ?]).
    rewrite orb_false_r. apply bool_decide_ext. symmetry. apply Hpick.
Qed.

Lemma pickEnvironment_field (s : Setter) :
  is_Some (pickEnvironment s) ↔ setterField s = FEnvironment.
Proof. destruct s; simpl; split; (done || by intros [? ?]). Qed.

Lemma pickAutoRestart_field (s : Setter) :
  is_Some (pickAutoRestart s) ↔ setterField s = FAutoRestart.
Proof. destruct s; simpl; split; (done || by intros [? ?]). Qed.

Lemma pickExitCodes_field (s : Setter) :
  is_Some (pickExitCodes s) ↔ setterField s = FExitCodes.
Proof. destruct s; simpl; split; (done || by intros [? ?]). Qed.

(** The typed setters store a [bool] or a [string]. *)
Lemma lastCall_pickAutoRestart (ss : list Setter) (v : any) :
  lastCall pickAutoRestart ss = Some v → v ≠ AnyOther.
Proof.
  induction ss as [|s ss IH]; simpl; [discriminate|].
  destruct (lastCall pickAutoRestart ss) as [w|]; [exact IH|].
  destruct s; simpl; intros [= <-]; discriminate.
Qed.

(** ** Objects built by the constructor and the chain methods *)

Lemma applySetters_built (name root userName slogRoot : string)
    (ss : list Setter) (c0 c : ProgramConfig) :
  newProgramConfig name root userName slogRoot = Ok c0 →
  applySetters ss c0 = Ok c →
  built name root userName slogRoot ss c.
Proof.
  intros Hnew Hss.
  pose proof (newProgramConfig_Ok_inv _ _ _ _ _ Hnew)
    as (Hname & Hroot & Huser & Hslog).
  destruct (newProgramConfig_Ok _ _ _ _ Hname Hroot Huser Hslog)
    as (c0' & Hnew' & Hn0 & Hr0 & Hu0 & Hl0 & Hf0 & He0 & Ha0 & Hx0).
  assert (c0' = c0) as -> by congruence.
  apply applySetters_Ok_inv in Hss as (Hn & Hr & Hu & Hl & Hf & He & Ha & Hx).
  split; try congruence; try done.
  intros f. by rewrite Hf, Hf0.
Qed.

Lemma built_renders (name root userName slogRoot : string) (ss : list Setter)
    (c : ProgramConfig) :
  built name root userName slogRoot ss c → renders c.
Proof.
  intros [Hn Hr Hu Hl (Hname & Hroot & Huser & Hslog) Hf He Ha Hx].
  unfold renders. rewrite Hn, Hr, Hu, Hl. split_and!; try done.
  intros _. rewrite Ha.
  destruct (lastCall pickAutoRestart ss) as [v|] eqn:Hlast; simpl; [|done].
  by apply lastCall_pickAutoRestart in Hlast.
Qed.

(** For a built object the renderer's rule and the rule on the calls
    agree. *)
Lemma built_lineEmitted (name root userName slogRoot : string)
    (ss : list Setter) (c : ProgramConfig) (l : Line) :
  built name root userName slogRoot ss c →
  lineEmitted c l = lineAfterCalls ss l.
Proof.
  intros Hb. unfold lineEmitted, lineAfterCalls.
  destruct (lineField l) as [f|]; [|reflexivity].
  destruct (decide (f = FEnvironment)) as [->|Hf].
  - change (IsSet (Environment c)) with (fieldIsSet c FEnvironment).
    rewrite (built_isSet _ _ _ _ _ _ Hb), (built_Environment _ _ _ _ _ _ Hb).
    rewrite (called_lastCall pickEnvironment _ _ pickEnvironment_field).
    destruct (lastCall pickEnvironment ss) as [m|]; simpl; [|reflexivity].
    reflexivity.
  - rewrite <- (built_isSet _ _ _ _ _ _ Hb). by destruct f.
Qed.

Lemma linesShown_ext (shown1 shown2 : Line → bool) (text : Line → string) :
  (∀ l, shown1 l = shown2 l) →
  linesShown shown1 text = linesShown shown2 text.
Proof.
  intros Hshown. unfold linesShown.
  induction section43 as [|l ls IH]; simpl; [reflexivity|].
  by rewrite Hshown, IH.
Qed.

(** The lines shown keep the order of the list of section 4.3. *)
Lemma linesShown_sublist (shown : Line → bool) (text : Line → string) :
  linesShown shown text `sublist_of` map text section43.
Proof.
  unfold linesShown.
  induction section43 as [|l ls IH]; simpl; [constructor|].
  destruct (shown l); simpl.
  - by apply sublist_skip.
  - by apply sublist_cons.
Qed.

(** The text of a built program: the lines of section 4.3 selected by
    the rule on the calls. *)
Lemma build_rendering (ord : MapOrder) (name root userName slogRoot : string)
    (ss : list Setter) (h0 h : heap) (p : ptr) :
  build name root userName slogRoot ss h0 = (Ok p, h) →
  ∃ c, derefProgram h p = Ok c ∧
       built name root userName slogRoot ss c ∧
       GenerateProgramConfig ord h p
       = Ok (unlines (linesShown (lineAfterCalls ss) (lineText ord c))).
Proof.
  intros Hbuild.
  apply build_Ok_inv in Hbuild as (l & c0 & c & Hnew & Hss & _ & -> & ->).
  pose proof (applySetters_built _ _ _ _ _ _ _ Hnew Hss) as Hb.
  exists c. split; [apply derefProgram_insert|]. split; [exact Hb|].
  rewrite (GenerateProgramConfig_lines ord _ _ c (derefProgram_insert _ _ _ _)
             (built_renders _ _ _ _ _ _ Hb)).
  unfold programLines. f_equal. f_equal.
  apply linesShown_ext. intros l'. by apply (built_lineEmitted _ _ _ _ _ _ _ Hb).
Qed.

(** ** The group renderer *)

(** The second loop appends one block for each member, or panics with
    the first member that does not render. *)
Lemma programBlocks_renderings (ords : nat → MapOrder) (h : heap) (i : nat)
    (ps : list ptr) (ptx : Printgo.PTX) :
  programBlocks ords h i ps ptx
  = (cfss ← renderings ords h i ps;
     Ok (ptx +:+ concatBlocks (map programBlock cfss))).
Proof.
  revert i ptx. induction ps as [|p ps IH]; intros i ptx.
  - cbn [programBlocks renderings]. rewrite bind_Ok.
    cbn [map concatBlocks]. by rewrite app_empty_r.
  - cbn [programBlocks renderings].
    destruct (GenerateProgramConfig (ords i) h p) as [cfs|e];
      [rewrite !bind_Ok|by rewrite !bind_Panic].
    rewrite IH.
    destruct (renderings ords h (S i) ps) as [cfss|e];
      [rewrite !bind_Ok|by rewrite !bind_Panic].
    cbn [map concatBlocks]. unfold programBlock at 2.
    unfold Printgo.Println, Printgo.Println0.
    by rewrite !app_assoc_s.
Qed.

(** The group renderer on an allocated group: its two guards, the names
    of the members, their renderings, the text. *)
Lemma GenerateGroupConfig_allocated (ords : nat → MapOrder) (h : heap)
    (group : ptr) (g : GroupConfig) :
  derefGroup h group = Ok g →
  GenerateGroupConfig ords h group
  = (Must.Nice (GroupName g);;
     Must.Have (Programs g);;
     names ← programNames h (Programs g);
     cfss ← renderings ords h 0 (Programs g);
     Ok (groupText (GroupName g) names cfss)).
Proof.
  intros Hg. unfold GenerateGroupConfig.
  destruct group as [l|]; [|discriminate Hg].
  rewrite Hg. change (Must.Full (Some l)) with (@Ok ptr (Some l)).
  rewrite !bind_Ok.
  destruct (Must.Nice (GroupName g)); [rewrite !bind_Ok|by rewrite !bind_Panic].
  destruct (Must.Have (Programs g)); [rewrite !bind_Ok|by rewrite !bind_Panic].
  destruct (programNames h (Programs g)) as [names|e];
    [rewrite !bind_Ok|by rewrite !bind_Panic].
  rewrite programBlocks_renderings.
  destruct (renderings ords h 0 (Programs g)) as [cfss|e];
    [rewrite !bind_Ok|by rewrite !bind_Panic].
  unfold groupText, Printgo.String, Printgo.Println0, Printgo.Println,
    Printgo.NewPTX.
  rewrite !unlines_cons, unlines_nil, !app_empty_l, !app_empty_r.
  by rewrite !app_assoc_s.
Qed.

(** The renderings fail exactly when a member does not render. *)
Lemma renderings_Panic (ords : nat → MapOrder) (h : heap) (i : nat)
    (ps : list ptr) :
  (∃ e, renderings ords h i ps = Panic e) ↔
  ∃ j p e, ps !! j = Some p ∧ GenerateProgramConfig (ords (i + j)) h p = Panic e.
Proof.
  revert i. induction ps as [|p ps IH]; intros i.
  - split; [by intros [e [=]]|by intros (j & p & e & [=] & _)].
  - cbn [renderings]. split.
    + intros [e He].
      destruct (GenerateProgramConfig (ords i) h p) as [cfs|e'] eqn:Hp.
      * rewrite bind_Ok in He.
        destruct (renderings ords h (S i) ps) as [rest|e''] eqn:Hps;
          [by rewrite bind_Ok in He|].
        destruct (proj1 (IH (S i))) as (j & q & e3 & Hj & Hq); [by eexists|].
        exists (S j), q, e3. split; [exact Hj|].
        by replace (i + S j) with (S i + j) by lia.
      * exists 0, p, e'. split; [reflexivity|]. by rewrite Nat.add_0_r.
    + intros (j & q & e & Hj & Hq).
      destruct (GenerateProgramConfig (ords i) h p) as [cfs|e'] eqn:Hp;
        [rewrite bind_Ok|rewrite bind_Panic; by eexists].
      destruct j as [|j].
      * injection Hj as ->. rewrite Nat.add_0_r in Hq. congruence.
      * destruct (proj2 (IH (S i))) as [e3 He3].
        { exists j, q, e. split; [exact Hj|].
          by replace (S i + j) with (i + S j) by lia. }
        rewrite He3, bind_Panic. by eexists.
Qed.

(** A member that renders is allocated: when all members render, the
    first loop reads their names. *)
Lemma renderings_programNames (ords : nat → MapOrder) (h : heap) (i : nat)
    (ps : list ptr) (cfss : list string) :
  renderings ords h i ps = Ok cfss →
  ∃ names, programNames h ps = Ok names ∧
           Forall2 (λ p name, ∃ c, derefProgram h p = Ok c ∧ Name c = name)
             ps names.
Proof.
  revert i cfss. induction ps as [|p ps IH]; intros i cfss.
  - intros _. exists []. split; [reflexivity|constructor].
  - cbn [renderings programNames].
    destruct (GenerateProgramConfig (ords i) h p) as [cfs|e] eqn:Hp;
      [rewrite bind_Ok|by rewrite bind_Panic].
    destruct (renderings ords h (S i) ps) as [rest|e] eqn:Hps;
      [rewrite bind_Ok|by rewrite bind_Panic].
    intros _.
    apply GenerateProgramConfig_Ok_inv in Hp as (c & Hc & _ & _).
    destruct (IH _ _ Hps) as (names & Hnames & Hall).
    exists (Name c :: names). rewrite Hc, bind_Ok, Hnames, bind_Ok.
    split; [reflexivity|]. constructor; [by exists c|exact Hall].
Qed.

(** The first loop fails only on a member that does not render. *)
Lemma programNames_Panic (ords : nat → MapOrder) (h : heap) (i : nat)
    (ps : list ptr) (e : panic) :
  programNames h ps = Panic e →
  ∃ e', renderings ords h i ps = Panic e'.
Proof.
  revert i e. induction ps as [|p ps IH]; intros i e; [discriminate|].
  cbn [renderings programNames].
  destruct (GenerateProgramConfig (ords i) h p) as [cfs|e1] eqn:Hp;
    [rewrite bind_Ok|rewrite bind_Panic; by eexists].
  apply GenerateProgramConfig_Ok_inv in Hp as (c & Hc & _ & _).
  rewrite Hc, bind_Ok.
  destruct (programNames h ps) as [names|e2] eqn:Hnames;
    [by rewrite bind_Ok|].
  intros _. destruct (IH (S i) e2 eq_refl) as [e' He'].
  rewrite He', bind_Panic. by eexists.
Qed.

(** One rendering for each member. *)
Lemma renderings_length (ords : nat → MapOrder) (h : heap) (i : nat)
    (ps : list ptr) (cfss : list string) :
  renderings ords h i ps = Ok cfss → length cfss = length ps.
Proof.
  revert i cfss. induction ps as [|p ps IH]; intros i cfss.
  - by intros [= <-].
  - cbn [renderings].
    destruct (GenerateProgramConfig (ords i) h p) as [cfs|e];
      [rewrite bind_Ok|by rewrite bind_Panic].
    destruct (renderings ords h (S i) ps) as [rest|e] eqn:Hps;
      [rewrite bind_Ok|by rewrite bind_Panic].
    intros [= <-]. simpl. f_equal. by eapply IH.
Qed.

(** ** The lines of a rendering *)

Lemma lineEmitted_programLines (ord : MapOrder) (c : ProgramConfig) (l : Line) :
  lineEmitted c l = true → lineText ord c l ∈ programLines ord c.
Proof.
  intros Hl. unfold programLines, linesShown.
  apply list_elem_of_In, in_flat_map. exists l. split.
  - destruct l; simpl; tauto.
  - rewrite Hl. by left.
Qed.

(** Without the environment line, no line of a rendering starts like
    one. *)
Lemma no_environment_line (ord : MapOrder) (c : ProgramConfig) :
  lineEmitted c LEnvironment = false →
  Forall (λ line, String.prefix "environment" line = false) (programLines ord c).
Proof.
  intros Henv. unfold programLines, linesShown, section43. cbn [flat_map].
  rewrite Henv. clear Henv.
  repeat (apply Forall_app; split);
    try (match goal with |- Forall _ (if ?b then _ else _) => destruct b end);
    repeat constructor.
Qed.

Lemma programNames_memberNames (h : heap) (ps : list ptr) (names : list string) :
  programNames h ps = Ok names → names = memberNames h ps.
Proof.
  revert names. induction ps as [|p ps IH]; intros names.
  - by intros [= <-].
  - cbn [programNames memberNames map].
    destruct (derefProgram h p) as [c|e]; [rewrite bind_Ok|by rewrite bind_Panic].
    destruct (programNames h ps) as [rest|e];
      [rewrite bind_Ok|by rewrite bind_Panic].
    intros [= <-]. f_equal. by apply IH.
Qed.

(** * The claims *)

(** C1, as stated, fails: after [WithEnvironment] with an empty mapping
    the setter of the environment has been called, and the rendering has
    no environment line. *)
Lemma C1_counterexample :
  ∃ p h c,
    emptyEnvironmentRun = (Ok p, h) ∧
    derefProgram h p = Ok c ∧
    called emptyEnvironmentCalls FEnvironment = true ∧
    GenerateProgramConfig listed h p
    ≠ Ok (unlines (linesWhenCalled listed emptyEnvironmentCalls c)).
Proof.
  eexists _, _, _. split; [vm_compute; reflexivity|].
  split; [vm_compute; reflexivity|].
  split; [reflexivity|].
  vm_compute. discriminate.
Qed.

(** C1, amended.  For a program made by the constructor and any chain of
    setters, the rendering is the list of section 4.3 in its order,
    restricted to the lines that are always written, the lines of every
    optional field other than the environment whose setter has been
    called, and the environment line when its setter has been called and
    the mapping of its last call has an entry.  No other line appears,
    and the lines are a sublist of the full list, so none is reordered. *)
Theorem C1_lines_after_calls (ord : MapOrder)
    (name root userName slogRoot : string) (ss : list Setter) (h0 h : heap)
    (p : ptr) :
  build name root userName slogRoot ss h0 = (Ok p, h) →
  ∃ c, derefProgram h p = Ok c ∧
       Name c = name ∧ Root c = root ∧ UserName c = userName ∧
       SlogRoot c = slogRoot ∧
       GenerateProgramConfig ord h p
       = Ok (unlines (linesShown (lineAfterCalls ss) (lineText ord c))) ∧
       linesShown (lineAfterCalls ss) (lineText ord c)
         `sublist_of` map (lineText ord c) section43.
Proof.
  intros Hbuild.
  destruct (build_rendering ord _ _ _ _ _ _ _ _ Hbuild) as (c & Hc & Hb & Hgen).
  exists c. destruct Hb. split_and!; try done.
  apply linesShown_sublist.
Qed.

Lemma C1_witness :
  ∃ p h c,
    build "myapp" "/opt/myapp" "deploy" "/var/log/myapp"
      [CallStartRetries 10; CallEnvironment {[ "APP_ENV" := "production" ]}]
      emptyHeap = (Ok p, h) ∧
    derefProgram h p = Ok c ∧
    GenerateProgramConfig listed h p
    = Ok (unlines
            (linesShown
               (lineAfterCalls
                  [CallStartRetries 10;
                   CallEnvironment {[ "APP_ENV" := "production" ]}])
               (lineText listed c))).
Proof.
  destruct (build "myapp" "/opt/myapp" "deploy" "/var/log/myapp"
              [CallStartRetries 10;
               CallEnvironment {[ "APP_ENV" := "production" ]}] emptyHeap)
    as [[p|e] h] eqn:Hbuild; [|vm_compute in Hbuild; discriminate Hbuild].
  destruct (C1_lines_after_calls listed _ _ _ _ _ _ _ _ Hbuild)
    as (c & Hc & _ & _ & _ & _ & Hgen & _).
  exists p, h, c. auto.
Defined.

(** C2.  A program made by the constructor from four non-blank strings,
    with no setter called, renders as exactly six lines: header, user,
    directory, command, stdout_logfile, stderr_logfile.  Its optional
    fields hold their defaults all the same. *)
Theorem C2_zero_config (ord : MapOrder) (name root userName slogRoot : string)
    (h0 : heap) :
  name ≠ "" → root ≠ "" → userName ≠ "" → slogRoot ≠ "" →
  ∃ p h c,
    NewProgramConfig name root userName slogRoot h0 = (Ok p, h) ∧
    derefProgram h p = Ok c ∧
    (Get (Environment c) = ∅ ∧ Get (AutoStart c) = true ∧
     Get (AutoRestart c) = AnyString "unexpected" ∧
     Get (StartRetries c) = 3%Z ∧ Get (StartSecs c) = 1%Z ∧
     Get (LogMaxBytes c) = "50MB" ∧ Get (LogBackups c) = 10%Z ∧
     Get (RedirectStderr c) = false ∧ Get (StopAsGroup c) = false ∧
     Get (StopWaitSecs c) = 10%Z ∧ Get (KillAsGroup c) = false ∧
     Get (StopSignal c) = "TERM" ∧ Get (Priority c) = 999%Z ∧
     Get (ExitCodes c) = [0%Z] ∧ Get (NumProcs c) = 1%Z ∧
     Get (ProcessName c) = "%(program_name)s") ∧
    (∀ f, fieldIsSet c f = false) ∧
    GenerateProgramConfig ord h p
    = Ok (unlines
            [ "[program:" +:+ name +:+ "]";
              "user            = " +:+ userName;
              "directory       = " +:+ root;
              "command         = " +:+ GoFilepath.Join [root; "bin"; name];
              "stdout_logfile  = "
                +:+ GoFilepath.Join [slogRoot; name +:+ ".log"];
              "stderr_logfile  = "
                +:+ GoFilepath.Join [slogRoot; name +:+ ".err"] ]).
Proof.
  intros Hname Hroot Huser Hslog.
  unfold NewProgramConfig, newProgramConfig.
  rewrite (Nice_ok _ Hname), (Nice_ok _ Huser), (Nice_ok _ Hroot),
    (Nice_ok _ Hslog).
  rewrite !bind_Ok. unfold allocProgram.
  eexists _, _, _. split; [reflexivity|].
  split; [apply derefProgram_insert|].
  split; [by split_and!|].
  split; [by intros []|].
  erewrite GenerateProgramConfig_lines; [|apply derefProgram_insert|];
    [reflexivity|].
  unfold renders; simpl. split_and!; try done.
Qed.

Lemma C2_witness :
  ∃ p h,
    NewProgramConfig "zero-config" "/opt/zero-config" "deploy" "/var/log/minimal"
      emptyHeap = (Ok p, h) ∧
    GenerateProgramConfig listed h p
    = Ok (unlines
            [ "[program:zero-config]";
              "user            = deploy";
              "directory       = /opt/zero-config";
              "command         = /opt/zero-config/bin/zero-config";
              "stdout_logfile  = /var/log/minimal/zero-config.log";
              "stderr_logfile  = /var/log/minimal/zero-config.err" ]).
Proof.
  destruct (C2_zero_config listed
              "zero-config" "/opt/zero-config" "deploy" "/var/log/minimal"
              emptyHeap)
    as (p & h & c & Hnew & _ & _ & _ & Hgen); [discriminate..|].
  exists p, h. split; [exact Hnew|]. rewrite Hgen. vm_compute. reflexivity.
Defined.

(** C3, as stated, fails: on the group of the package's own test the
    renderer writes two blank lines before the first program, not the
    three of the enumerated steps. *)
Lemma C3_counterexample :
  ∃ group h g cfss,
    testGroup = (Ok group, h) ∧
    derefGroup h group = Ok g ∧
    GroupName g ≠ "" ∧ Programs g ≠ [] ∧
    renderings (λ _, listed) h 0 (Programs g) = Ok cfss ∧
    GenerateGroupConfig (λ _, listed) h group
    ≠ Ok (groupText_section44 (GroupName g) (memberNames h (Programs g)) cfss).
Proof.
  eexists _, _, _, _. split; [vm_compute; reflexivity|].
  split; [vm_compute; reflexivity|].
  split; [discriminate|]. split; [discriminate|].
  split; [vm_compute; reflexivity|].
  vm_compute. discriminate.
Qed.

(** C3, amended.  For a group with a non-blank name and at least one
    program, all of whose members render, the renderer returns exactly:
    the [[group:<name>]] line, the [programs=] line with the names of the
    members comma-joined in insertion order, one blank line, then for
    each member in insertion order one blank line and the member's
    rendering with leading and trailing white space trimmed, each
    followed by a line terminator.  The first block is preceded by two
    blank lines. *)
Theorem C3_group_text (ords : nat → MapOrder) (h : heap) (group : ptr)
    (g : GroupConfig) (cfss : list string) :
  derefGroup h group = Ok g →
  GroupName g ≠ "" →
  Programs g ≠ [] →
  renderings ords h 0 (Programs g) = Ok cfss →
  GenerateGroupConfig ords h group
  = Ok ("[group:" +:+ GroupName g +:+ "]" +:+ Printgo.LF
        +:+ "programs=" +:+ GoStrings.Join (memberNames h (Programs g)) ","
        +:+ Printgo.LF
        +:+ Printgo.LF
        +:+ concatBlocks
              (map (λ cfs, Printgo.LF +:+ GoStrings.TrimSpace cfs +:+ Printgo.LF)
                 cfss)).
Proof.
  intros Hg Hname Hprograms Hcfss.
  destruct (renderings_programNames _ _ _ _ _ Hcfss) as (names & Hnames & _).
  rewrite (GenerateGroupConfig_allocated ords h group g Hg).
  rewrite (Nice_ok _ Hname), bind_Ok.
  rewrite (programNames_memberNames _ _ _ Hnames) in Hnames.
  destruct (Programs g) as [|p ps] eqn:Hps; [done|].
  cbn [Must.Have]. rewrite bind_Ok, Hnames, bind_Ok, Hcfss, bind_Ok.
  unfold groupText. rewrite !unlines_cons, unlines_nil.
  rewrite !app_empty_l, !app_empty_r, !app_assoc_s. reflexivity.
Qed.

Lemma C3_witness :
  GenerateGroupConfig (λ _, listed) (heapOf testGroup) (ptrOf testGroup)
  = Ok (unlines
      [ "[group:microservices]";
        "programs=api-server,worker";
        "";
        "";
        "[program:api-server]";
        "user            = deploy";
        "directory       = /opt/api-server";
        "command         = /opt/api-server/bin/api-server";
        "startretries    = 3";
        "stdout_logfile  = /var/log/services/api-server.log";
        "stderr_logfile  = /var/log/services/api-server.err";
        "";
        "[program:worker]";
        "user            = deploy";
        "directory       = /opt/worker";
        "command         = /opt/worker/bin/worker";
        "autostart       = false";
        "stdout_logfile  = /var/log/services/worker.log";
        "stderr_logfile  = /var/log/services/worker.err" ]).
Proof.
  erewrite (C3_group_text (λ _, listed) (heapOf testGroup) (ptrOf testGroup)).
  2:{ vm_compute. reflexivity. }
  2:{ vm_compute. discriminate. }
  2:{ vm_compute. discriminate. }
  2:{ vm_compute. reflexivity. }
  vm_compute. reflexivity.
Defined.

(** C4, as stated, fails: with two keys in the environment the text
    depends on the order in which the range visits them. *)
Lemma C4_counterexample :
  ∃ p h,
    twoKeysRun = (Ok p, h) ∧
    GenerateProgramConfig listed h p ≠ GenerateProgramConfig reversed h p ∧
    ¬ rendersTheSame h p.
Proof.
  eexists _, _. split; [vm_compute; reflexivity|].
  split; [vm_compute; discriminate|].
  intros Hsame. specialize (Hsame listed reversed).
  vm_compute in Hsame. discriminate Hsame.
Qed.

(** A mapping with at most one entry is visited in one way only. *)
Lemma rangeOver_small (ord1 ord2 : MapOrder) (m : gmap string string) :
  (size m ≤ 1)%nat → rangeOver ord1 m = rangeOver ord2 m.
Proof.
  intros Hsize.
  pose proof (rangeOver_entries ord1 m) as H1.
  pose proof (rangeOver_entries ord2 m) as H2.
  rewrite <- length_map_to_list in Hsize.
  destruct (map_to_list m) as [|kv [|kv' kvs]]; [| |simpl in Hsize; lia].
  - apply Permutation_nil_r in H1, H2. congruence.
  - apply Permutation_singleton_r in H1, H2. congruence.
Qed.

(** C4, amended.  Two renderings of the same unmutated program return
    identical text, or panic alike, when its environment is not set or
    holds at most one key.  (With two or more keys the order of the
    pairs in the environment line is that of the range, which Go does not
    fix.) *)
Theorem C4_deterministic (ord1 ord2 : MapOrder) (h : heap) (p : ptr) :
  (∀ c, derefProgram h p = Ok c → IsSet (Environment c) = true →
        (size (Get (Environment c)) ≤ 1)%nat) →
  GenerateProgramConfig ord1 h p = GenerateProgramConfig ord2 h p.
Proof.
  intros Hsmall. apply GenerateProgramConfig_ext. intros c Hc Hset.
  unfold combineSsMap.
  by rewrite (rangeOver_small ord1 ord2 _ (Hsmall c Hc Hset)).
Qed.

Lemma C4_witness :
  GenerateProgramConfig listed
    (heapOf (build "myapp" "/opt/myapp" "deploy" "/var/log/myapp"
               [CallEnvironment {[ "APP_ENV" := "production" ]}] emptyHeap))
    (ptrOf (build "myapp" "/opt/myapp" "deploy" "/var/log/myapp"
              [CallEnvironment {[ "APP_ENV" := "production" ]}] emptyHeap))
  = GenerateProgramConfig reversed
    (heapOf (build "myapp" "/opt/myapp" "deploy" "/var/log/myapp"
               [CallEnvironment {[ "APP_ENV" := "production" ]}] emptyHeap))
    (ptrOf (build "myapp" "/opt/myapp" "deploy" "/var/log/myapp"
              [CallEnvironment {[ "APP_ENV" := "production" ]}] emptyHeap)).
Proof.
  apply C4_deterministic.
  intros c Hc _. vm_compute in Hc. injection Hc as <-.
  vm_compute. lia.
Defined.

(** Calls on an [Opt]. *)

Lemma optCalls_IsSet {T : Type} (sv : Opt T) (cs : list (OptCall T)) :
  IsSet (optCalls sv cs) = true ↔ IsSet sv = true ∨ ∃ v, CallSet v ∈ cs.
Proof.
  revert sv. induction cs as [|c cs IH]; intros sv.
  - cbn. split; [by left|]. intros [H|[v H]]; [done|]. by apply elem_of_nil in H.
  - change (optCalls sv (c :: cs)) with (optCalls (optCall sv c) cs).
    rewrite IH. split.
    + intros [H|[v H]].
      * destruct c as [|v|]; [by left|right|by left].
        exists v. by left.
      * right. exists v. by right.
    + intros [H|[v H]].
      * left. by destruct c.
      * apply elem_of_cons in H as [<-|H]; [by left|].
        right. by exists v.
Qed.

Lemma optCalls_Get {T : Type} (sv : Opt T) (cs : list (OptCall T)) :
  Get (optCalls sv cs) = default (Get sv) (lastSet cs).
Proof.
  revert sv. induction cs as [|c cs IH]; intros sv; [reflexivity|].
  change (optCalls sv (c :: cs)) with (optCalls (optCall sv c) cs).
  rewrite IH. cbn [lastSet].
  destruct (lastSet cs) as [v|]; [reflexivity|]. by destruct c.
Qed.

Lemma lastSet_Some {T : Type} (cs : list (OptCall T)) (v : T) :
  lastSet cs = Some v → CallSet v ∈ cs.
Proof.
  induction cs as [|c cs IH]; cbn [lastSet]; [discriminate|].
  destruct (lastSet cs) as [w|].
  - intros [= ->]. right. by apply IH.
  - destruct c; intros [= ->]. by left.
Qed.

Lemma lastSet_None {T : Type} (cs : list (OptCall T)) :
  lastSet cs = None → ∀ v, CallSet v ∉ cs.
Proof.
  induction cs as [|c cs IH]; cbn [lastSet]; intros Hnone v Hv.
  - by apply elem_of_nil in Hv.
  - destruct (lastSet cs) as [w|]; [discriminate|].
    apply elem_of_cons in Hv as [<-|Hv]; [discriminate|].
    by apply (IH eq_refl v).
Qed.

(** C5.  Right after construction with a default [IsSet] is false; it is
    true after a sequence of calls exactly when a [Set] is among them,
    and once a [Set] has been made it stays true whatever calls follow;
    [Get] returns the default when no [Set] was made and the argument of
    the last [Set] otherwise. *)
Theorem C5_opt {T : Type} (d : T) (cs : list (OptCall T)) :
  IsSet (NewOpt d) = false ∧
  (IsSet (optCalls (NewOpt d) cs) = true ↔ ∃ v, CallSet v ∈ cs) ∧
  (∀ v cs', IsSet (optCalls (NewOpt d) (cs ++ CallSet v :: cs')) = true) ∧
  Get (optCalls (NewOpt d) cs) = default d (lastSet cs) ∧
  (lastSet cs = None ↔ ¬ ∃ v, CallSet v ∈ cs).
Proof.
  split; [reflexivity|]. split.
  { rewrite optCalls_IsSet. cbn. split; [by intros [?|?]|by right]. }
  split.
  { intros v cs'. apply optCalls_IsSet. right. exists v.
    apply elem_of_app. right. by left. }
  split; [apply optCalls_Get|].
  split.
  - intros Hnone [v Hv]. by apply (lastSet_None _ Hnone v).
  - intros Hno. destruct (lastSet cs) as [w|] eqn:Hlast; [|reflexivity].
    destruct Hno. exists w. by apply lastSet_Some.
Qed.

Lemma C5_witness :
  IsSet (optCalls (NewOpt 3%Z) [CallGet; CallSet 5%Z; CallIsSet; CallSet 0%Z; CallGet])
  = true ∧
  Get (optCalls (NewOpt 3%Z) [CallGet; CallSet 5%Z; CallIsSet; CallSet 0%Z; CallGet])
  = 0%Z.
Proof.
  destruct (C5_opt 3%Z [CallGet; CallSet 5%Z; CallIsSet; CallSet 0%Z; CallGet])
    as (_ & Hset & _ & Hget & _).
  split.
  - apply Hset. exists 5%Z. apply list_elem_of_In. simpl. tauto.
  - rewrite Hget. reflexivity.
Defined.

(** C6.  The constructor fails with a validation error, leaving the heap
    as it was, when any of the four required strings is blank (the empty
    string, the zero value that [must.Nice] rejects); when none is, it
    succeeds and returns a new object holding the four values. *)
Theorem C6_constructor (name root userName slogRoot : string) (h : heap) :
  (name = "" ∨ root = "" ∨ userName = "" ∨ slogRoot = "" →
   ∃ e, NewProgramConfig name root userName slogRoot h = (Panic e, h) ∧
        validation_error e) ∧
  (name ≠ "" → root ≠ "" → userName ≠ "" → slogRoot ≠ "" →
   ∃ l c,
     NewProgramConfig name root userName slogRoot h
     = (Ok (Some l), storeProgram l c h) ∧
     programObjects h !! l = None ∧
     Name c = name ∧ Root c = root ∧ UserName c = userName ∧
     SlogRoot c = slogRoot).
Proof.
  split.
  - intros Hblank. exists MustNice. unfold NewProgramConfig.
    rewrite (newProgramConfig_blank _ _ _ _ Hblank).
    split; [reflexivity|by left].
  - intros Hname Hroot Huser Hslog.
    destruct (newProgramConfig_Ok _ _ _ _ Hname Hroot Huser Hslog)
      as (c & Hnew & Hn & Hr & Hu & Hl & _).
    exists (fresh (dom (programObjects h))), c.
    unfold NewProgramConfig. rewrite Hnew.
    split_and!; try done.
    apply not_elem_of_dom, is_fresh.
Qed.

Lemma C6_witness :
  (∃ e, NewProgramConfig "myapp" "/opt/myapp" "" "/var/log/myapp" emptyHeap
        = (Panic e, emptyHeap) ∧ validation_error e) ∧
  (∃ l c, NewProgramConfig "myapp" "/opt/myapp" "deploy" "/var/log/myapp" emptyHeap
          = (Ok (Some l), storeProgram l c emptyHeap) ∧
          Name c = "myapp" ∧ Root c = "/opt/myapp" ∧ UserName c = "deploy" ∧
          SlogRoot c = "/var/log/myapp").
Proof.
  split.
  - apply (C6_constructor "myapp" "/opt/myapp" "" "/var/log/myapp" emptyHeap).
    right. right. left. reflexivity.
  - destruct (proj2 (C6_constructor "myapp" "/opt/myapp" "deploy" "/var/log/myapp"
                       emptyHeap))
      as (l & c & Hnew & _ & Hrest); [discriminate..|].
    exists l, c. split; [exact Hnew|exact Hrest].
Defined.

(** C7.  [WithAutoRestartMode] fails with a validation error exactly when
    its argument is not one of "false", "true", "unexpected", whatever
    its receiver, and then the heap is unchanged; on one of the three and
    an allocated receiver it stores the string in the auto-restart field,
    marks the field set, changes nothing else and returns its receiver.
    No other chain method raises a validation error: on an allocated
    receiver each succeeds for every argument and returns its
    receiver. *)
Theorem C7_setter_validation (p : ptr) (mode : string) (h : heap) :
  ((∃ e h', WithAutoRestartMode p mode h = (Panic e, h') ∧ validation_error e)
   ↔ mode ∉ ["false"; "true"; "unexpected"]) ∧
  (mode ∉ ["false"; "true"; "unexpected"] →
   WithAutoRestartMode p mode h = (Panic MustIn, h)) ∧
  (mode ∈ ["false"; "true"; "unexpected"] →
   ∀ l c, p = Some l → programObjects h !! l = Some c →
     ∃ c',
       WithAutoRestartMode p mode h
       = (Ok p, storeProgram l c' h) ∧
       AutoRestart c' = {| Value := AnyString mode; isSet := true |} ∧
       c' = setAutoRestart (AnyString mode) c) ∧
  (∀ s, (∀ m, s ≠ CallAutoRestartMode m) →
     (∀ e h', callSetter p s h = (Panic e, h') → ¬ validation_error e) ∧
     (∀ l c, p = Some l → programObjects h !! l = Some c →
        ∃ c', callSetter p s h
              = (Ok p, storeProgram l c' h))).
Proof.
  assert (Hbad : mode ∉ ["false"; "true"; "unexpected"] →
                 WithAutoRestartMode p mode h = (Panic MustIn, h)).
  { intros Hmode. unfold WithAutoRestartMode, Must.In.
    by rewrite bool_decide_eq_false_2. }
  assert (Hgood : mode ∈ ["false"; "true"; "unexpected"] →
                  WithAutoRestartMode p mode h
                  = updateProgram (setAutoRestart (AnyString mode)) p h).
  { intros Hmode. unfold WithAutoRestartMode, Must.In.
    by rewrite bool_decide_eq_true_2. }
  assert (Hupdate : ∀ f e h', updateProgram f p h = (Panic e, h') →
                              e = NilDereference).
  { intros f e h'. unfold updateProgram, derefProgram.
    destruct p as [l|]; [|by intros [= <- _]].
    destruct (programObjects h !! l); [discriminate|by intros [= <- _]]. }
  split_and!.
  - split.
    + intros (e & h' & Hcall & Hval) Hmode.
      rewrite (Hgood Hmode) in Hcall. apply Hupdate in Hcall. subst e.
      by destruct Hval.
    + intros Hmode. exists MustIn, h. split; [by apply Hbad|by right].
  - exact Hbad.
  - intros Hmode l c -> Hl. exists (setAutoRestart (AnyString mode) c).
    rewrite (Hgood Hmode), (updateProgram_allocated _ _ _ _ Hl).
    split_and!; reflexivity.
  - intros s Hs. split.
    + intros e h' Hcall [-> | ->].
      * destruct s; try (by apply Hupdate in Hcall). exfalso. by eapply Hs.
      * destruct s; try (by apply Hupdate in Hcall). exfalso. by eapply Hs.
    + intros l c -> Hl. rewrite (callSetter_allocated s l c h Hl).
      destruct s; try (eexists; reflexivity). exfalso. by eapply Hs.
Qed.

Lemma C7_witness :
  (∃ c', WithAutoRestartMode (ptrOf emptyEnvironmentRun) "true"
           (heapOf emptyEnvironmentRun)
         = (Ok (ptrOf emptyEnvironmentRun),
            storeProgram 1%positive c' (heapOf emptyEnvironmentRun)) ∧
         AutoRestart c' = {| Value := AnyString "true"; isSet := true |}) ∧
  WithAutoRestartMode (ptrOf emptyEnvironmentRun) "always"
    (heapOf emptyEnvironmentRun)
  = (Panic MustIn, heapOf emptyEnvironmentRun).
Proof.
  split.
  - destruct (C7_setter_validation (ptrOf emptyEnvironmentRun) "true"
                (heapOf emptyEnvironmentRun))
      as (_ & _ & Hgood & _).
    eassert (Hmode : "true" ∈ ["false"; "true"; "unexpected"])
      by (apply list_elem_of_In; simpl; tauto).
    edestruct (Hgood Hmode 1%positive) as (c' & Hcall & Hfield & _);
      [reflexivity|vm_compute; reflexivity|].
    exists c'. split; [exact Hcall|exact Hfield].
  - apply (C7_setter_validation (ptrOf emptyEnvironmentRun) "always"
             (heapOf emptyEnvironmentRun)).
    intros Hmode. apply list_elem_of_In in Hmode. simpl in Hmode.
    destruct Hmode as [H|[H|[H|[]]]]; discriminate H.
Defined.

(** C8.  For a program made by the constructor and the chain methods,
    the renderer does not reach the fatal branch of its type switch: it
    returns a text.  When [WithAutoRestart] or [WithAutoRestartMode] has
    been called, the text has the autorestart line, whose value is the
    literal of the boolean or the mode string as it is, whichever was
    set last; when neither has been called the line is not written. *)
Theorem C8_autorestart (ord : MapOrder) (name root userName slogRoot : string)
    (ss : list Setter) (h0 h : heap) (p : ptr) :
  build name root userName slogRoot ss h0 = (Ok p, h) →
  GenerateProgramConfig ord h p ≠ Panic ImpossibleInvalidType ∧
  ∃ c,
    derefProgram h p = Ok c ∧
    GenerateProgramConfig ord h p = Ok (unlines (programLines ord c)) ∧
    match lastCall pickAutoRestart ss with
    | Some (AnyBool b) =>
        lineEmitted c LAutoRestart = true ∧
        lineText ord c LAutoRestart
        = "autorestart     = " +:+ GoStrconv.FormatBool b ∧
        "autorestart     = " +:+ GoStrconv.FormatBool b ∈ programLines ord c
    | Some (AnyString m) =>
        lineEmitted c LAutoRestart = true ∧
        lineText ord c LAutoRestart = "autorestart     = " +:+ m ∧
        "autorestart     = " +:+ m ∈ programLines ord c
    | Some AnyOther => False
    | None => lineEmitted c LAutoRestart = false
    end.
Proof.
  intros Hbuild.
  apply build_Ok_inv in Hbuild as (l & c0 & c & Hnew & Hss & _ & -> & ->).
  pose proof (applySetters_built _ _ _ _ _ _ _ Hnew Hss) as Hb.
  pose proof (GenerateProgramConfig_lines ord _ _ c
                (derefProgram_insert l c (programObjects h0) (groupObjects h0))
                (built_renders _ _ _ _ _ _ Hb)) as Hgen.
  split; [by rewrite Hgen|].
  exists c. split; [apply derefProgram_insert|]. split; [exact Hgen|].
  assert (Hshown : lineEmitted c LAutoRestart
                   = bool_decide (is_Some (lastCall pickAutoRestart ss))).
  { change (lineEmitted c LAutoRestart) with (fieldIsSet c FAutoRestart).
    rewrite (built_isSet _ _ _ _ _ _ Hb).
    apply called_lastCall, pickAutoRestart_field. }
  assert (Htext : lineText ord c LAutoRestart
                  = "autorestart     = "
                    +:+ autoRestartText
                          (default (AnyString "unexpected")
                             (lastCall pickAutoRestart ss))).
  { cbn [lineText]. by rewrite (built_AutoRestart _ _ _ _ _ _ Hb). }
  destruct (lastCall pickAutoRestart ss) as [v|] eqn:Hlast; [|exact Hshown].
  pose proof (lastCall_pickAutoRestart _ _ Hlast) as Hv.
  destruct v as [b|m|]; [| |done].
  - split_and!; [exact Hshown|exact Htext|].
    pose proof (lineEmitted_programLines ord c LAutoRestart Hshown) as Hin.
    rewrite Htext in Hin. exact Hin.
  - split_and!; [exact Hshown|exact Htext|].
    pose proof (lineEmitted_programLines ord c LAutoRestart Hshown) as Hin.
    rewrite Htext in Hin. exact Hin.
Qed.

Lemma C8_witness :
  ∃ p h,
    build "order-service" "/opt/order-service" "deploy" "/var/log/cluster"
      [CallAutoRestartMode "unexpected"; CallLogMaxBytes "200MB";
       CallAutoRestart false] emptyHeap = (Ok p, h) ∧
    GenerateProgramConfig listed h p
    = Ok (unlines
            [ "[program:order-service]";
              "user            = deploy";
              "directory       = /opt/order-service";
              "command         = /opt/order-service/bin/order-service";
              "autorestart     = false";
              "stdout_logfile  = /var/log/cluster/order-service.log";
              "stdout_logfile_maxbytes = 200MB";
              "stderr_logfile  = /var/log/cluster/order-service.err";
              "stderr_logfile_maxbytes = 200MB" ]).
Proof.
  destruct (build "order-service" "/opt/order-service" "deploy" "/var/log/cluster"
              [CallAutoRestartMode "unexpected"; CallLogMaxBytes "200MB";
               CallAutoRestart false] emptyHeap)
    as [[p|e] h] eqn:Hbuild; [|vm_compute in Hbuild; discriminate Hbuild].
  destruct (C8_autorestart listed _ _ _ _ _ _ _ _ Hbuild)
    as (_ & c & Hc & Hgen & _).
  exists p, h. split; [reflexivity|].
  rewrite Hgen. vm_compute in Hbuild. injection Hbuild as <- <-.
  vm_compute in Hc. injection Hc as <-.
  vm_compute. reflexivity.
Defined.

(** C9, as stated, fails: a group with a name and one member, the nil
    pointer that [AddProgram] accepts, makes the renderer panic. *)
Lemma C9_counterexample :
  ∃ group h g,
    nilMemberRun = (Ok group, h) ∧
    derefGroup h group = Ok g ∧
    ¬ failsOnlyOnGuards (λ _, listed) h group g.
Proof.
  eexists _, _, _. split; [vm_compute; reflexivity|].
  split; [vm_compute; reflexivity|].
  intros [Hfails _].
  destruct Hfails as [Hname|Hprograms];
    [|discriminate Hname|discriminate Hprograms].
  exists NilDereference. vm_compute. reflexivity.
Qed.

(** C9, amended.  On an allocated group the renderer panics exactly when
    the name is blank, the sequence of programs is empty, or a member
    does not render; with a blank name or an empty sequence it panics
    with the panic of the guard for it, [must.Nice] or [must.Have].  It
    returns nothing when it panics; when it returns, the text is
    complete: the two group lines, a blank line and the block of every
    member.  On the nil group it panics in its first guard, [must.Full]. *)
Theorem C9_group_failure (ords : nat → MapOrder) (h : heap) (group : ptr)
    (g : GroupConfig) :
  derefGroup h group = Ok g →
  ((∃ e, GenerateGroupConfig ords h group = Panic e) ↔
   GroupName g = "" ∨ Programs g = [] ∨
   ∃ i p e, Programs g !! i = Some p ∧
            GenerateProgramConfig (ords i) h p = Panic e) ∧
  (GroupName g = "" → GenerateGroupConfig ords h group = Panic MustNice) ∧
  (GroupName g ≠ "" → Programs g = [] →
   GenerateGroupConfig ords h group = Panic MustHave) ∧
  (∀ text, GenerateGroupConfig ords h group = Ok text →
     ∃ cfss, renderings ords h 0 (Programs g) = Ok cfss ∧
             length cfss = length (Programs g) ∧
             text = groupText (GroupName g) (memberNames h (Programs g)) cfss) ∧
  GenerateGroupConfig ords h None = Panic MustFull.
Proof.
  intros Hg. rewrite (GenerateGroupConfig_allocated ords h group g Hg).
  destruct (Nice_case (GroupName g)) as [[Hname ->]|[Hname ->]].
  { rewrite bind_Panic. split_and!; try done.
    split; [by left|by eexists]. }
  rewrite bind_Ok.
  destruct (Programs g) as [|p ps] eqn:Hps.
  { cbn [Must.Have]. rewrite bind_Panic. split_and!; try done.
    split; [by right; left|by eexists]. }
  cbn [Must.Have]. rewrite bind_Ok, <- Hps.
  assert (Hne : Programs g ≠ []) by (by rewrite Hps).
  clear p ps Hps.
  split_and!; try done.
  - split.
    + intros [e He]. right. right.
      destruct (renderings_Panic ords h 0 (Programs g)) as [Hmember _].
      apply Hmember.
      destruct (programNames h (Programs g)) as [names|e'] eqn:Hnames.
      * rewrite bind_Ok in He.
        destruct (renderings ords h 0 (Programs g)) as [cfss|e''];
          [by rewrite bind_Ok in He|by eexists].
      * by apply (programNames_Panic ords h 0) in Hnames.
    + intros [Hname'|[Hprograms|Hmember]]; [done..|].
      apply (renderings_Panic ords h 0) in Hmember as [e He].
      destruct (programNames h (Programs g)) as [names|e'];
        [rewrite bind_Ok, He, bind_Panic|rewrite bind_Panic]; by eexists.
  - intros text.
    destruct (programNames h (Programs g)) as [names|e'] eqn:Hnames;
      [rewrite bind_Ok|by rewrite bind_Panic].
    destruct (renderings ords h 0 (Programs g)) as [cfss|e''] eqn:Hcfss;
      [rewrite bind_Ok|by rewrite bind_Panic].
    intros [= <-]. exists cfss. split; [reflexivity|]. split.
    + by apply renderings_length in Hcfss.
    + by rewrite (programNames_memberNames _ _ _ Hnames).
Qed.

Lemma C9_witness :
  (∃ e, GenerateGroupConfig (λ _, listed) (heapOf nilMemberRun)
          (ptrOf nilMemberRun) = Panic e) ∧
  ∃ cfss,
    GenerateGroupConfig (λ _, listed) (heapOf testGroup) (ptrOf testGroup)
    = Ok (groupText "microservices" ["api-server"; "worker"] cfss) ∧
    length cfss = 2.
Proof.
  split.
  - eapply (C9_group_failure (λ _, listed) (heapOf nilMemberRun)
              (ptrOf nilMemberRun)).
    + vm_compute. reflexivity.
    + right. right. exists 0, None, MustFull. split; reflexivity.
  - edestruct (C9_group_failure (λ _, listed) (heapOf testGroup)
                 (ptrOf testGroup)) as (_ & _ & _ & Hok & _).
    + vm_compute. reflexivity.
    + destruct (GenerateGroupConfig (λ _, listed) (heapOf testGroup)
                  (ptrOf testGroup)) as [text|e] eqn:Hgen;
        [|vm_compute in Hgen; discriminate Hgen].
      destruct (Hok text eq_refl) as (cfss & _ & Hlen & ->).
      exists cfss. split; [reflexivity|exact Hlen].
Defined.

(** C10.  For a program made by the constructor and the chain methods:
    when the last [WithExitCodes] was given an empty list, the rendering
    has the exitcodes line with nothing after the equals sign and its
    space; when the last [WithEnvironment] was given an empty mapping,
    the rendering has no environment line. *)
Theorem C10_empty_values (ord : MapOrder) (name root userName slogRoot : string)
    (ss : list Setter) (h0 h : heap) (p : ptr) :
  build name root userName slogRoot ss h0 = (Ok p, h) →
  ∃ c,
    derefProgram h p = Ok c ∧
    GenerateProgramConfig ord h p = Ok (unlines (programLines ord c)) ∧
    (lastCall pickExitCodes ss = Some [] →
     IsSet (ExitCodes c) = true ∧
     lineEmitted c LExitCodes = true ∧
     lineText ord c LExitCodes = "exitcodes       = " ∧
     "exitcodes       = " ∈ programLines ord c) ∧
    (lastCall pickEnvironment ss = Some ∅ →
     IsSet (Environment c) = true ∧
     lineEmitted c LEnvironment = false ∧
     Forall (λ line, String.prefix "environment" line = false)
       (programLines ord c)).
Proof.
  intros Hbuild.
  apply build_Ok_inv in Hbuild as (l & c0 & c & Hnew & Hss & _ & -> & ->).
  pose proof (applySetters_built _ _ _ _ _ _ _ Hnew Hss) as Hb.
  exists c. split; [apply derefProgram_insert|].
  split.
  { apply GenerateProgramConfig_lines; [apply derefProgram_insert|].
    by eapply built_renders. }
  split.
  - intros Hlast.
    assert (Hset : IsSet (ExitCodes c) = true).
    { change (IsSet (ExitCodes c)) with (fieldIsSet c FExitCodes).
      rewrite (built_isSet _ _ _ _ _ _ Hb).
      rewrite (called_lastCall pickExitCodes _ _ pickExitCodes_field), Hlast.
      by apply bool_decide_eq_true_2. }
    assert (Htext : lineText ord c LExitCodes = "exitcodes       = ").
    { cbn [lineText]. by rewrite (built_ExitCodes _ _ _ _ _ _ Hb), Hlast. }
    split_and!; [exact Hset|exact Hset|exact Htext|].
    pose proof (lineEmitted_programLines ord c LExitCodes Hset) as Hin.
    rewrite Htext in Hin. exact Hin.
  - intros Hlast.
    assert (Hset : IsSet (Environment c) = true).
    { change (IsSet (Environment c)) with (fieldIsSet c FEnvironment).
      rewrite (built_isSet _ _ _ _ _ _ Hb).
      rewrite (called_lastCall pickEnvironment _ _ pickEnvironment_field), Hlast.
      by apply bool_decide_eq_true_2. }
    assert (Hline : lineEmitted c LEnvironment = false).
    { unfold lineEmitted; cbn [lineField].
      rewrite Hset, (built_Environment _ _ _ _ _ _ Hb), Hlast. simpl.
      by apply bool_decide_eq_false_2; intros H. }
    split_and!; [exact Hset|exact Hline|].
    by apply no_environment_line.
Qed.

Lemma C10_witness :
  ∃ p h,
    build "exit-service" "/opt/exit-service" "exit-user" "/var/log/exit"
      emptyValuesCalls emptyHeap = (Ok p, h) ∧
    GenerateProgramConfig listed h p
    = Ok (unlines
            [ "[program:exit-service]";
              "user            = exit-user";
              "directory       = /opt/exit-service";
              "command         = /opt/exit-service/bin/exit-service";
              "stdout_logfile  = /var/log/exit/exit-service.log";
              "stderr_logfile  = /var/log/exit/exit-service.err";
              "exitcodes       = " ]).
Proof.
  destruct (build "exit-service" "/opt/exit-service" "exit-user" "/var/log/exit"
              emptyValuesCalls emptyHeap)
    as [[p|e] h] eqn:Hbuild; [|vm_compute in Hbuild; discriminate Hbuild].
  destruct (C10_empty_values listed _ _ _ _ _ _ _ _ Hbuild)
    as (c & Hc & Hgen & _ & _).
  exists p, h. split; [reflexivity|].
  rewrite Hgen. vm_compute in Hbuild. injection Hbuild as <- <-.
  vm_compute in Hc. injection Hc as <-.
  vm_compute. reflexivity.
Defined.

(** * Further properties of the package

    ** The group: construction and insertion *)

Lemma updateGroup_allocated (f : GroupConfig → GroupConfig) (l : loc)
    (g : GroupConfig) (h : heap) :
  groupObjects h !! l = Some g →
  updateGroup f (Some l) h = (Ok (Some l), storeGroup l (f g) h).
Proof. intros Hl. unfold updateGroup, derefGroup. by rewrite Hl. Qed.

Lemma derefGroup_insert (l : loc) (g : GroupConfig)
    (m : gmap loc ProgramConfig) (gs : gmap loc GroupConfig) :
  derefGroup {| programObjects := m; groupObjects := <[l := g]> gs |} (Some l)
  = Ok g.
Proof. unfold derefGroup; simpl. by rewrite lookup_insert_eq. Qed.

(** X1.  [NewGroupConfig] panics in [must.Nice] on the empty name and
    leaves the heap as it was; on any other name it returns a new group
    with that name and no program, at an address not in use, and no
    program object changes.  The group it returns does not render yet:
    [GenerateGroupConfig] panics in [must.Have]. *)
Theorem X1_NewGroupConfig (ords : nat → MapOrder) (name : string) (h : heap) :
  (name = "" → NewGroupConfig name h = (Panic MustNice, h)) ∧
  (name ≠ "" →
   ∃ l,
     NewGroupConfig name h
     = (Ok (Some l), storeGroup l {| GroupName := name; Programs := [] |} h) ∧
     groupObjects h !! l = None ∧
     GenerateGroupConfig ords
       (storeGroup l {| GroupName := name; Programs := [] |} h) (Some l)
     = Panic MustHave).
Proof.
  split.
  - intros ->. reflexivity.
  - intros Hname. exists (fresh (dom (groupObjects h))).
    unfold NewGroupConfig. rewrite (Nice_ok _ Hname). unfold allocGroup.
    split_and!; [reflexivity|apply not_elem_of_dom, is_fresh|].
    rewrite (GenerateGroupConfig_allocated ords _ _ _ (derefGroup_insert _ _ _ _)).
    cbn [GroupName Programs]. by rewrite (Nice_ok _ Hname).
Qed.

Lemma X1_witness :
  NewGroupConfig "" emptyHeap = (Panic MustNice, emptyHeap) ∧
  ∃ l,
    NewGroupConfig "microservices" emptyHeap
    = (Ok (Some l),
       storeGroup l {| GroupName := "microservices"; Programs := [] |} emptyHeap) ∧
    GenerateGroupConfig (λ _, listed)
      (storeGroup l {| GroupName := "microservices"; Programs := [] |} emptyHeap)
      (Some l)
    = Panic MustHave.
Proof.
  split.
  - apply (X1_NewGroupConfig (λ _, listed) "" emptyHeap). reflexivity.
  - destruct (proj2 (X1_NewGroupConfig (λ _, listed) "microservices" emptyHeap))
      as (l & Hnew & _ & Hgen); [discriminate|].
    exists l. split; [exact Hnew|exact Hgen].
Defined.

(** [AddProgram] called for each pointer of a list, on an allocated
    group. *)
Lemma addAll_allocated (ps : list ptr) (l : loc) (g : GroupConfig) (h : heap) :
  groupObjects h !! l = Some g →
  addAll (Some l) ps h
  = (Ok (Some l),
     storeGroup l {| GroupName := GroupName g; Programs := Programs g ++ ps |} h).
Proof.
  revert g h. induction ps as [|p ps IH]; intros g h Hl; cbn [addAll].
  - f_equal. rewrite app_nil_r. destruct h as [pm gm]; simpl in *. f_equal.
    rewrite insert_id; [reflexivity|]. by destruct g.
  - unfold AddProgram. rewrite (updateGroup_allocated _ _ _ _ Hl).
    erewrite IH; [|apply lookup_insert_eq].
    simpl. by rewrite insert_insert_eq, <- app_assoc.
Qed.

(** X2.  [AddProgram] performs no check: called any number of times on an
    allocated group, it appends its arguments to the sequence in the
    order of the calls, nil pointers and repeated pointers included,
    keeps the name and the earlier members, returns its receiver and
    changes no other object.  On a receiver that holds no group, the nil
    pointer, it panics with the nil dereference and the heap is as
    before. *)
Theorem X2_AddProgram_appends (ps : list ptr) (group : ptr) (h : heap) :
  (∀ l g, group = Some l → groupObjects h !! l = Some g →
     addAll group ps h
     = (Ok group,
        storeGroup l
          {| GroupName := GroupName g; Programs := Programs g ++ ps |} h)) ∧
  (derefGroup h group = Panic NilDereference →
   ∀ p, AddProgram group p h = (Panic NilDereference, h)).
Proof.
  split.
  - intros l g -> Hl. by apply addAll_allocated.
  - intros Hgroup p. unfold AddProgram, updateGroup. by rewrite Hgroup.
Qed.

Lemma X2_witness :
  addAll (ptrOf nilMemberRun) [Some 7%positive; None; Some 7%positive]
    (heapOf nilMemberRun)
  = (Ok (ptrOf nilMemberRun),
     storeGroup 1%positive
       {| GroupName := "microservices";
          Programs := [None; Some 7%positive; None; Some 7%positive] |}
       (heapOf nilMemberRun)) ∧
  AddProgram None (Some 7%positive) emptyHeap = (Panic NilDereference, emptyHeap).
Proof.
  split.
  - apply (proj1 (X2_AddProgram_appends [Some 7%positive; None; Some 7%positive]
                    (ptrOf nilMemberRun) (heapOf nilMemberRun))
             1%positive {| GroupName := "microservices"; Programs := [None] |});
      vm_compute; reflexivity.
  - apply (proj2 (X2_AddProgram_appends [] None emptyHeap)). reflexivity.
Defined.

(** ** The chain methods: what they change and what they leave *)

Ltac unfold_setters :=
  unfold WithAutoStart, WithAutoRestart, WithStartRetries, WithStartSecs,
    WithLogMaxBytes, WithLogBackups, WithRedirectStderr, WithStopAsGroup,
    WithKillAsGroup, WithStopWaitSecs, WithStopSignal, WithPriority,
    WithEnvironment, WithExitCodes, WithNumProcs, WithProcessName.

Lemma derefProgram_Ok (h : heap) (p : ptr) (c : ProgramConfig) :
  derefProgram h p = Ok c ↔ ∃ l, p = Some l ∧ programObjects h !! l = Some c.
Proof.
  unfold derefProgram. split.
  - destruct p as [l|]; [|discriminate].
    destruct (programObjects h !! l) eqn:Hl; [|discriminate].
    intros [= ->]. by exists l.
  - intros (l & -> & ->). reflexivity.
Qed.

Lemma updateProgram_inv (f : ProgramConfig → ProgramConfig) (p : ptr)
    (h : heap) :
  (∃ l c, p = Some l ∧ programObjects h !! l = Some c ∧
          updateProgram f p h = (Ok p, storeProgram l (f c) h)) ∨
  (derefProgram h p = Panic NilDereference ∧
   updateProgram f p h = (Panic NilDereference, h)).
Proof.
  unfold updateProgram, derefProgram.
  destruct p as [l|]; [|by right].
  destruct (programObjects h !! l) as [c|] eqn:Hl; [|by right].
  left. by exists l, c.
Qed.

(** Every call of a chain method either stores [applySetter] of the
    object behind its receiver and returns the receiver, or panics and
    leaves the heap as it was. *)
Lemma callSetter_inv (p : ptr) (s : Setter) (h : heap) :
  (∃ l c c', p = Some l ∧ programObjects h !! l = Some c ∧
             applySetter s c = Ok c' ∧
             callSetter p s h = (Ok p, storeProgram l c' h)) ∨
  (∃ e, (e = NilDereference ∨ e = MustIn) ∧ callSetter p s h = (Panic e, h)).
Proof.
  destruct s; simpl; unfold_setters;
    try (match goal with
         | |- context [updateProgram ?f p h] =>
             destruct (updateProgram_inv f p h)
               as [(l & c & -> & Hl & ->)|[_ ->]];
             [left; by exists l, c, (f c)|right; eexists; by split; [left|]]
         end).
  unfold WithAutoRestartMode.
  destruct (Must.In mode _) as [[]|e] eqn:Hin; simpl.
  - match goal with
    | |- context [updateProgram ?f p h] =>
        destruct (updateProgram_inv f p h)
          as [(l & c & -> & Hl & ->)|[_ ->]];
         [left; by exists l, c, (f c)|right; eexists; by split; [left|]]
    end.
  - right. exists e. split; [|reflexivity].
    unfold Must.In in Hin. case_bool_decide; [discriminate|].
    right. congruence.
Qed.

Lemma callSetter_Ok_inv (p : ptr) (s : Setter) (h : heap) (p' : ptr)
    (h' : heap) :
  callSetter p s h = (Ok p', h') →
  ∃ l c c', p = Some l ∧ p' = p ∧ programObjects h !! l = Some c ∧
            applySetter s c = Ok c' ∧ h' = storeProgram l c' h.
Proof.
  destruct (callSetter_inv p s h)
    as [(l & c & c' & -> & Hl & Hs & ->)|(e & _ & ->)]; [|discriminate].
  intros [= <- <-]. by exists l, c, c'.
Qed.

Lemma GenerateProgramConfig_deref (ord : MapOrder) (h1 h2 : heap) (p : ptr) :
  derefProgram h1 p = derefProgram h2 p →
  GenerateProgramConfig ord h1 p = GenerateProgramConfig ord h2 p.
Proof.
  intros Hp. rewrite !GenerateProgramConfig_outcome. unfold outcome.
  by rewrite Hp.
Qed.

Lemma derefProgram_store_ne (l : loc) (c : ProgramConfig) (h : heap) (q : ptr) :
  q ≠ Some l → derefProgram (storeProgram l c h) q = derefProgram h q.
Proof.
  intros Hq. unfold derefProgram. destruct q as [l'|]; [|reflexivity].
  simpl. rewrite lookup_insert_ne; [reflexivity|congruence].
Qed.

(** X3.  A chain method that returns has changed one object only: it
    returns its receiver, allocates nothing, leaves every group and every
    other program as they were, and the rendering of every other program
    is what it was before the call. *)
Theorem X3_setter_frame (p : ptr) (s : Setter) (h : heap) (p' : ptr)
    (h' : heap) :
  callSetter p s h = (Ok p', h') →
  p' = p ∧
  groupObjects h' = groupObjects h ∧
  dom (programObjects h') = dom (programObjects h) ∧
  (∀ q, q ≠ p → derefProgram h' q = derefProgram h q) ∧
  (∀ ord q, q ≠ p →
     GenerateProgramConfig ord h' q = GenerateProgramConfig ord h q).
Proof.
  intros (l & c & c' & -> & -> & Hl & Hs & ->)%callSetter_Ok_inv.
  split_and!; [reflexivity|reflexivity| | |].
  - simpl. apply dom_insert_lookup_L. by eexists.
  - intros q Hq. by apply derefProgram_store_ne.
  - intros ord q Hq. apply GenerateProgramConfig_deref.
    by apply derefProgram_store_ne.
Qed.

Lemma X3_witness :
  let h := heapOf testGroup in
  ∃ h',
    callSetter (Some 1%positive) (CallPriority 5) h = (Ok (Some 1%positive), h') ∧
    groupObjects h' = groupObjects h ∧
    GenerateProgramConfig listed h' (Some 2%positive)
    = GenerateProgramConfig listed h (Some 2%positive).
Proof.
  intros h.
  destruct (callSetter (Some 1%positive) (CallPriority 5) h) as [[p'|e] h']
    eqn:Hcall; [|vm_compute in Hcall; discriminate Hcall].
  destruct (X3_setter_frame _ _ _ _ _ Hcall) as (-> & Hg & _ & _ & Hgen).
  exists h'. split_and!; [reflexivity|exact Hg|].
  apply Hgen. discriminate.
Defined.

(** X4.  A chain method that panics leaves the heap as it was, and its
    panic is the nil dereference or the rejection of the mode.  On a nil
    receiver every chain method panics; [WithAutoRestartMode] validates
    its argument before it touches the receiver, so there an invalid mode
    is what is reported. *)
Theorem X4_setter_panics (p : ptr) (s : Setter) (h : heap) :
  (∀ e h', callSetter p s h = (Panic e, h') →
           h' = h ∧ (e = NilDereference ∨ e = MustIn)) ∧
  callSetter None s h
  = (Panic match s with
           | CallAutoRestartMode mode =>
               if bool_decide (mode ∈ ["false"; "true"; "unexpected"])
               then NilDereference else MustIn
           | _ => NilDereference
           end, h).
Proof.
  split.
  - intros e h' Hcall.
    destruct (callSetter_inv p s h)
      as [(l & c & c' & -> & Hl & Hs & Heq)|(e' & He & Heq)];
      rewrite Heq in Hcall; [discriminate|].
    injection Hcall as <- <-. by split.
  - destruct s; try reflexivity.
    simpl. unfold WithAutoRestartMode, Must.In.
    by case_bool_decide.
Qed.

Lemma X4_witness :
  (callSetter (Some 1%positive) (CallAutoRestartMode "always") (heapOf testGroup)
   = (Panic MustIn, heapOf testGroup)) ∧
  callSetter None (CallAutoRestartMode "always") emptyHeap
  = (Panic MustIn, emptyHeap) ∧
  callSetter None (CallAutoRestartMode "true") emptyHeap
  = (Panic NilDereference, emptyHeap).
Proof.
  split_and!.
  - destruct (callSetter (Some 1%positive) (CallAutoRestartMode "always")
                (heapOf testGroup)) as [[q|e] h'] eqn:Hcall;
      [vm_compute in Hcall; discriminate Hcall|].
    destruct (proj1 (X4_setter_panics _ _ _) _ _ Hcall) as [-> _].
    f_equal. vm_compute in Hcall. congruence.
  - exact (proj2 (X4_setter_panics None (CallAutoRestartMode "always") emptyHeap)).
  - exact (proj2 (X4_setter_panics None (CallAutoRestartMode "true") emptyHeap)).
Defined.

(** ** Calls of one chain *)

Lemma chain_app (ss1 ss2 : list Setter) (p : ptr) (h : heap) :
  chain p (ss1 ++ ss2) h
  = match chain p ss1 h with
    | (Ok p', h') => chain p' ss2 h'
    | (Panic e, h') => (Panic e, h')
    end.
Proof.
  revert p h. induction ss1 as [|s ss1 IH]; intros p h; simpl; [reflexivity|].
  destruct (callSetter p s h) as [[p'|e] h']; [apply IH|reflexivity].
Qed.

Lemma chain_Ok_inv (ss : list Setter) (p : ptr) (h : heap) (q : ptr)
    (h' : heap) :
  chain p ss h = (Ok q, h') →
  q = p ∧
  (ss = [] ∧ h' = h ∨
   ∃ l c c', p = Some l ∧ programObjects h !! l = Some c ∧
             applySetters ss c = Ok c' ∧ h' = storeProgram l c' h).
Proof.
  destruct ss as [|s ss]; [intros [= <- <-]; split; [done|by left]|].
  intros Hchain. pose proof Hchain as Hchain'. simpl in Hchain'.
  destruct (callSetter p s h) as [[p1|e] h1] eqn:Hcall; [|discriminate].
  apply callSetter_Ok_inv in Hcall as (l & c & c1 & -> & -> & Hl & Hs & ->).
  clear Hchain'.
  pose proof (chain_allocated (s :: ss) l c h Hl) as Hall.
  destruct (applySetters (s :: ss) c) as [c'|e] eqn:Hss.
  - rewrite Hall in Hchain. injection Hchain as <- <-.
    split; [done|]. right. by exists l, c, c'.
  - destruct Hall as [h2 Hall]. rewrite Hall in Hchain. discriminate.
Qed.

(** The second of two calls that assign one field decides the object. *)
Lemma applySetter_same_field (s1 s2 : Setter) (c c1 : ProgramConfig) :
  setterField s1 = setterField s2 →
  applySetter s1 c = Ok c1 →
  applySetter s2 c1 = applySetter s2 c.
Proof.
  intros Hf Hs1.
  destruct s1, s2; try discriminate Hf; simpl in *;
    try (destruct (Must.In mode _) as [[]|?]; simpl in *; [|discriminate]);
    injection Hs1 as <-; try reflexivity;
    destruct (Must.In _ _) as [[]|?]; reflexivity.
Qed.

(** Two calls that assign different fields can be exchanged. *)
Lemma applySetter_comm (s1 s2 : Setter) (c c1 c2 : ProgramConfig) :
  setterField s1 ≠ setterField s2 →
  applySetter s1 c = Ok c1 →
  applySetter s2 c1 = Ok c2 →
  ∃ c1', applySetter s2 c = Ok c1' ∧ applySetter s1 c1' = Ok c2.
Proof.
  intros Hf Hs1 Hs2.
  destruct s1, s2; try (by destruct Hf); simpl in *;
    repeat match goal with
      | H : context [Must.In ?m ?l] |- _ =>
          destruct (Must.In m l) as [[]|?]; simpl in *; [|discriminate]
      end;
    injection Hs1 as <-; injection Hs2 as <-;
    eexists; (split; [reflexivity|]); reflexivity.
Qed.

Lemma applySetters_app (ss1 ss2 : list Setter) (c : ProgramConfig) :
  applySetters (ss1 ++ ss2) c = (c1 ← applySetters ss1 c; applySetters ss2 c1).
Proof.
  revert c. induction ss1 as [|s ss1 IH]; intros c; simpl; [reflexivity|].
  destruct (applySetter s c) as [c1|e]; simpl; [apply IH|reflexivity].
Qed.

Lemma applySetters_dead (s : Setter) (ss : list Setter) (c c' : ProgramConfig) :
  called ss (setterField s) = true →
  applySetters (s :: ss) c = Ok c' →
  applySetters ss c = Ok c'.
Proof.
  revert c. induction ss as [|s2 ss IH]; intros c Hcalled Hss; [discriminate|].
  cbn [applySetters] in Hss.
  destruct (applySetter s c) as [c1|e] eqn:Hs1; [|discriminate].
  rewrite bind_Ok in Hss.
  destruct (applySetter s2 c1) as [c2|e] eqn:Hs2; [|discriminate].
  rewrite bind_Ok in Hss. cbn [applySetters].
  destruct (decide (setterField s = setterField s2)) as [Hf|Hf].
  - rewrite <- (applySetter_same_field s s2 c c1 Hf Hs1), Hs2. by rewrite bind_Ok.
  - destruct (applySetter_comm s s2 c c1 c2 Hf Hs1 Hs2) as (c1' & -> & Hs1').
    rewrite bind_Ok. apply IH.
    + unfold called in *. cbn [existsb] in Hcalled.
      apply orb_true_iff in Hcalled as [Hc|Hc]; [|exact Hc].
      apply bool_decide_eq_true in Hc. by destruct Hf.
    + cbn [applySetters]. by rewrite Hs1', bind_Ok.
Qed.

(** What a chain that returns did, call by call on the object. *)
Lemma chain_applySetters (ss ss' : list Setter) (p : ptr) (h : heap) (q : ptr)
    (h' : heap) :
  chain p ss h = (Ok q, h') →
  (∀ c c', applySetters ss c = Ok c' → applySetters ss' c = Ok c') →
  (ss = [] → ss' = []) →
  chain p ss' h = (Ok q, h').
Proof.
  intros Hchain Hsame Hnil.
  destruct (chain_Ok_inv _ _ _ _ _ Hchain)
    as [-> [[-> ->]|(l & c & c' & -> & Hl & Hss & ->)]].
  - by rewrite (Hnil eq_refl).
  - pose proof (chain_allocated ss' l c h Hl) as Hall.
    by rewrite (Hsame _ _ Hss) in Hall.
Qed.

(** X5.  In a chain that returns, a call is dead when a later call of the
    chain assigns the same field: the heap, and with it every rendering,
    is the one of the chain without that call. *)
Theorem X5_last_call_wins (ss1 ss2 : list Setter) (s : Setter) (p : ptr)
    (h : heap) (q : ptr) (h' : heap) :
  called ss2 (setterField s) = true →
  chain p (ss1 ++ s :: ss2) h = (Ok q, h') →
  chain p (ss1 ++ ss2) h = (Ok q, h').
Proof.
  intros Hcalled Hchain.
  apply (chain_applySetters _ _ _ _ _ _ Hchain).
  - intros c c'. rewrite !applySetters_app.
    destruct (applySetters ss1 c) as [c1|e]; [|done].
    rewrite !bind_Ok. by apply applySetters_dead.
  - by destruct ss1.
Qed.

Lemma X5_witness :
  ∃ q h',
    chain (Some 1%positive)
      ([CallAutoStart false] ++ CallAutoRestartMode "true"
         :: [CallPriority 5; CallAutoRestart false])
      (heapOf testGroup) = (Ok q, h') ∧
    chain (Some 1%positive)
      ([CallAutoStart false] ++ [CallPriority 5; CallAutoRestart false])
      (heapOf testGroup) = (Ok q, h').
Proof.
  destruct (chain (Some 1%positive)
              ([CallAutoStart false] ++ CallAutoRestartMode "true"
                 :: [CallPriority 5; CallAutoRestart false])
              (heapOf testGroup)) as [[q|e] h'] eqn:Hchain;
    [|vm_compute in Hchain; discriminate Hchain].
  exists q, h'. split; [reflexivity|].
  apply (X5_last_call_wins _ _ (CallAutoRestartMode "true"));
    [reflexivity|exact Hchain].
Defined.

(** X6.  In a chain that returns, two adjacent calls that assign
    different fields can be exchanged: the heap, and with it every
    rendering, is the same. *)
Theorem X6_setters_commute (ss1 ss2 : list Setter) (s1 s2 : Setter) (p : ptr)
    (h : heap) (q : ptr) (h' : heap) :
  setterField s1 ≠ setterField s2 →
  chain p (ss1 ++ s1 :: s2 :: ss2) h = (Ok q, h') →
  chain p (ss1 ++ s2 :: s1 :: ss2) h = (Ok q, h').
Proof.
  intros Hf Hchain.
  apply (chain_applySetters _ _ _ _ _ _ Hchain).
  - intros c c'. rewrite !applySetters_app.
    destruct (applySetters ss1 c) as [c1|e]; [|done].
    rewrite !bind_Ok. cbn [applySetters].
    destruct (applySetter s1 c1) as [c2|e] eqn:Hs1; [|done].
    rewrite bind_Ok.
    destruct (applySetter s2 c2) as [c3|e] eqn:Hs2; [|done].
    rewrite bind_Ok. intros Hss.
    destruct (applySetter_comm s1 s2 c1 c2 c3 Hf Hs1 Hs2) as (c2' & -> & Hs1').
    by rewrite bind_Ok, Hs1', bind_Ok.
  - by destruct ss1.
Qed.

Lemma X6_witness :
  ∃ q h',
    chain (Some 1%positive)
      ([CallAutoStart false] ++ CallAutoRestartMode "true"
         :: CallPriority 5 :: [CallNumProcs 2])
      (heapOf testGroup) = (Ok q, h') ∧
    chain (Some 1%positive)
      ([CallAutoStart false] ++ CallPriority 5
         :: CallAutoRestartMode "true" :: [CallNumProcs 2])
      (heapOf testGroup) = (Ok q, h').
Proof.
  destruct (chain (Some 1%positive)
              ([CallAutoStart false] ++ CallAutoRestartMode "true"
                 :: CallPriority 5 :: [CallNumProcs 2])
              (heapOf testGroup)) as [[q|e] h'] eqn:Hchain;
    [|vm_compute in Hchain; discriminate Hchain].
  exists q, h'. split; [reflexivity|].
  apply (X6_setters_commute _ _ (CallAutoRestartMode "true") (CallPriority 5));
    [discriminate|exact Hchain].
Defined.

(** ** Groups and the programs they point to *)

(** X7.  A group holds pointers, not copies: a chain method called on a
    program after [AddProgram] put it into a group leaves the same heap
    as the same call made before [AddProgram], so the group renders the
    program as last modified. *)
Theorem X7_group_aliases (lg : loc) (g : GroupConfig) (p : ptr) (s : Setter)
    (h : heap) (p' : ptr) (h1 : heap) :
  groupObjects h !! lg = Some g →
  callSetter p s h = (Ok p', h1) →
  ∃ h2 h',
    AddProgram (Some lg) p h = (Ok (Some lg), h2) ∧
    callSetter p s h2 = (Ok p', h') ∧
    AddProgram (Some lg) p h1 = (Ok (Some lg), h').
Proof.
  intros Hg (l & c & c' & -> & -> & Hl & Hs & ->)%callSetter_Ok_inv.
  eexists _, _. split_and!.
  - unfold AddProgram. apply (updateGroup_allocated _ _ _ _ Hg).
  - rewrite (callSetter_allocated s l c); [|exact Hl]. rewrite Hs. reflexivity.
  - unfold AddProgram. rewrite (updateGroup_allocated _ lg g); [|exact Hg].
    reflexivity.
Qed.

Lemma X7_witness :
  let h := heapOf testGroup in
  ∃ h1 h2 h',
    callSetter (Some 2%positive) (CallPriority 5) h = (Ok (Some 2%positive), h1) ∧
    AddProgram (Some 1%positive) (Some 2%positive) h = (Ok (Some 1%positive), h2) ∧
    callSetter (Some 2%positive) (CallPriority 5) h2 = (Ok (Some 2%positive), h') ∧
    AddProgram (Some 1%positive) (Some 2%positive) h1 = (Ok (Some 1%positive), h').
Proof.
  intros h.
  destruct (callSetter (Some 2%positive) (CallPriority 5) h) as [[p'|e] h1]
    eqn:Hcall; [|vm_compute in Hcall; discriminate Hcall].
  assert (p' = Some 2%positive) as ->
    by (vm_compute in Hcall; congruence).
  assert (Hg : groupObjects h !! 1%positive
               = Some {| GroupName := "microservices";
                         Programs := [Some 1%positive; Some 2%positive] |})
    by (vm_compute; reflexivity).
  destruct (X7_group_aliases _ _ _ _ _ _ _ Hg Hcall)
    as (h2 & h' & Hadd & Hset & Hadd').
  exists h1, h2, h'. by split_and!.
Defined.

(** ** The renderers read the objects they are given, nothing else *)

Lemma programNames_local (h1 h2 : heap) (ps : list ptr) :
  Forall (λ p, derefProgram h1 p = derefProgram h2 p) ps →
  programNames h1 ps = programNames h2 ps.
Proof.
  induction 1 as [|p ps Hp _ IH]; simpl; [reflexivity|]. by rewrite Hp, IH.
Qed.

Lemma renderings_local (ords : nat → MapOrder) (h1 h2 : heap) (i : nat)
    (ps : list ptr) :
  Forall (λ p, derefProgram h1 p = derefProgram h2 p) ps →
  renderings ords h1 i ps = renderings ords h2 i ps.
Proof.
  intros Hps. revert i. induction Hps as [|p ps Hp _ IH]; intros i; simpl;
    [reflexivity|].
  by rewrite (GenerateProgramConfig_deref _ _ _ _ Hp), IH.
Qed.

(** X8.  [GenerateGroupConfig] depends on the group object and on the
    objects of its members only: on two heaps that agree on them it
    returns the same text or the same panic, whatever else the heaps
    hold. *)
Theorem X8_group_rendering_local (ords : nat → MapOrder) (h1 h2 : heap)
    (group : ptr) :
  derefGroup h1 group = derefGroup h2 group →
  (∀ g, derefGroup h1 group = Ok g →
        Forall (λ p, derefProgram h1 p = derefProgram h2 p) (Programs g)) →
  GenerateGroupConfig ords h1 group = GenerateGroupConfig ords h2 group.
Proof.
  intros Hg Hps.
  destruct (derefGroup h1 group) as [g|e] eqn:Hg1.
  - rewrite (GenerateGroupConfig_allocated ords h1 group g Hg1).
    rewrite (GenerateGroupConfig_allocated ords h2 group g (eq_sym Hg)).
    specialize (Hps g eq_refl).
    by rewrite (programNames_local _ _ _ Hps), (renderings_local _ _ _ _ _ Hps).
  - unfold GenerateGroupConfig. by rewrite Hg1, <- Hg.
Qed.

Lemma X8_witness :
  let h1 := heapOf testGroup in
  let h2 := heapOf (build "metrics" "/opt/metrics" "deploy" "/var/log/metrics"
                      [CallPriority 1] h1) in
  GenerateGroupConfig (λ _, listed) h1 (Some 1%positive)
  = GenerateGroupConfig (λ _, listed) h2 (Some 1%positive).
Proof.
  intros h1 h2.
  apply (X8_group_rendering_local (λ _, listed) h1 h2 (Some 1%positive)).
  - vm_compute. reflexivity.
  - intros g Hg. vm_compute in Hg. injection Hg as <-.
    repeat constructor; vm_compute; reflexivity.
Defined.

(** ** Objects made by the constructor and the chain methods *)

(** X9.  A [build] that returns (the constructor, then a chain of calls
    on what it returned) has allocated one object at an address not in
    use and has changed nothing else: the groups are as before, every
    program that was there is as before and renders as before, and so
    does every group whose rendering returned before. *)
Theorem X9_build_frame (name root userName slogRoot : string)
    (ss : list Setter) (h0 h : heap) (p : ptr) :
  build name root userName slogRoot ss h0 = (Ok p, h) →
  ∃ l,
    p = Some l ∧
    (l ∉ dom (programObjects h0)) ∧
    dom (programObjects h) = {[l]} ∪ dom (programObjects h0) ∧
    groupObjects h = groupObjects h0 ∧
    (∀ q c, derefProgram h0 q = Ok c → derefProgram h q = Ok c) ∧
    (∀ ord q text, GenerateProgramConfig ord h0 q = Ok text →
                   GenerateProgramConfig ord h q = Ok text) ∧
    (∀ ords group text, GenerateGroupConfig ords h0 group = Ok text →
                        GenerateGroupConfig ords h group = Ok text).
Proof.
  intros (l & c0 & c & _ & _ & Hfresh & -> & ->)%build_Ok_inv.
  assert (Hkeep : ∀ q c1, derefProgram h0 q = Ok c1 →
            derefProgram (storeProgram l c h0) q = derefProgram h0 q).
  { intros q c1 Hq. apply derefProgram_store_ne. intros ->.
    apply derefProgram_Ok in Hq as (l' & [= <-] & Hl).
    apply Hfresh, elem_of_dom. by eexists. }
  exists l. split_and!; [reflexivity|exact Hfresh|apply dom_insert_L|reflexivity| | |].
  - intros q c1 Hq. by rewrite (Hkeep q c1 Hq).
  - intros ord q text Hgen.
    destruct (GenerateProgramConfig_Ok_inv _ _ _ _ Hgen) as (c1 & Hq & _).
    by rewrite (GenerateProgramConfig_deref ord _ h0 q (Hkeep q c1 Hq)).
  - intros ords group text Hgen.
    assert (∃ g, derefGroup h0 group = Ok g) as [g Hg].
    { unfold GenerateGroupConfig in Hgen.
      destruct (Must.Full group); [rewrite bind_Ok in Hgen|discriminate].
      destruct (derefGroup h0 group) as [g|e]; [by exists g|discriminate]. }
    rewrite (GenerateGroupConfig_allocated ords h0 group g Hg) in Hgen.
    rewrite (GenerateGroupConfig_allocated ords (storeProgram l c h0) group g Hg).
    assert (Hps : Forall (λ q, derefProgram (storeProgram l c h0) q
                               = derefProgram h0 q) (Programs g)).
    { destruct (Must.Nice (GroupName g)); [|discriminate].
      destruct (Must.Have (Programs g)); [|discriminate].
      rewrite !bind_Ok in Hgen.
      destruct (programNames h0 (Programs g)) as [names|e] eqn:Hnames;
        [|discriminate].
      clear Hgen Hg. revert names Hnames.
      induction (Programs g) as [|q ps IH]; intros names Hnames; [constructor|].
      simpl in Hnames.
      destruct (derefProgram h0 q) as [c1|e] eqn:Hq; [|discriminate].
      rewrite bind_Ok in Hnames.
      destruct (programNames h0 ps) as [names'|e]; [|discriminate].
      constructor; [|by eapply IH].
      rewrite Hq. rewrite <- Hq. by eapply Hkeep. }
    by rewrite (programNames_local _ _ _ Hps), (renderings_local _ _ _ _ _ Hps).
Qed.

Lemma X9_witness :
  let h0 := heapOf testGroup in
  ∃ l h,
    build "metrics" "/opt/metrics" "deploy" "/var/log/metrics" [CallPriority 1] h0
    = (Ok (Some l), h) ∧
    (l ∉ dom (programObjects h0)) ∧
    groupObjects h = groupObjects h0.
Proof.
  intros h0.
  destruct (build "metrics" "/opt/metrics" "deploy" "/var/log/metrics"
              [CallPriority 1] h0) as [[p|e] h] eqn:Hbuild;
    [|vm_compute in Hbuild; discriminate Hbuild].
  destruct (X9_build_frame _ _ _ _ _ _ _ _ Hbuild)
    as (l & -> & Hfresh & _ & Hg & _).
  by exists l, h.
Defined.

(** ** Groups made through the package *)

(** What [buildAll] leaves: one object for each member, made as [built]
    says, and every object that was there before. *)
Lemma buildAll_Ok_inv
    (members : list (string * string * string * string * list Setter))
    (h0 h : heap) (ps : list ptr) :
  buildAll members h0 = (Ok ps, h) →
  groupObjects h = groupObjects h0 ∧
  (∀ q c, derefProgram h0 q = Ok c → derefProgram h q = Ok c) ∧
  Forall2 (λ '(name, root, userName, slogRoot, ss) p,
             ∃ c, derefProgram h p = Ok c ∧
                  built name root userName slogRoot ss c)
    members ps.
Proof.
  revert h0 ps.
  induction members as [|[[[[name root] userName] slogRoot] ss] members IH];
    intros h0 ps; cbn [buildAll].
  - intros [= <- <-]. by split_and!.
  - destruct (build name root userName slogRoot ss h0) as [[p|e] ha] eqn:Hbuild;
      [|discriminate].
    destruct (buildAll members ha) as [[ps'|e] hb] eqn:Hall; [|discriminate].
    intros [= <- <-].
    destruct (IH _ _ Hall) as (Hg & Hkeep & Hps).
    destruct (build_rendering listed _ _ _ _ _ _ _ _ Hbuild)
      as (c & Hp & Hbuilt & _).
    apply build_Ok_inv in Hbuild as (l & c0 & c' & _ & _ & Hfresh & -> & ->).
    split_and!.
    + by rewrite Hg.
    + intros q c1 Hq. apply Hkeep.
      rewrite derefProgram_store_ne; [exact Hq|]. intros ->.
      apply derefProgram_Ok in Hq as (l' & [= <-] & Hl).
      apply Hfresh, elem_of_dom. by eexists.
    + constructor; [|exact Hps]. exists c. split; [|exact Hbuilt].
      by apply Hkeep.
Qed.

Lemma built_programLines (ord : MapOrder) (name root userName slogRoot : string)
    (ss : list Setter) (c : ProgramConfig) :
  built name root userName slogRoot ss c →
  programLines ord c = linesShown (lineAfterCalls ss) (lineText ord c).
Proof.
  intros Hbuilt. apply linesShown_ext. intros l.
  by eapply built_lineEmitted.
Qed.

(** The two loops of the group renderer over built members. *)
Lemma built_members_render (ords : nat → MapOrder) (h : heap)
    (members : list (string * string * string * string * list Setter))
    (ps : list ptr) (i : nat) :
  Forall2 (λ '(name, root, userName, slogRoot, ss) p,
             ∃ c, derefProgram h p = Ok c ∧
                  built name root userName slogRoot ss c)
    members ps →
  programNames h ps = Ok (map nameGiven members) ∧
  ∃ cfss,
    renderings ords h i ps = Ok cfss ∧
    Forall2 (λ '(name, root, userName, slogRoot, ss) cfs,
               ∃ ord c, built name root userName slogRoot ss c ∧
                 cfs = unlines (linesShown (lineAfterCalls ss) (lineText ord c)))
      members cfss.
Proof.
  intros Hps. revert i.
  induction Hps as [|[[[[name root] userName] slogRoot] ss] p members ps
                      (c & Hp & Hbuilt) _ IH]; intros i.
  - split; [reflexivity|]. exists []. by split.
  - destruct (IH (S i)) as (Hnames & cfss & Hcfss & Hall).
    split.
    + cbn [programNames map]. rewrite Hp, bind_Ok, Hnames, bind_Ok.
      by rewrite <- (built_Name _ _ _ _ _ _ Hbuilt).
    + eexists (_ :: cfss). split.
      * cbn [renderings].
        rewrite (GenerateProgramConfig_lines (ords i) h p c Hp
                   (built_renders _ _ _ _ _ _ Hbuilt)).
        rewrite bind_Ok, Hcfss, bind_Ok. reflexivity.
      * constructor; [|exact Hall]. exists (ords i), c. split; [exact Hbuilt|].
        by rewrite (built_programLines _ _ _ _ _ _ _ Hbuilt).
Qed.

(** X10.  A group made through the package only (every member by the
    constructor and a chain of calls, then [NewGroupConfig] and one
    [AddProgram] for each member) fails to render in one case, the group
    without a member, where [must.Have] panics.  With a member or more
    the renderer returns: the names of the [programs=] line are the
    names given to the constructor, in the order of the [AddProgram]
    calls, and the block of every member is made of the lines its own
    calls ask for. *)
Theorem X10_built_group_renders (ords : nat → MapOrder) (name : string)
    (members : list (string * string * string * string * list Setter))
    (h0 h1 h2 h3 : heap) (ps : list ptr) (g g' : ptr) :
  buildAll members h0 = (Ok ps, h1) →
  NewGroupConfig name h1 = (Ok g, h2) →
  addAll g ps h2 = (Ok g', h3) →
  (members = [] → GenerateGroupConfig ords h3 g' = Panic MustHave) ∧
  (members ≠ [] →
   ∃ cfss,
     GenerateGroupConfig ords h3 g'
     = Ok (groupText name (map nameGiven members) cfss) ∧
     Forall2 (λ '(name, root, userName, slogRoot, ss) cfs,
                ∃ ord c, built name root userName slogRoot ss c ∧
                  cfs = unlines (linesShown (lineAfterCalls ss) (lineText ord c)))
       members cfss).
Proof.
  intros Hall Hnew Hadd.
  destruct (buildAll_Ok_inv _ _ _ _ Hall) as (_ & _ & Hps).
  unfold NewGroupConfig in Hnew.
  destruct (Nice_case name) as [[_ Hn]|[Hname Hn]]; rewrite Hn in Hnew;
    [discriminate|].
  unfold allocGroup in Hnew. injection Hnew as <- <-.
  rewrite (addAll_allocated ps _ {| GroupName := name; Programs := [] |})
    in Hadd; [|apply lookup_insert_eq].
  injection Hadd as <- <-. cbn [GroupName Programs app].
  match goal with
  | |- context [GenerateGroupConfig ords ?h ?g] =>
      rewrite (GenerateGroupConfig_allocated ords h g
                 {| GroupName := name; Programs := ps |})
  end; [|cbn; by rewrite insert_insert_eq, lookup_insert_eq].
  cbn [GroupName Programs]. rewrite (Nice_ok _ Hname), bind_Ok.
  split.
  - intros ->. by apply Forall2_nil_inv_l in Hps as ->.
  - intros Hmembers.
    assert (Hhave : Must.Have ps = Ok ps).
    { destruct Hps; [done|reflexivity]. }
    rewrite Hhave, bind_Ok.
    match goal with
    | |- context [programNames ?h ps] =>
        destruct (built_members_render ords h members ps 0)
          as (Hnames & cfss & Hcfss & Hforall)
    end.
    { eapply Forall2_impl; [exact Hps|].
      intros [[[[n r] u] s] ss] p (c & Hp & Hbuilt). exists c.
      split; [|exact Hbuilt]. exact Hp. }
    rewrite Hnames, bind_Ok, Hcfss, bind_Ok. by exists cfss.
Qed.

Lemma X10_witness :
  let members :=
    [("api-server", "/opt/api-server", "deploy", "/var/log/services",
      [CallStartRetries 3]);
     ("worker", "/opt/worker", "deploy", "/var/log/services",
      [CallAutoStart false])] in
  ∃ ps h1 g h2 g' h3 cfss,
    buildAll members emptyHeap = (Ok ps, h1) ∧
    NewGroupConfig "microservices" h1 = (Ok g, h2) ∧
    addAll g ps h2 = (Ok g', h3) ∧
    GenerateGroupConfig (λ _, listed) h3 g'
    = Ok (groupText "microservices" ["api-server"; "worker"] cfss).
Proof.
  intros members.
  destruct (buildAll members emptyHeap) as [[ps|e] h1] eqn:Hall;
    [|vm_compute in Hall; discriminate Hall].
  destruct (NewGroupConfig "microservices" h1) as [[g|e] h2] eqn:Hnew;
    [|vm_compute in Hall; injection Hall as <- <-;
      vm_compute in Hnew; discriminate Hnew].
  destruct (addAll g ps h2) as [[g'|e] h3] eqn:Hadd;
    [|vm_compute in Hall; injection Hall as <- <-;
      vm_compute in Hnew; injection Hnew as <- <-;
      vm_compute in Hadd; discriminate Hadd].
  destruct (proj2 (X10_built_group_renders (λ _, listed) _ _ _ _ _ _ _ _ _
                     Hall Hnew Hadd)) as (cfss & Hgen & _); [discriminate|].
  exists ps, h1, g, h2, g', h3, cfss. by split_and!.
Defined.

(** ** The guards of the program renderer *)

(** X11.  [GenerateProgramConfig] checks before it writes: a nil pointer
    panics in [must.Full]; an object one of whose four required strings
    is empty panics in [must.Nice], whatever its optional fields hold;
    past these guards the one failure left is the auto-restart value
    that is set and neither a [bool] nor a [string]; every other object
    renders.  (The objects are those of the heap: their optional fields
    are [Opt] values, as the constructor makes them.) *)
Theorem X11_render_guards (ord : MapOrder) (h : heap) (p : ptr) :
  (p = None → GenerateProgramConfig ord h p = Panic MustFull) ∧
  (∀ c, derefProgram h p = Ok c →
     (Name c = "" ∨ Root c = "" ∨ UserName c = "" ∨ SlogRoot c = "" →
      GenerateProgramConfig ord h p = Panic MustNice) ∧
     (Name c ≠ "" → Root c ≠ "" → UserName c ≠ "" → SlogRoot c ≠ "" →
      GenerateProgramConfig ord h p
      = if IsSet (AutoRestart c) && bool_decide (Get (AutoRestart c) = AnyOther)
        then Panic ImpossibleInvalidType
        else Ok (unlines (programLines ord c)))).
Proof.
  rewrite GenerateProgramConfig_outcome. unfold outcome. split.
  - intros ->. reflexivity.
  - intros c Hc. rewrite Hc.
    apply derefProgram_Ok in Hc as (l & -> & _).
    change (Must.Full (Some l)) with (@Ok ptr (Some l)). rewrite !bind_Ok.
    split.
    + intros Hblank.
      destruct (Nice_case (Name c)) as [[_ ->]|[Hn ->]]; [reflexivity|].
      rewrite bind_Ok.
      destruct (Nice_case (Root c)) as [[_ ->]|[Hr ->]]; [reflexivity|].
      rewrite bind_Ok.
      destruct (Nice_case (UserName c)) as [[_ ->]|[Hu ->]]; [reflexivity|].
      rewrite bind_Ok.
      destruct (Nice_case (SlogRoot c)) as [[_ ->]|[Hs ->]]; [reflexivity|].
      tauto.
    + intros Hn Hr Hu Hs.
      by rewrite (Nice_ok _ Hn), bind_Ok, (Nice_ok _ Hr), bind_Ok,
        (Nice_ok _ Hu), bind_Ok, (Nice_ok _ Hs), bind_Ok.
Qed.

Lemma X11_witness :
  GenerateProgramConfig listed emptyHeap None = Panic MustFull ∧
  ∃ c,
    derefProgram (heapOf testGroup) (Some 1%positive) = Ok c ∧
    GenerateProgramConfig listed (heapOf testGroup) (Some 1%positive)
    = Ok (unlines (programLines listed c)).
Proof.
  split.
  - apply (X11_render_guards listed emptyHeap None). reflexivity.
  - destruct (derefProgram (heapOf testGroup) (Some 1%positive)) as [c|e]
      eqn:Hc; [|vm_compute in Hc; discriminate Hc].
    exists c. split; [reflexivity|].
    destruct (proj2 (X11_render_guards listed _ _) c Hc) as [_ Hok].
    vm_compute in Hc. injection Hc as <-.
    rewrite Hok; [reflexivity|discriminate..].
Defined.

(** ** The lines of a rendering, by label *)












(** ** A chain method and the lines of the other fields *)





(** ** The joined exit codes *)

Lemma string_of_uint_noComma (d : Decimal.uint) :
  noComma (NilEmpty.string_of_uint d) = true.
Proof. induction d; simpl; done. Qed.

Lemma string_of_uint_nonempty (d : Decimal.uint) :
  d ≠ Decimal.Nil → NilEmpty.string_of_uint d ≠ "".
Proof. by destruct d. Qed.

Lemma Itoa_noComma (i : Z) : noComma (GoStrconv.Itoa i) = true.
Proof.
  unfold GoStrconv.Itoa. destruct i; simpl; try apply string_of_uint_noComma.
  reflexivity.
Qed.

Lemma Itoa_nonempty (i : Z) : GoStrconv.Itoa i ≠ "".
Proof.
  unfold GoStrconv.Itoa. destruct i; simpl; try done.
  apply string_of_uint_nonempty, DecimalPos.Unsigned.to_uint_nonnil.
Qed.

Lemma Itoa_inj (i j : Z) : GoStrconv.Itoa i = GoStrconv.Itoa j → i = j.
Proof.
  unfold GoStrconv.Itoa. intros Heq.
  apply (f_equal NilEmpty.int_of_string) in Heq.
  rewrite !NilEmpty.isi in Heq.
  injection Heq as Heq. apply (f_equal Z.of_int) in Heq.
  by rewrite !DecimalZ.of_to in Heq.
Qed.

(** Two joined strings that agree up to their first comma. *)
Lemma comma_split (e1 e2 r1 r2 : string) :
  noComma e1 = true → noComma e2 = true →
  e1 +:+ "," +:+ r1 = e2 +:+ "," +:+ r2 → e1 = e2 ∧ r1 = r2.
Proof.
  revert e2. induction e1 as [|a e1 IH]; intros [|b e2] H1 H2 Heq;
    repeat (rewrite app_cons in Heq || rewrite app_empty_l in Heq).
  - injection Heq as <-. done.
  - injection Heq as <- _. discriminate H2.
  - injection Heq as -> _. discriminate H1.
  - injection Heq as <- Heq. simpl in H1, H2.
    apply andb_true_iff in H1 as [_ H1]. apply andb_true_iff in H2 as [_ H2].
    destruct (IH e2 H1 H2 Heq) as [-> ->]. done.
Qed.

Lemma noComma_app_comma (e r : string) : noComma (e +:+ "," +:+ r) = false.
Proof.
  induction e as [|a e IH]; [reflexivity|].
  rewrite app_cons. simpl. rewrite IH. apply andb_false_r.
Qed.

Lemma Join_Itoa_cons (x y : Z) (items : list Z) (sep : string) :
  GoStrings.Join (map GoStrconv.Itoa (x :: y :: items)) sep
  = GoStrconv.Itoa x +:+ sep +:+ GoStrings.Join (map GoStrconv.Itoa (y :: items)) sep.
Proof. reflexivity. Qed.

Lemma Join_Itoa_inj (items1 items2 : list Z) :
  items1 ≠ [] → items2 ≠ [] →
  GoStrings.Join (map GoStrconv.Itoa items1) ","
  = GoStrings.Join (map GoStrconv.Itoa items2) "," →
  items1 = items2.
Proof.
  revert items2. induction items1 as [|x [|x' items1] IH];
    intros [|y [|y' items2]] Hne1 Hne2; try done.
  - intros Heq%Itoa_inj. by subst.
  - rewrite Join_Itoa_cons. cbn [map GoStrings.Join]. intros Heq.
    pose proof (Itoa_noComma x) as Hx. rewrite Heq in Hx.
    by rewrite noComma_app_comma in Hx.
  - rewrite Join_Itoa_cons. cbn [map GoStrings.Join]. intros Heq.
    pose proof (Itoa_noComma y) as Hy. rewrite <- Heq in Hy.
    by rewrite noComma_app_comma in Hy.
  - rewrite !Join_Itoa_cons. intros Heq.
    apply comma_split in Heq as [Hxy Hrest]; try apply Itoa_noComma.
    apply Itoa_inj in Hxy as ->. f_equal. by apply IH.
Qed.

(** X15.  [combineInts] returns the empty string for the empty sequence
    only, and with the comma the renderer passes it loses nothing: two
    sequences of exit codes that give the same string are the same
    sequence. *)
Theorem X15_combineInts_faithful (items1 items2 : list Z) (sep : string) :
  (combineInts items1 sep = "" ↔ items1 = []) ∧
  (combineInts items1 "," = combineInts items2 "," → items1 = items2).
Proof.
  assert (Hempty : ∀ items s, combineInts items s = "" ↔ items = []).
  { intros items s. unfold combineInts. case_bool_decide as Hlen.
    - by apply nil_length_inv in Hlen.
    - destruct items as [|x items]; [done|]. split; [|done].
      intros Hjoin. exfalso. revert Hjoin. cbn [map].
      apply Join_cons_ne, Itoa_nonempty. }
  split; [apply Hempty|].
  intros Heq.
  destruct (decide (items1 = [])) as [->|Hne1].
  { symmetry in Heq. apply Hempty in Heq. by subst. }
  destruct (decide (items2 = [])) as [->|Hne2].
  { by apply Hempty in Heq. }
  unfold combineInts in Heq.
  rewrite !bool_decide_eq_false_2 in Heq
    by (intros Hlen; by apply nil_length_inv in Hlen).
  by apply Join_Itoa_inj.
Qed.

Lemma X15_witness :
  combineInts [0; 2; 130]%Z "," ≠ "" ∧
  ([0; 2; 130]%Z ≠ [0; 2]%Z →
   combineInts [0; 2; 130]%Z "," ≠ combineInts [0; 2]%Z ",").
Proof.
  split.
  - intros Hempty.
    apply (proj1 (X15_combineInts_faithful [0; 2; 130]%Z [] ",")) in Hempty.
    discriminate Hempty.
  - intros Hne Heq. apply Hne.
    exact (proj2 (X15_combineInts_faithful [0; 2; 130]%Z [0; 2]%Z ",") Heq).
Defined.

(** ** The joined environment *)

(** X16.  [combineSsMap] writes every entry once, as [key=value]: for a
    mapping of one entry that is the whole string, whatever the
    separator; for a mapping of two entries the string is one of the two
    orders of the pairs with the separator between them, and which one
    is left to the range. *)
Theorem X16_combineSsMap_small (ord : MapOrder) (sep : string)
    (k1 v1 k2 v2 : string) :
  combineSsMap ord {[ k1 := v1 ]} sep = k1 +:+ "=" +:+ v1 ∧
  (k1 ≠ k2 →
   combineSsMap ord {[ k1 := v1; k2 := v2 ]} sep
   = (k1 +:+ "=" +:+ v1) +:+ sep +:+ (k2 +:+ "=" +:+ v2) ∨
   combineSsMap ord {[ k1 := v1; k2 := v2 ]} sep
   = (k2 +:+ "=" +:+ v2) +:+ sep +:+ (k1 +:+ "=" +:+ v1)).
Proof.
  split.
  - unfold combineSsMap. rewrite map_size_singleton.
    rewrite bool_decide_eq_false_2 by done.
    pose proof (rangeOver_entries ord {[ k1 := v1 ]}) as Hperm.
    rewrite map_to_list_singleton in Hperm.
    apply Permutation_singleton_r in Hperm. by rewrite Hperm.
  - intros Hne. unfold combineSsMap.
    assert (Hk : ({[ k2 := v2 ]} : gmap string string) !! k1 = None)
      by by apply lookup_singleton_None.
    rewrite map_size_insert_None by exact Hk.
    rewrite bool_decide_eq_false_2 by done.
    pose proof (rangeOver_entries ord {[ k1 := v1; k2 := v2 ]}) as Hperm.
    rewrite (map_to_list_insert _ _ _ Hk), map_to_list_singleton in Hperm.
    symmetry in Hperm. apply Permutation_length_2_inv in Hperm as [->| ->];
      [by left|by right].
Qed.

Lemma X16_witness :
  combineSsMap reversed {[ "APP_ENV" := "production"; "PORT" := "8080" ]} ","
  = "APP_ENV=production,PORT=8080" ∨
  combineSsMap reversed {[ "APP_ENV" := "production"; "PORT" := "8080" ]} ","
  = "PORT=8080,APP_ENV=production".
Proof.
  apply (proj2 (X16_combineSsMap_small reversed "," "APP_ENV" "production"
                  "PORT" "8080")).
  discriminate.
Defined.

(** ** The size of a rendering *)




(** ** Trimming a rendering *)

Lemma rev_app_append (s acc1 acc2 : string) :
  String.rev_app s (acc1 +:+ acc2) = String.rev_app s acc1 +:+ acc2.
Proof.
  revert acc1. induction s as [|a s IH]; intros acc1; simpl; [reflexivity|].
  by rewrite <- IH, app_cons.
Qed.

Lemma rev_cons (a : ascii) (s : string) :
  String.rev (String a s) = String.rev s +:+ String a "".
Proof.
  unfold String.rev. simpl.
  by rewrite <- rev_app_append, app_empty_l.
Qed.

Lemma rev_append (s t : string) :
  String.rev (s +:+ t) = String.rev t +:+ String.rev s.
Proof.
  induction s as [|a s IH].
  - by rewrite app_empty_l, app_empty_r.
  - by rewrite app_cons, !rev_cons, IH, app_assoc_s.
Qed.

Lemma rev_rev (s : string) : String.rev (String.rev s) = s.
Proof.
  induction s as [|a s IH]; [reflexivity|].
  by rewrite rev_cons, rev_append, IH.
Qed.

(** The closing bracket is no byte of a white space rune. *)
Lemma bracket_no_space (b c : ascii) :
  GoStrings.asciiSpace "]" = false ∧
  GoStrings.isSpace2 b "]" = false ∧
  GoStrings.isSpace2 "]" b = false ∧
  GoStrings.isSpace3 c b "]" = false ∧
  GoStrings.isSpace3 c "]" b = false ∧
  GoStrings.isSpace3 "]" c b = false.
Proof.
  split_and!; [reflexivity|..];
    apply bool_decide_eq_false_2; unfold GoStrings.spaceRunes; intros H;
    repeat (apply elem_of_cons in H as [H|H]; [discriminate H|]);
    by apply elem_of_nil in H.
Qed.

Lemma open_bracket_no_space (b c : ascii) :
  GoStrings.asciiSpace "[" = false ∧
  GoStrings.isSpace2 "[" b = false ∧
  GoStrings.isSpace3 "[" b c = false.
Proof.
  split_and!; [reflexivity|..];
    apply bool_decide_eq_false_2; unfold GoStrings.spaceRunes; intros H;
    repeat (apply elem_of_cons in H as [H|H]; [discriminate H|]);
    by apply elem_of_nil in H.
Qed.

(** Nothing is trimmed at the start of a string that opens with a
    bracket. *)
Lemma TrimLeftSpace_bracket (r : string) :
  GoStrings.TrimLeftSpace (String "[" r) = String "[" r.
Proof.
  destruct r as [|b [|c r]]; [reflexivity| |].
  - cbn [GoStrings.TrimLeftSpace].
    destruct (open_bracket_no_space b b) as (-> & -> & _). reflexivity.
  - cbn [GoStrings.TrimLeftSpace].
    destruct (open_bracket_no_space b c) as (-> & -> & ->). reflexivity.
Qed.

Ltac stop_here :=
  eexists "", _;
  split; [by rewrite app_empty_l|by rewrite ?app_cons, ?app_empty_l].

(** Trimming from the end stops at a closing bracket at the latest: on
    the reversed string, what is removed is a part of what precedes the
    bracket. *)
Lemma TrimLeftSpaceRev_bracket (n : nat) (x y : string) :
  (String.length x ≤ n)%nat →
  ∃ wsx x', x = wsx +:+ x' ∧
    GoStrings.TrimLeftSpaceRev (x +:+ String "]" y) = x' +:+ String "]" y.
Proof.
  revert x. induction n as [n IH] using lt_wf_ind. intros x Hlen.
  assert (Hrec : ∀ x0 pre, (String.length x0 < String.length x)%nat →
            x = pre +:+ x0 →
            ∃ wsx x', x = wsx +:+ x' ∧
              GoStrings.TrimLeftSpaceRev (x0 +:+ String "]" y)
              = x' +:+ String "]" y).
  { intros x0 pre Hlt ->.
    destruct (IH (String.length x0)) with (x := x0)
      as (wsx & x' & -> & Heq); [lia|lia|].
    exists (pre +:+ wsx), x'. by rewrite app_assoc_s. }
  destruct x as [|a x1].
  - rewrite app_empty_l. exists "", "". split; [reflexivity|].
    rewrite app_empty_l.
    destruct y as [|b [|c y]]; cbn [GoStrings.TrimLeftSpaceRev];
      [reflexivity| |].
    + by destruct (bracket_no_space b b) as (-> & -> & _).
    + by destruct (bracket_no_space b c) as (-> & -> & _ & -> & _).
  - rewrite app_cons. cbn [GoStrings.TrimLeftSpaceRev].
    destruct (GoStrings.asciiSpace a).
    { apply (Hrec x1 (String a "")); [simpl; lia|reflexivity]. }
    destruct x1 as [|b x2].
    + rewrite app_empty_l.
      destruct (bracket_no_space a a) as (_ & _ & -> & _).
      destruct y as [|c y]; [stop_here|].
      destruct (bracket_no_space a c) as (_ & _ & _ & _ & -> & _).
      stop_here.
    + rewrite app_cons.
      destruct (GoStrings.isSpace2 b a).
      { apply (Hrec x2 (String a (String b ""))); [simpl; lia|reflexivity]. }
      destruct x2 as [|c x3].
      * rewrite app_empty_l.
        destruct (bracket_no_space a b) as (_ & _ & _ & _ & _ & ->).
        stop_here.
      * rewrite app_cons.
        destruct (GoStrings.isSpace3 c b a).
        { apply (Hrec x3 (String a (String b (String c ""))));
            [simpl; lia|reflexivity]. }
        stop_here.
Qed.

Lemma unlines_ends (ls : list string) :
  ∃ r, Printgo.LF +:+ unlines ls = r +:+ Printgo.LF.
Proof.
  induction ls as [|l ls [r IH]].
  - exists "". reflexivity.
  - exists (Printgo.LF +:+ l +:+ r).
    by rewrite unlines_cons, IH, !app_assoc_s.
Qed.

(** What [strings.TrimSpace] leaves of a text made of a first line that
    ends with a closing bracket and of further lines: the first line and
    a part of what follows it; what it removes is at the end and is not
    empty. *)
Lemma TrimSpace_rendering (name : string) (ls : list string) :
  ∃ tail ws,
    unlines (("[program:" +:+ name +:+ "]") :: ls)
    = ("[program:" +:+ name +:+ "]") +:+ tail +:+ ws ∧
    ws ≠ "" ∧
    GoStrings.TrimSpace (unlines (("[program:" +:+ name +:+ "]") :: ls))
    = ("[program:" +:+ name +:+ "]") +:+ tail.
Proof.
  destruct (unlines_ends ls) as [r Hr].
  set (H := "[program:" +:+ name).
  assert (Htext : unlines (("[program:" +:+ name +:+ "]") :: ls)
                  = H +:+ "]" +:+ r +:+ Printgo.LF).
  { rewrite unlines_cons. unfold H. by rewrite !app_assoc_s, Hr. }
  destruct (TrimLeftSpaceRev_bracket (String.length (String.rev r))
              (String.rev r) (String.rev H) (le_n _))
    as (wsx & x' & Hx & Htrim).
  assert (Hr' : r = String.rev x' +:+ String.rev wsx).
  { by rewrite <- (rev_rev r), Hx, rev_append. }
  exists (String.rev x'), (String.rev wsx +:+ Printgo.LF). split_and!.
  - rewrite Htext, Hr'. unfold H. by rewrite !app_assoc_s.
  - intros Hws. destruct (String.rev wsx); discriminate Hws.
  - rewrite Htext. unfold GoStrings.TrimSpace.
    assert (H +:+ "]" +:+ r +:+ Printgo.LF
            = String "[" ("program:" +:+ name +:+ "]" +:+ r +:+ Printgo.LF)) as Hopen
      by (unfold H; by rewrite !app_assoc_s).
    rewrite Hopen, TrimLeftSpace_bracket, <- Hopen.
    unfold GoStrings.TrimRightSpace.
    assert (String.rev (H +:+ "]" +:+ r +:+ Printgo.LF)
            = String "010" (String.rev r +:+ String "]" (String.rev H))) as ->.
    { rewrite !rev_append. change (String.rev Printgo.LF) with Printgo.LF.
      change (String.rev "]") with "]". unfold Printgo.LF.
      by rewrite !app_assoc_s, !app_cons, !app_empty_l. }
    cbn [GoStrings.TrimLeftSpaceRev].
    change (GoStrings.asciiSpace "010") with true. cbv iota.
    rewrite Htrim, rev_append, rev_cons, rev_rev. unfold H.
    by rewrite !app_assoc_s.
Qed.

(** X18.  [strings.TrimSpace], which the group renderer applies to the
    rendering of each member, removes nothing at its start and stops at
    the closing bracket of the header at the latest: what is left is the
    header line followed by a part of the text after it, and what is
    removed, the final line terminator at least, was at the end. *)
Theorem X18_trimmed_rendering (ord : MapOrder) (h : heap) (p : ptr)
    (text : string) :
  GenerateProgramConfig ord h p = Ok text →
  ∃ c tail ws,
    derefProgram h p = Ok c ∧
    text = ("[program:" +:+ Name c +:+ "]") +:+ tail +:+ ws ∧
    ws ≠ "" ∧
    GoStrings.TrimSpace text = ("[program:" +:+ Name c +:+ "]") +:+ tail.
Proof.
  intros (c & Hc & _ & ->)%GenerateProgramConfig_Ok_inv.
  assert (Hlines : ∃ ls, programLines ord c
                         = ("[program:" +:+ Name c +:+ "]") :: ls)
    by (eexists; reflexivity).
  destruct Hlines as [ls ->].
  destruct (TrimSpace_rendering (Name c) ls) as (tail & ws & Htext & Hws & Htrim).
  by exists c, tail, ws.
Qed.

Lemma X18_witness :
  let h := heapOf testGroup in
  ∃ text tail ws,
    GenerateProgramConfig listed h (Some 1%positive) = Ok text ∧
    text = "[program:api-server]" +:+ tail +:+ ws ∧
    GoStrings.TrimSpace text = "[program:api-server]" +:+ tail.
Proof.
  intros h.
  destruct (GenerateProgramConfig listed h (Some 1%positive)) as [text|e]
    eqn:Hgen; [|vm_compute in Hgen; discriminate Hgen].
  destruct (X18_trimmed_rendering listed _ _ text Hgen)
    as (c & tail & ws & Hc & Htext & _ & Htrim).
  vm_compute in Hc. injection Hc as <-.
  by exists text, tail, ws.
Defined.

(** ** Lines are not taken back *)



